(** * derivatives-analyzer: the four analysis scripts, embedded and verified

    The scripts under [scripts/] fetch a table of quotes, filter it with
    boolean masks, take means per group and print lines.  This development
    embeds them as they are written:

    - Python and numpy floats are IEEE binary64 values, here Rocq's
      primitive [float] with the same operations and the same NaN
      behaviour of comparisons;
    - a pandas DataFrame is a list of column names with a list of rows;
      [df[c]] on a column that is absent raises [KeyError];
    - a script is a computation that prints lines and either returns or
      raises: the monad [M] below;
    - the remote data provider is an input: what the fetch gave back. *)

From Stdlib Require Import ZArith List Ascii String Bool Floats Uint63 Lia Sorted.
Import ListNotations.

Set Warnings "-inexact-float".

Local Open Scope string_scope.
Local Open Scope Z_scope.

(** ** Python and pandas primitives *)

Module Py.

(** [a > b], [a >= b] and [a != b] on floats; false (true for [!=]) as soon
    as one side is NaN. *)
Definition gtb (a b : float) : bool := PrimFloat.ltb b a.
Definition geb (a b : float) : bool := PrimFloat.leb b a.
Definition neqb (a b : float) : bool := negb (PrimFloat.eqb a b).

(** Conversion of an integer that meets a float in an arithmetic
    operation. *)
Definition float_of_int (z : Z) : float :=
  if z <? 0 then PrimFloat.opp (PrimFloat.of_uint63 (Uint63.of_Z (- z)))
  else PrimFloat.of_uint63 (Uint63.of_Z z).

Definition float_of_nat (n : nat) : float := float_of_int (Z.of_nat n).

(** [Series.notna()] and [Series.dropna()]. *)
Definition notna (x : float) : bool := negb (PrimFloat.is_nan x).
Definition dropna (xs : list float) : list float := filter notna xs.

(** [Series.fillna(v)] on a float column, and the number of entries that
    are not null. *)
Definition fillna (v : float) (xs : list float) : list float :=
  map (fun x => if PrimFloat.is_nan x then v else x) xs.

Definition count (xs : list float) : nat := List.length (dropna xs).

(** The sum of a float vector as numpy's [add.reduce] computes it, which
    is what [values.sum()] runs in pandas: the pairwise summation of
    [DOUBLE_pairwise_sum], added to the identity 0.

    - below 8 entries: one accumulator, left to right, from 0;
    - from 8 to 128 entries: eight accumulators [r[0..7]] that start as
      the first eight entries and take the following entries eight at a
      time, then [((r0+r1)+(r2+r3))+((r4+r5)+(r6+r7))], then the entries
      left over (fewer than 8), left to right;
    - above 128 entries: the vector is cut at [n/2] rounded down to a
      multiple of 8, and the sums of the two parts are added.

    A sum that is zero is [+0] here; numpy releases that start from [-0.0]
    differ on the sign of such a zero and on nothing else. *)
Definition sum_loop (a : list float) (res : float) : float :=
  fold_left PrimFloat.add a res.

Definition add_lanes (r chunk : list float) : list float :=
  map (fun p => PrimFloat.add (fst p) (snd p)) (combine r chunk).

(** [k] passes of the unrolled loop: the accumulators and what is left of
    the vector. *)
Fixpoint unrolled (k : nat) (r a : list float) : list float * list float :=
  match k with
  | O => (r, a)
  | S k' => unrolled k' (add_lanes r (firstn 8 a)) (skipn 8 a)
  end.

Definition lanes_total (r : list float) : float :=
  match r with
  | [r0; r1; r2; r3; r4; r5; r6; r7] =>
      PrimFloat.add
        (PrimFloat.add (PrimFloat.add r0 r1) (PrimFloat.add r2 r3))
        (PrimFloat.add (PrimFloat.add r4 r5) (PrimFloat.add r6 r7))
  | _ => sum_loop r 0%float (* not reached: there are eight accumulators *)
  end.

(** The branch for 8 to 128 entries; the unrolled loop runs
    [n / 8 - 1] times. *)
Definition block_sum (a : list float) : float :=
  let (r, rest) := unrolled (List.length a / 8 - 1) (firstn 8 a) (skipn 8 a) in
  sum_loop rest (lanes_total r).

(** [fuel] bounds the depth of the halving; the length of the vector is
    enough, each half being shorter. *)
Fixpoint pairwise_sum (fuel : nat) (a : list float) : float :=
  let n := List.length a in
  if (n <? 8)%nat then sum_loop a 0%float
  else if (n <=? 128)%nat then block_sum a
  else
    match fuel with
    | O => block_sum a
    | S fuel' =>
        let n2 := (n / 2 - (n / 2) mod 8)%nat in
        PrimFloat.add (pairwise_sum fuel' (firstn n2 a))
                      (pairwise_sum fuel' (skipn n2 a))
    end.

Definition np_sum (a : list float) : float :=
  PrimFloat.add 0%float (pairwise_sum (List.length a) a).

(** [Series.mean()] ([nanops.nanmean], [skipna=True]): the nulls are
    replaced by 0 in place, the vector is summed, and the sum is divided
    by the number of entries that are not null; NaN when there is none. *)
Definition Series_mean (xs : list float) : float :=
  if (count xs =? 0)%nat then PrimFloat.nan
  else PrimFloat.div (np_sum (fillna 0%float xs)) (float_of_nat (count xs)).

(** [Series.min()]: the least non-null entry, NaN when there is none. *)
Definition fmin (a b : float) : float := if PrimFloat.ltb b a then b else a.

Definition Series_min (xs : list float) : float :=
  match dropna xs with
  | [] => PrimFloat.nan
  | x :: t => fold_left fmin t x
  end.

(** [Series.std()] ([nanops.nanstd], [ddof=1], without the optional
    bottleneck routines): the square root of the variance by the two-pass
    formula.  [avg] is the sum of the vector (nulls as 0) over the count
    of entries that are not null; the squares [(avg - x) ** 2], 0 at the
    nulls, are summed and divided by [count - 1].  NaN when the count is
    at most 1. *)
Definition Series_std (xs : list float) : float :=
  if (count xs <=? 1)%nat then PrimFloat.nan
  else
    let avg := PrimFloat.div (np_sum (fillna 0%float xs)) (float_of_nat (count xs)) in
    let sqr :=
      map (fun x => if PrimFloat.is_nan x then 0%float
                    else PrimFloat.mul (PrimFloat.sub avg x) (PrimFloat.sub avg x)) xs in
    PrimFloat.sqrt (PrimFloat.div (np_sum sqr) (float_of_nat (count xs - 1))).

(** [Series.pct_change()]: entry [i] is [x_i / x_(i-1) - 1]; the first one
    is null.  The series is taken as it is: a null close makes the changes
    around it null. *)
Fixpoint pct_change_from (prev : float) (xs : list float) : list float :=
  match xs with
  | [] => []
  | x :: t => PrimFloat.sub (PrimFloat.div x prev) 1%float :: pct_change_from x t
  end.

Definition pct_change (xs : list float) : list float :=
  match xs with
  | [] => []
  | x :: t => PrimFloat.nan :: pct_change_from x t
  end.

(** [Series.tail(n)]: the last [n] entries; all but the first [-n] ones
    when [n] is negative. *)
Definition tail {A : Type} (n : Z) (xs : list A) : list A :=
  if n <? 0 then skipn (Z.to_nat (- n)) xs
  else skipn (List.length xs - Z.to_nat n)%nat xs.

(** [sorted(series.unique())] on integers: the distinct values, ascending. *)
Fixpoint insert_unique (x : Z) (l : list Z) : list Z :=
  match l with
  | [] => [x]
  | y :: t =>
      if x <? y then x :: l
      else if x =? y then l
      else y :: insert_unique x t
  end.

Definition sorted_unique (l : list Z) : list Z := fold_right insert_unique [] l.

(** [sub in s], as [Series.str.contains(sub)] uses it on one entry. *)
Fixpoint contains (sub s : string) : bool :=
  String.prefix sub s ||
  match s with
  | EmptyString => false
  | String _ t => contains sub t
  end.

(** [round(x)] of a float, as far as the scripts depend on it: it raises
    on NaN and on the infinities, and gives an integer otherwise. *)
Definition round_defined (x : float) : bool :=
  negb (PrimFloat.is_nan x) && negb (PrimFloat.is_infinity x).

End Py.

(** ** Tables *)

(** One quote of an options chain.  [expiration] is a calendar date, kept
    as its ordinal; [dte] is an integer count of days. *)
Record Row : Type := mkRow {
  underlying_price : float;
  spot_price : float;
  expiration : Z;
  dte : Z;
  strike : float;
  option_type : string;
  implied_volatility : float;
  delta : float;
  theta : float;
  bid : float;
  ask : float
}.

(** A table: the names of the columns it has, and its rows.  A field of a
    row whose column is absent is never read. *)
Record Frame (R : Type) : Type := mkFrame {
  columns : list string;
  rows : list R
}.
Arguments mkFrame {R} _ _.
Arguments columns {R} _.
Arguments rows {R} _.

Definition DataFrame := Frame Row.

Definition has_column {R} (c : string) (df : Frame R) : bool :=
  existsb (String.eqb c) (columns df).

(** [df.empty]: no row, or no column. *)
Definition empty {R} (df : Frame R) : bool :=
  match rows df, columns df with
  | [], _ => true
  | _, [] => true
  | _, _ => false
  end.

(** [df[mask]]: the rows where the mask holds, with the same columns. *)
Definition select {R} (mask : R -> bool) (df : Frame R) : Frame R :=
  mkFrame (columns df) (filter mask (rows df)).

(** ** Scripts: printed lines, exceptions, early returns *)

Inductive exn : Type :=
| KeyError (key : string)
| TypeError (msg : string)
| ValueError (msg : string)
| OverflowError (msg : string)
| IndexError (msg : string)
| ProviderError (msg : string).

(** One cell of a printed table. *)
Inductive cell : Type :=
| CF (x : float)
| CZ (n : Z)
| CS (s : string)
| CNull.

(** The values an f-string interpolates; [ATable] is
    [df[cols].to_string(index=False)], row by row. *)
Inductive arg : Type :=
| AF (x : float)
| AZ (n : Z)
| AS (s : string)
| AE (e : exn)
| AL (l : list Z)
| ATable (cols : list string) (cells : list (list cell)).

(** A printed line: the text of the f-string and the values of its
    fields, left to right. *)
Inductive line : Type :=
| Msg (text : string) (args : list arg).

(** What a call of a script function does: the lines it prints, then a
    value or a raised exception. *)
Definition M (A : Type) : Type := (list line * (exn + A))%type.

Definition ret {A} (a : A) : M A := ([], inr a).
Definition raise {A} (e : exn) : M A := ([], inl e).
Definition print (text : string) (args : list arg) : M unit :=
  ([Msg text args], inr tt).

Definition bind {A B} (c : M A) (k : A -> M B) : M B :=
  match c with
  | (o, inl e) => (o, inl e)
  | (o, inr a) => let (o', r) := k a in ((o ++ o')%list, r)
  end.

(** [try: c  except Exception as e: h e]. *)
Definition try_except {A} (c : M A) (h : exn -> M A) : M A :=
  match c with
  | (o, inl e) => let (o', r) := h e in ((o ++ o')%list, r)
  | (o, inr a) => (o, inr a)
  end.

Notation "x <- c ;; k" := (bind c (fun x => k))
  (at level 61, c at next level, right associativity).
Notation "c ;; k" := (bind c (fun _ => k))
  (at level 61, right associativity).

(** [for x in xs: body x], and the same loop collecting what the body
    appends. *)
Fixpoint for_each {A} (xs : list A) (body : A -> M unit) : M unit :=
  match xs with
  | [] => ret tt
  | x :: t => body x ;; for_each t body
  end.

Fixpoint for_collect {A B} (xs : list A) (body : A -> M (option B)) : M (list B) :=
  match xs with
  | [] => ret []
  | x :: t =>
      r <- body x ;;
      rest <- for_collect t body ;;
      ret (match r with Some b => b :: rest | None => rest end)
  end.

(** [df[c]] evaluated for its possible [KeyError]. *)
Definition require {R} (c : string) (df : Frame R) : M unit :=
  if has_column c df then ret tt else raise (KeyError c).

(** [df[cols].to_string(index=False)], given how a row shows a column. *)
Definition to_string {R} (cell_of : string -> R -> cell) (cols : list string)
    (df : Frame R) : M arg :=
  for_each cols (fun c => require c df) ;;
  ret (ATable cols (map (fun r => map (fun c => cell_of c r) cols) (rows df))).

(** [series.iloc[0]]. *)
Definition iloc0 {A} (xs : list A) : M A :=
  match xs with
  | x :: _ => ret x
  | [] => raise (IndexError "single positional indexer is out-of-bounds")
  end.

Definition printed {A} (c : M A) : list line := fst c.
Definition outcome {A} (c : M A) : exn + A := snd c.

(** What a fetch from the data provider gave: an exception, [None], or a
    table. *)
Inductive fetched (T : Type) : Type :=
| FetchRaises (e : exn)
| FetchNone
| FetchTable (t : T).
Arguments FetchRaises {T} _.
Arguments FetchNone {T}.
Arguments FetchTable {T} _.

(** ** scripts/vol_signals.py *)

Module VolSignals.

(** The column that holds the price of the underlying:
    ['underlying_price' if 'underlying_price' in chains.columns else 'spot_price']. *)
Definition price_col (chains : DataFrame) : string :=
  if has_column "underlying_price" chains then "underlying_price" else "spot_price".

(** [chains[c]] for the two price columns. *)
Definition price_field (c : string) (r : Row) : float :=
  if String.eqb c "underlying_price" then underlying_price r else spot_price r.

(** The mask of the valid options:
    [dte >= 1], [implied_volatility] not null and [> 0]. *)
Definition valid_row (r : Row) : bool :=
  (dte r >=? 1) && Py.notna (implied_volatility r)
  && Py.gtb (implied_volatility r) 0%float.

Definition on_dte (d : Z) (r : Row) : bool := dte r =? d.
Definition is_type (t : string) (r : Row) : bool := String.eqb (option_type r) t.

(** [(strike >= price * lo) & (strike <= price * hi)]. *)
Definition in_band (lo hi price : float) (r : Row) : bool :=
  Py.geb (strike r) (PrimFloat.mul price lo)
  && PrimFloat.leb (strike r) (PrimFloat.mul price hi).

(** [g['implied_volatility'].mean() * 100]. *)
Definition mean_iv (g : list Row) : float :=
  PrimFloat.mul (Py.Series_mean (map implied_volatility g)) 100%float.

(** [g['implied_volatility'].mean() * 100 if not g.empty else 0]. *)
Definition mean_iv_or_0 (g : list Row) : float :=
  match g with
  | [] => 0%float
  | _ :: _ => mean_iv g
  end.

(** *** 1. Term structure *)

Record ts_entry : Type := mk_ts { ts_dte : Z; ts_atm_iv : float }.

(** The body of the loop over [expirations[:6]]: the entry appended to
    [ts_data], if any. *)
Definition ts_row (valid : list Row) (price : float) (d : Z) : option ts_entry :=
  let exp_data := filter (on_dte d) valid in
  let atm := filter (in_band 0.98%float 1.02%float price) exp_data in
  match atm with
  | [] => None
  | _ :: _ => Some (mk_ts d (mean_iv atm))
  end.

Definition structure_of (ts_spread : float) : string :=
  if Py.gtb ts_spread 0%float then "CONTANGO" else "BACKWARDATION".

(** [ts_spread] and [structure], defined once [len(ts_data) >= 2]. *)
Definition term_structure (ts_data : list ts_entry) : option (float * string) :=
  match ts_data with
  | first :: _ :: _ =>
      let near_iv := ts_atm_iv first in
      let far_iv := ts_atm_iv (last ts_data first) in
      let ts_spread := PrimFloat.sub far_iv near_iv in
      Some (ts_spread, structure_of ts_spread)
  | _ => None
  end.

(** *** 2. Fly, 3. Skew *)

Definition atm_calls (valid : list Row) (price : float) (d : Z) : list Row :=
  filter (in_band 0.98%float 1.02%float price)
    (filter (is_type "call") (filter (on_dte d) valid)).

Definition otm_calls (valid : list Row) (price : float) (d : Z) : list Row :=
  filter (in_band 1.03%float 1.08%float price)
    (filter (is_type "call") (filter (on_dte d) valid)).

Definition otm_puts (valid : list Row) (price : float) (d : Z) : list Row :=
  filter (in_band 0.92%float 0.97%float price)
    (filter (is_type "put") (filter (on_dte d) valid)).

Record fly_line : Type := mk_fly { fly : float; fly_atm : float; fly_wings : float }.

(** The body of the fly loop: what it prints for one expiry, if
    anything. *)
Definition fly_row (valid : list Row) (price : float) (d : Z) : option fly_line :=
  let atm_iv := mean_iv_or_0 (atm_calls valid price d) in
  let call_25d_iv := mean_iv_or_0 (otm_calls valid price d) in
  let put_25d_iv := mean_iv_or_0 (otm_puts valid price d) in
  if Py.gtb atm_iv 0%float && Py.gtb call_25d_iv 0%float && Py.gtb put_25d_iv 0%float
  then
    let wings := PrimFloat.div (PrimFloat.add call_25d_iv put_25d_iv) 2%float in
    Some (mk_fly (PrimFloat.sub wings atm_iv) atm_iv wings)
  else None.

(** ["BEARISH" if skew > 2 else "BULLISH" if skew < -2 else "NEUTRAL"]. *)
Definition direction_of (skew : float) : string :=
  if Py.gtb skew 2%float then "BEARISH"
  else if PrimFloat.ltb skew (-2)%float then "BULLISH"
  else "NEUTRAL".

(** The skew of a pair of wing volatilities, when both are positive. *)
Definition skew_of (call_iv put_iv : float) : option (float * string) :=
  if Py.gtb call_iv 0%float && Py.gtb put_iv 0%float
  then
    let skew := PrimFloat.sub put_iv call_iv in
    Some (skew, direction_of skew)
  else None.

(** The body of the skew loop: what it prints for one expiry, if
    anything. *)
Definition skew_row (valid : list Row) (price : float) (d : Z)
  : option (float * string) :=
  let call_iv := mean_iv_or_0 (otm_calls valid price d) in
  let put_iv := mean_iv_or_0 (otm_puts valid price d) in
  skew_of call_iv put_iv.

(** *** 4. Straddle *)

(** [abs(exp_data['strike'] - price)], entry by entry, and its least
    value. *)
Definition distance (price : float) (r : Row) : float :=
  PrimFloat.abs (PrimFloat.sub (strike r) price).

Definition nearest (exp_data : list Row) (price : float) (r : Row) : bool :=
  PrimFloat.eqb (distance price r) (Py.Series_min (map (distance price) exp_data)).

Definition atm_leg (t : string) (exp_data : list Row) (price : float) : list Row :=
  filter (fun r => is_type t r && nearest exp_data price r) exp_data.

Record straddle_line : Type := mk_straddle {
  straddle_cost : float;
  pct_move : float;
  total_theta : float;
  be_daily_move : float
}.

(** The arithmetic on the first call and the first put at the nearest
    strike.  [has_theta] is ['theta' in columns]. *)
Definition straddle_of (has_theta : bool) (call put : Row) (price : float) (d : Z)
  : straddle_line :=
  let call_mid := PrimFloat.div (PrimFloat.add (bid call) (ask call)) 2%float in
  let put_mid := PrimFloat.div (PrimFloat.add (bid put) (ask put)) 2%float in
  let straddle_cost := PrimFloat.add call_mid put_mid in
  let pct_move := PrimFloat.mul (PrimFloat.div straddle_cost price) 100%float in
  let call_theta := if has_theta then theta call else 0%float in
  let put_theta := if has_theta then theta put else 0%float in
  mk_straddle straddle_cost pct_move (PrimFloat.add call_theta put_theta)
    (PrimFloat.div pct_move (Py.float_of_int d)).

Definition straddle_row (has_theta : bool) (valid : list Row) (price : float) (d : Z)
  : option straddle_line :=
  let exp_data := filter (on_dte d) valid in
  match atm_leg "call" exp_data price, atm_leg "put" exp_data price with
  | call :: _, put :: _ => Some (straddle_of has_theta call put price d)
  | _, _ => None
  end.

(** *** 5. Summary *)

Definition signals (ts : option (float * string)) : list string :=
  match ts with
  | Some (ts_spread, _) =>
      if Py.gtb ts_spread 2%float then ["[+] Strong Contango: Sell calendar spreads"]
      else if PrimFloat.ltb ts_spread (-2)%float
           then ["[+] Backwardation: Vol compression expected"]
           else []
  | None => []
  end.

(** *** The script *)

(** The loop bodies, with the column look-ups of each ([valid] has the
    columns of [chains]; [dte] and [implied_volatility] were read to build
    it). *)
Definition ts_body (valid : DataFrame) (price : float) (d : Z) : M (option ts_entry) :=
  require "dte" valid ;;
  require "strike" valid ;;
  match ts_row (rows valid) price d with
  | Some e =>
      print "  DTE {dte:3d}: ATM IV = {atm_iv:.1f}%" [AZ d; AF (ts_atm_iv e)] ;;
      ret (Some e)
  | None => ret None
  end.

Definition fly_body (valid : DataFrame) (price : float) (d : Z) : M unit :=
  require "dte" valid ;;
  require "option_type" valid ;;
  require "strike" valid ;;
  match fly_row (rows valid) price d with
  | Some f =>
      print "  DTE {dte:3d}: Fly = {fly:+.2f}% (ATM={atm_iv:.1f}%, Wings avg={((call_25d_iv+put_25d_iv)/2):.1f}%)"
        [AZ d; AF (fly f); AF (fly_atm f); AF (fly_wings f)]
  | None => ret tt
  end.

Definition skew_body (valid : DataFrame) (price : float) (d : Z) : M unit :=
  require "dte" valid ;;
  require "option_type" valid ;;
  require "strike" valid ;;
  match skew_row (rows valid) price d with
  | Some (skew, direction) =>
      print "  DTE {dte:3d}: Skew = {skew:+.2f}% ({direction})"
        [AZ d; AF skew; AS direction]
  | None => ret tt
  end.

Definition straddle_body (valid : DataFrame) (price : float) (d : Z) : M unit :=
  require "dte" valid ;;
  (* atm_strike = round(price / 5) * 5, not used afterwards *)
  (if Py.round_defined (PrimFloat.div price 5%float) then ret tt
   else if PrimFloat.is_nan (PrimFloat.div price 5%float)
        then raise (ValueError "cannot convert float NaN to integer")
        else raise (OverflowError "cannot convert float infinity to integer")) ;;
  require "option_type" valid ;;
  require "strike" valid ;;
  let exp_data := filter (on_dte d) (rows valid) in
  match atm_leg "call" exp_data price, atm_leg "put" exp_data price with
  | _ :: _, _ :: _ =>
      require "bid" valid ;;
      require "ask" valid ;;
      match straddle_row (has_column "theta" valid) (rows valid) price d with
      | Some s =>
          print "  DTE {dte:3d}: Straddle = ${straddle_cost:.2f} ({pct_move:.2f}% move needed)"
            [AZ d; AF (straddle_cost s); AF (pct_move s)] ;;
          print "           Theta = ${total_theta:.2f}/day | BE Daily Move = {pct_move/dte:.3f}%"
            [AF (total_theta s); AF (be_daily_move s)]
      | None => ret tt
      end
  | _, _ => ret tt
  end.

Definition newline : string := String (Ascii.ascii_of_nat 10) EmptyString.

Definition rule : M unit := print "{'─'*60}" [].
Definition double_rule : M unit := print "{'='*60}" [].

Definition analyze_vol_signals (fetch : fetched DataFrame) (symbol : string) : M unit :=
  double_rule ;;
  print "VOLATILITY SIGNALS: {symbol}" [AS symbol] ;;
  double_rule ;;
  match fetch with
  | FetchRaises e => print "Error fetching data: {e}" [AE e]
  | FetchNone => print "No options data available" []
  | FetchTable chains =>
    if empty chains then print "No options data available" [] else
    if negb (has_column (price_col chains) chains)
    then print "Cannot determine underlying price" [] else
    price <- iloc0 (map (price_field (price_col chains)) (rows chains)) ;;
    require "dte" chains ;;
    require "implied_volatility" chains ;;
    let valid := select valid_row chains in
    if empty valid then print "No valid options data" [] else
    let expirations := Py.sorted_unique (map dte (rows valid)) in
    print "Underlying: ${price:,.2f}" [AF price] ;;
    print "Expirations (DTE): {expirations[:8]}" [AL (firstn 8 expirations)] ;;
    rule ;; print "TERM STRUCTURE" [] ;; rule ;;
    ts_data <- for_collect (firstn 6 expirations) (ts_body valid price) ;;
    let ts := term_structure ts_data in
    match ts with
    | Some (ts_spread, structure) =>
        print "  Structure: {structure} (spread: {ts_spread:+.1f}%)"
          [AS structure; AF ts_spread] ;;
        if String.eqb structure "CONTANGO"
        then print "  Signal: Calendar spread opportunity (+Theta, +Gamma)" []
        else ret tt
    | None => ret tt
    end ;;
    rule ;; print "FLY ANALYSIS (Vol-of-Vol)" [] ;; rule ;;
    for_each (firstn 3 expirations) (fly_body valid price) ;;
    rule ;; print "SKEW ANALYSIS" [] ;; rule ;;
    for_each (firstn 3 expirations) (skew_body valid price) ;;
    rule ;; print "ATM STRADDLE ANALYSIS" [] ;; rule ;;
    for_each (firstn 3 expirations) (straddle_body valid price) ;;
    double_rule ;; print "TRADING SIGNALS SUMMARY" [] ;; double_rule ;;
    match signals ts with
    | [] => print "No strong signals detected" []
    | l => print (String.concat newline l) []
    end ;;
    print "" []
  end.

(** *** calculate_vrp *)

(** One bar of the price history. *)
Record Bar : Type := mkBar { close : float }.

Definition HistFrame := Frame Bar.

(** The value of the constant expression [252 ** 0.5] in binary64. *)
Definition pow_252_half : float := 15.874507866387544%float.

Definition month_row (r : Row) : bool := (dte r >=? 25) && (dte r <=? 35).

(** [chains[(dte >= 25) & (dte <= 35)]], then the strikes within 2% of the
    price among them. *)
Definition month_options (chains : DataFrame) : DataFrame := select month_row chains.

Definition atm_30d (chains : DataFrame) (price : float) : DataFrame :=
  select (in_band 0.98%float 1.02%float price) (month_options chains).

Definition iv_30d_of (chains : DataFrame) (price : float) : float :=
  mean_iv (rows (atm_30d chains price)).

(** [hist['close'].pct_change().dropna().tail(lookback_days)]. *)
Definition daily_returns (hist : HistFrame) : list float :=
  Py.dropna (Py.pct_change (map close (rows hist))).

Definition rv_of_returns (returns : list float) (lookback_days : Z) : float :=
  PrimFloat.mul
    (PrimFloat.mul (Py.Series_std (Py.tail lookback_days returns)) pow_252_half)
    100%float.

Definition rv_30d_of (hist : HistFrame) (lookback_days : Z) : float :=
  rv_of_returns (daily_returns hist) lookback_days.

Definition vrp_signal (vrp : float) : string :=
  if Py.gtb vrp 5%float then "Signal: HIGH VRP - Favorable for vol selling"
  else if PrimFloat.ltb vrp (-5)%float
       then "Signal: NEGATIVE VRP - Pause vol selling strategies"
       else "Signal: NEUTRAL VRP".

(** The end of the function, from the print of the realized volatility
    on. *)
Definition vrp_report (iv_30d rv_30d : float) : M unit :=
  print "30-Day RV: {rv_30d:.1f}%" [AF rv_30d] ;;
  let vrp := PrimFloat.sub iv_30d rv_30d in
  print "VRP (IV - RV): {vrp:+.1f}%" [AF vrp] ;;
  print (vrp_signal vrp) [].

(** The second half of the [try] block: the price history and the
    realized volatility. *)
Definition vrp_from_history (iv_30d : float) (hist_fetch : fetched HistFrame)
    (lookback_days : Z) : M unit :=
  match hist_fetch with
  | FetchRaises e => raise e
  | FetchNone => print "Insufficient historical data for RV" []
  | FetchTable hist =>
    if Z.of_nat (List.length (rows hist)) <? lookback_days
    then print "Insufficient historical data for RV" [] else
    require "close" hist ;;
    vrp_report iv_30d (rv_30d_of hist lookback_days)
  end.

(** The [try] block. *)
Definition vrp_body (chains_fetch : fetched DataFrame)
    (hist_fetch : fetched HistFrame) (lookback_days : Z) : M unit :=
  match chains_fetch with
  | FetchRaises e => raise e
  | FetchNone => print "No options data" []
  | FetchTable chains =>
    if empty chains then print "No options data" [] else
    require (price_col chains) chains ;;
    price <- iloc0 (map (price_field (price_col chains)) (rows chains)) ;;
    require "dte" chains ;;
    require "strike" chains ;;
    let atm := atm_30d chains price in
    if empty atm then print "No ATM options for 30-day expiry" [] else
    require "implied_volatility" chains ;;
    let iv_30d := iv_30d_of chains price in
    print "30-Day IV: {iv_30d:.1f}%" [AF iv_30d] ;;
    vrp_from_history iv_30d hist_fetch lookback_days
  end.

Definition calculate_vrp (chains_fetch : fetched DataFrame)
    (hist_fetch : fetched HistFrame) (symbol : string) (lookback_days : Z) : M unit :=
  double_rule ;;
  print "VRP ANALYSIS: {symbol}" [AS symbol] ;;
  double_rule ;;
  try_except (vrp_body chains_fetch hist_fetch lookback_days)
    (fun e => print "Error: {e}" [AE e]).

End VolSignals.

(** ** scripts/iv_surface.py *)

Module IvSurface.

Definition valid_row (r : Row) : bool :=
  (dte r >=? 7) && (dte r <=? 180)
  && Py.notna (implied_volatility r)
  && Py.gtb (implied_volatility r) 0%float.

Definition on_expiration (e : Z) (r : Row) : bool := expiration r =? e.

Record iv_entry : Type := mk_iv {
  iv_expiration : Z;
  iv_dte : Z;
  atm_iv : float;
  call_iv : float;
  put_iv : float
}.

Definition atm_group (exp_data : list Row) (price : float) : list Row :=
  filter (VolSignals.in_band 0.98%float 1.02%float price) exp_data.
Definition calls_group (exp_data : list Row) : list Row :=
  filter (VolSignals.is_type "call") exp_data.
Definition puts_group (exp_data : list Row) : list Row :=
  filter (VolSignals.is_type "put") exp_data.

(** The entry of one expiration, [d] being [exp_data['dte'].iloc[0]]. *)
Definition iv_row (exp_data : list Row) (price : float) (exp d : Z) : iv_entry :=
  mk_iv exp d
    (VolSignals.mean_iv_or_0 (atm_group exp_data price))
    (VolSignals.mean_iv_or_0 (calls_group exp_data))
    (VolSignals.mean_iv_or_0 (puts_group exp_data)).

Definition summary_body (valid : DataFrame) (price : float) (exp : Z)
  : M (option iv_entry) :=
  let exp_data := filter (on_expiration exp) (rows valid) in
  d <- iloc0 (map dte exp_data) ;;
  require "strike" valid ;;
  require "option_type" valid ;;
  let e := iv_row exp_data price exp d in
  print "{str(exp):<12} {dte:>6} {atm_iv:>9.1f}% {call_iv:>9.1f}% {put_iv:>9.1f}%"
    [AZ exp; AZ d; AF (atm_iv e); AF (call_iv e); AF (put_iv e)] ;;
  ret (Some e).

(** ["↑ Bearish" if skew > 2 else "↓ Bullish" if skew < -2 else "→ Neutral"]. *)
Definition direction_of (skew : float) : string :=
  if Py.gtb skew 2%float then "↑ Bearish"
  else if PrimFloat.ltb skew (-2)%float then "↓ Bullish"
  else "→ Neutral".

Definition skew_of (d : iv_entry) : float := PrimFloat.sub (put_iv d) (call_iv d).

Definition skew_body (d : iv_entry) : M unit :=
  let skew := skew_of d in
  print "{str(d['expiration']):<12} Skew: {skew:+.1f}% {direction}"
    [AZ (iv_expiration d); AF skew; AS (direction_of skew)].

(** [plot_iv_surface]; [matplotlib] says whether the imports succeed.  The
    scatter plot goes to a window: nothing is printed for it. *)
Definition plot_iv_surface (matplotlib : bool) (data : DataFrame) (price : float)
  : M unit :=
  if negb matplotlib then print "matplotlib not installed. Skipping visualization." []
  else
    require "option_type" data ;;
    require "strike" data ;;
    let calls :=
      filter (VolSignals.in_band 0.8%float 1.2%float price)
        (filter (VolSignals.is_type "call") (rows data)) in
    if (List.length calls <? 10)%nat then print "Not enough data for surface plot" []
    else require "dte" data ;; require "implied_volatility" data.

Definition analyze_iv_surface (fetch : fetched DataFrame) (symbol : string)
    (plot matplotlib : bool) : M unit :=
  print "Fetching options chain for {symbol}..." [AS symbol] ;;
  match fetch with
  | FetchRaises e => print "Error fetching options chain: {e}" [AE e]
  | FetchNone => print "No options data for {symbol}" [AS symbol]
  | FetchTable chains =>
    if empty chains then print "No options data for {symbol}" [AS symbol] else
    require "underlying_price" chains ;;
    price <- iloc0 (map underlying_price (rows chains)) ;;
    require "dte" chains ;;
    require "implied_volatility" chains ;;
    let valid := select valid_row chains in
    if empty valid then print "No valid IV data found" [] else
    require "expiration" valid ;;
    let expirations := Py.sorted_unique (map expiration (rows valid)) in
    print "Underlying: ${price:.2f}" [AF price] ;;
    print "{'='*70}" [] ;;
    print "IV SUMMARY BY EXPIRATION" [] ;;
    print "{'='*70}" [] ;;
    print "{'Expiration':<12} {'DTE':>6} {'ATM IV':>10} {'Call IV':>10} {'Put IV':>10}" [] ;;
    print "----------------------------------------------------------------------" [] ;;
    iv_data <- for_collect (firstn 8 expirations) (summary_body valid price) ;;
    print "{'='*70}" [] ;;
    print "IV SKEW (Put IV - Call IV)" [] ;;
    print "{'='*70}" [] ;;
    for_each iv_data skew_body ;;
    if plot then plot_iv_surface matplotlib valid price else ret tt
  end.

End IvSurface.

(** ** scripts/options_greeks.py *)

Module OptionsGreeks.

(** The mask of the rows with valid Greeks. *)
Definition valid_row (min_dte max_dte : Z) (r : Row) : bool :=
  (dte r >=? min_dte) && (dte r <=? max_dte)
  && Py.neqb (delta r) 0%float
  && Py.neqb (delta r) 1%float
  && Py.neqb (delta r) (-1)%float.

Definition valid_options (min_dte max_dte : Z) (chains : DataFrame) : DataFrame :=
  select (valid_row min_dte max_dte) chains.

Definition near_money (t : string) (lower upper : float) (r : Row) : bool :=
  VolSignals.is_type t r && Py.geb (strike r) lower && PrimFloat.leb (strike r) upper.

(** How [to_string] shows the columns the script may print; [gamma] and
    [vega] are not read anywhere else and are shown as null. *)
Definition cell_of (c : string) (r : Row) : cell :=
  if String.eqb c "strike" then CF (strike r)
  else if String.eqb c "delta" then CF (delta r)
  else if String.eqb c "theta" then CF (theta r)
  else if String.eqb c "implied_volatility" then CF (implied_volatility r)
  else if String.eqb c "bid" then CF (bid r)
  else if String.eqb c "ask" then CF (ask r)
  else CNull.

Definition cols : list string :=
  ["strike"; "delta"; "gamma"; "theta"; "vega"; "implied_volatility"; "bid"; "ask"].

(** The format strings of [Axes.plot], as far as single letters go: a
    string is read left to right, each character being a line style
    (['-'], [':'], or the pairs ['--'] and ['-.']), a marker or a colour;
    a second line style, a second marker, a second colour or any other
    character is an error. *)
Definition marker_letters : list Ascii.ascii :=
  [".";",";"o";"v";"^";"<";">";"1";"2";"3";"4";"8";"s";"p";"P";"*";
   "h";"H";"+";"x";"X";"D";"d";"|";"_"]%char.

Definition colour_letters : list Ascii.ascii :=
  ["b";"g";"r";"c";"m";"y";"k";"w"]%char.

Definition is_letter_of (l : list Ascii.ascii) (c : Ascii.ascii) : bool :=
  existsb (Ascii.eqb c) l.

(** [skip] says that the character was read with the one before it. *)
Fixpoint format_ok (fmt : string) (skip line marker colour : bool) : bool :=
  match fmt with
  | EmptyString => true
  | String c rest =>
      if skip then format_ok rest false line marker colour
      else if Ascii.eqb c "-"%char then
        if line then false
        else
          match rest with
          | String c2 _ =>
              format_ok rest
                (Ascii.eqb c2 "-"%char || Ascii.eqb c2 "."%char) true marker colour
          | EmptyString => true
          end
      else if Ascii.eqb c ":"%char then
        if line then false else format_ok rest false true marker colour
      else if is_letter_of marker_letters c then
        if marker then false else format_ok rest false line true colour
      else if is_letter_of colour_letters c then
        if colour then false else format_ok rest false line marker true
      else false
  end.

(** [ax.plot(x, y, fmt, markersize=3)]: [ValueError] on a format that is
    not valid; the curve goes to the figure. *)
Definition ax_plot (fmt : string) : M unit :=
  if format_ok fmt false false false false then ret tt
  else raise (ValueError "not a valid format string").

(** [f'{color[0]}-o']. *)
Definition panel_format (color : string) : string :=
  match color with
  | String c _ => String c "-o"
  | EmptyString => "-o"
  end.

(** The four panels: [zip(axes.flatten(), ['delta', ...], ['blue', ...])]. *)
Definition panels : list (string * string) :=
  [("delta", "blue"); ("gamma", "green"); ("theta", "red"); ("vega", "purple")].

(** The body of the loop over the panels. *)
Definition panel_body (calls : DataFrame) (panel : string * string) : M unit :=
  if has_column (fst panel) calls then ax_plot (panel_format (snd panel))
  else ret tt.

(** [plot_greeks]; the figure goes to a window. *)
Definition plot_greeks (matplotlib : bool) (data : DataFrame) (price : float) : M unit :=
  if negb matplotlib then print "matplotlib not installed. Skipping visualization." []
  else
    require "option_type" data ;;
    require "strike" data ;;
    let calls :=
      select (VolSignals.in_band 0.85%float 1.15%float price)
        (select (VolSignals.is_type "call") data) in
    if empty calls then print "Not enough data for visualization" []
    else for_each panels (panel_body calls).

Definition analyze_options_greeks (fetch : fetched DataFrame) (symbol : string)
    (min_dte max_dte : Z) (pct_range : float) (visualize matplotlib : bool) : M unit :=
  print "Fetching options chain for {symbol}..." [AS symbol] ;;
  match fetch with
  | FetchRaises e => print "Error fetching options chain: {e}" [AE e]
  | FetchNone => print "No options data for {symbol}" [AS symbol]
  | FetchTable chains =>
    if empty chains then print "No options data for {symbol}" [AS symbol] else
    if negb (has_column (VolSignals.price_col chains) chains)
    then print "Cannot determine underlying price from data" [] else
    price <- iloc0 (map (VolSignals.price_field (VolSignals.price_col chains)) (rows chains)) ;;
    print "Underlying Price: ${price:.2f}" [AF price] ;;
    require "dte" chains ;;
    require "delta" chains ;;
    let valid := valid_options min_dte max_dte chains in
    if empty valid then print "No valid options found with Greeks data" [] else
    require "expiration" valid ;;
    match Py.sorted_unique (map expiration (rows valid)) with
    | [] => print "No expirations found after filtering" []
    | expiry :: _ =>
      let selected := select (IvSurface.on_expiration expiry) valid in
      d <- iloc0 (map dte (rows selected)) ;;
      print "Expiration: {expiry} (DTE: {selected['dte'].iloc[0]})" [AZ expiry; AZ d] ;;
      print "Total contracts: {len(selected)}" [AZ (Z.of_nat (List.length (rows selected)))] ;;
      let lower := PrimFloat.mul price (PrimFloat.sub 1%float pct_range) in
      let upper := PrimFloat.mul price (PrimFloat.add 1%float pct_range) in
      require "option_type" selected ;;
      require "strike" selected ;;
      let calls := select (near_money "call" lower upper) selected in
      let puts := select (near_money "put" lower upper) selected in
      let available := filter (fun c => has_column c calls) cols in
      print "{'='*60}" [] ;;
      print "ATM CALLS (±{pct_range*100:.0f}%)" [AF (PrimFloat.mul pct_range 100%float)] ;;
      print "{'='*60}" [] ;;
      (if empty calls then print "No ATM calls found" []
       else t <- to_string cell_of available calls ;; print "{}" [t]) ;;
      print "{'='*60}" [] ;;
      print "ATM PUTS (±{pct_range*100:.0f}%)" [AF (PrimFloat.mul pct_range 100%float)] ;;
      print "{'='*60}" [] ;;
      (if empty puts then print "No ATM puts found" []
       else t <- to_string cell_of available puts ;; print "{}" [t]) ;;
      if visualize then plot_greeks matplotlib selected price else ret tt
    end
  end.

End OptionsGreeks.

(** ** scripts/perpetual_analysis.py *)

Module Perpetual.

(** One perpetual contract, as [futures.info] describes it. *)
Record Info : Type := mkInfo {
  info_symbol : string;
  last_price : float;
  mark_price : float;
  current_funding : float;
  funding_8h : float;
  open_interest : float;
  volume_usd : float;
  change_percent : float
}.

(** One listed instrument; its symbol can be null. *)
Record Instrument : Type := mkInstrument {
  symbol : option string;
  instr_last_price : float;
  instr_open_interest : float
}.

(** [row.get(c) or 0]: 0 when the column is absent or the value is zero. *)
Definition get_or_0 (info : Frame Info) (c : string) (field : Info -> float)
    (row : Info) : float :=
  if has_column c info
  then if PrimFloat.eqb (field row) 0%float then 0%float else field row
  else 0%float.

Definition info_cell (c : string) (r : Info) : cell :=
  if String.eqb c "symbol" then CS (info_symbol r)
  else if String.eqb c "last_price" then CF (last_price r)
  else if String.eqb c "mark_price" then CF (mark_price r)
  else if String.eqb c "current_funding" then CF (current_funding r)
  else if String.eqb c "funding_8h" then CF (funding_8h r)
  else if String.eqb c "open_interest" then CF (open_interest r)
  else if String.eqb c "volume_usd" then CF (volume_usd r)
  else if String.eqb c "change_percent" then CF (change_percent r)
  else CNull.

Definition cols : list string :=
  ["symbol"; "last_price"; "mark_price"; "current_funding";
   "funding_8h"; "open_interest"; "volume_usd"; "change_percent"].

Definition row_body (info : Frame Info) (row : Info) : M unit :=
  let sym := if has_column "symbol" info then info_symbol row else "N/A" in
  print "Symbol: {sym}" [AS sym] ;;
  print "  Last Price:    ${row.get('last_price') or 0:,.2f}"
    [AF (get_or_0 info "last_price" last_price row)] ;;
  print "  Mark Price:    ${row.get('mark_price') or 0:,.2f}"
    [AF (get_or_0 info "mark_price" mark_price row)] ;;
  let funding := get_or_0 info "current_funding" current_funding row in
  let funding_8h := get_or_0 info "funding_8h" funding_8h row in
  print "  Funding Rate:  {funding*100:.4f}% (8h: {funding_8h*100:.4f}%)"
    [AF (PrimFloat.mul funding 100%float); AF (PrimFloat.mul funding_8h 100%float)] ;;
  let oi := get_or_0 info "open_interest" open_interest row in
  let vol := get_or_0 info "volume_usd" volume_usd row in
  print "  Open Interest: ${oi:,.0f}" [AF oi] ;;
  print "  24h Volume:    ${vol:,.0f}" [AF vol] ;;
  print "  24h Change:    {row.get('change_percent') or 0:.2f}%"
    [AF (get_or_0 info "change_percent" change_percent row)] ;;
  print "" [].

Definition analyze_perpetuals (fetch : fetched (Frame Info)) (symbols : list string)
    (show_all : bool) : M unit :=
  let symbol_str := String.concat "," symbols in
  match fetch with
  | FetchRaises e => print "Error fetching data for {symbol_str}: {e}" [AS symbol_str; AE e]
  | FetchNone => print "No data for {symbol_str}" [AS symbol_str]
  | FetchTable info =>
    if empty info then print "No data for {symbol_str}" [AS symbol_str] else
    let available := filter (fun c => has_column c info) cols in
    print "{'='*60}" [] ;;
    print "CRYPTO PERPETUAL ANALYSIS" [] ;;
    print "{'='*60}" [] ;;
    for_each (rows info) (row_body info) ;;
    if show_all
    then print "Raw Data:" [] ;;
         t <- to_string info_cell available info ;; print "{}" [t]
    else ret tt
  end.

(** [instruments['symbol'].str.contains('PERPETUAL', na=False)]. *)
Definition is_perpetual (i : Instrument) : bool :=
  match symbol i with
  | Some s => Py.contains "PERPETUAL" s
  | None => false
  end.

Definition instrument_cell (c : string) (i : Instrument) : cell :=
  if String.eqb c "symbol"
  then match symbol i with Some s => CS s | None => CNull end
  else if String.eqb c "last_price" then CF (instr_last_price i)
  else if String.eqb c "open_interest" then CF (instr_open_interest i)
  else CNull.

Definition list_instruments (fetch : fetched (Frame Instrument)) : M unit :=
  match fetch with
  | FetchRaises e => print "Error fetching instruments: {e}" [AE e]
  | FetchNone => raise (TypeError "'NoneType' object is not subscriptable")
  | FetchTable instruments =>
    require "symbol" instruments ;;
    let perps := select is_perpetual instruments in
    print "Available Perpetual Contracts:" [] ;;
    t <- to_string instrument_cell ["symbol"; "last_price"; "open_interest"] perps ;;
    print "{}" [t]
  end.

End Perpetual.

(** ** The sets and windows, in the words of the specification *)

Module Spec.

(** The trailing [n] entries of a series. *)
Definition trailing {A : Type} (n : nat) (xs : list A) : list A :=
  rev (firstn n (rev xs)).

(** The rows of the 30-day at-the-money bucket, by one mask: days to
    expiry within [25, 35] and strike within [0.98, 1.02] times the price,
    bounds included. *)
Definition bucket_30d (chains : DataFrame) (price : float) : list Row :=
  filter (fun r => (25 <=? dte r) && (dte r <=? 35)
                   && PrimFloat.leb (PrimFloat.mul price 0.98%float) (strike r)
                   && PrimFloat.leb (strike r) (PrimFloat.mul price 1.02%float))
    (rows chains).

(** The mean of a vector that has no null, in percent: the sum of its
    entries over their number, times 100. *)
Definition mean_percent (ivs : list float) : float :=
  PrimFloat.mul
    (PrimFloat.div (Py.np_sum ivs) (Py.float_of_nat (List.length ivs)))
    100%float.

(** The same, with the 0 that stands for a group with no quote. *)
Definition mean_percent_or_0 (ivs : list float) : float :=
  match ivs with
  | [] => 0%float
  | _ :: _ => mean_percent ivs
  end.

(** The sample standard deviation of a window that has no null: the
    square root of the sum of the squared distances to the mean, over
    the number of entries less one. *)
Definition sample_std (w : list float) : float :=
  let avg := PrimFloat.div (Py.np_sum w) (Py.float_of_nat (List.length w)) in
  PrimFloat.sqrt
    (PrimFloat.div
       (Py.np_sum (map (fun x => PrimFloat.mul (PrimFloat.sub avg x) (PrimFloat.sub avg x)) w))
       (Py.float_of_nat (List.length w - 1))).

End Spec.

(** ** Sample tables *)

Module Examples.

Local Open Scope float_scope.

(** A chain at 100 with one call at 105 (IV 20%) and one put at 95 (IV
    25%), both 30 days out. *)
Definition skew_chain : list Row :=
  [ mkRow 100 100 739000 30 105 "call" 0.2 0.3 (-0.05) 1.5 1.7;
    mkRow 100 100 739000 30 95 "put" 0.25 (-0.3) (-0.05) 1.2 1.4 ].

Definition option_columns : list string :=
  ["underlying_price"; "expiration"; "dte"; "strike"; "option_type";
   "implied_volatility"; "delta"; "theta"; "bid"; "ask"].

(** A chain at 100 with a call and a put at the money, 30 days out. *)
Definition month_chain : DataFrame :=
  mkFrame option_columns
    [ mkRow 100 100 739000 30 100 "call" 0.25 0.5 (-0.05) 4.5 5.5;
      mkRow 100 100 739000 30 100 "put" 0.25 (-0.5) (-0.05) 3.5 4.5;
      mkRow 100 100 739000 30 120 "call" 0.4 0.1 (-0.01) 0.4 0.6 ].

(** A chain at 100 with an at-the-money call 7 days out (IV 25%) and one
    30 days out (IV 50%). *)
Definition term_chain : DataFrame :=
  mkFrame option_columns
    [ mkRow 100 100 739030 30 100 "call" 0.5 0.5 (-0.05) 4.5 5.5;
      mkRow 100 100 739007 7 100 "call" 0.25 0.5 (-0.09) 1.5 2.5 ].

(** The chain of [month_chain] as a provider that names the price column
    [spot_price] returns it, and the same chain with no price column. *)
Definition spot_chain : DataFrame :=
  mkFrame
    ["spot_price"; "expiration"; "dte"; "strike"; "option_type";
     "implied_volatility"; "delta"; "theta"; "bid"; "ask"]
    (rows month_chain).

Definition unpriced_chain : DataFrame :=
  mkFrame
    ["expiration"; "dte"; "strike"; "option_type";
     "implied_volatility"; "delta"; "theta"; "bid"; "ask"]
    (rows month_chain).

(** A quote 30 days out whose delta is null, and a chain made of it and
    of a quote whose delta is 0. *)
Definition null_delta_row : Row :=
  mkRow 100 100 739000 30 100 "call" 0.25 PrimFloat.nan (-0.05) 4.5 5.5.

Definition zero_delta_row : Row :=
  mkRow 100 100 739000 30 150 "call" 0.6 0 0 0 0.1.

Definition null_delta_chain : DataFrame :=
  mkFrame option_columns [null_delta_row; zero_delta_row].

(** A table of instruments with no row and no column. *)
Definition no_instruments : Frame Perpetual.Instrument := mkFrame [] [].

(** A perpetual, a dated future and an instrument with no symbol. *)
Definition two_instruments : Frame Perpetual.Instrument :=
  mkFrame ["symbol"; "last_price"; "open_interest"]
    [ Perpetual.mkInstrument (Some "BTC-PERPETUAL") 65000 1200;
      Perpetual.mkInstrument (Some "BTC-27DEC24") 66000 300;
      Perpetual.mkInstrument None 0 0 ].

(** The chain of [month_chain] from a provider that gives no Greeks, and
    the same chain without its strikes. *)
Definition no_greeks_chain : DataFrame :=
  mkFrame
    ["underlying_price"; "expiration"; "dte"; "strike"; "option_type";
     "implied_volatility"; "bid"; "ask"]
    (rows month_chain).

Definition no_strike_chain : DataFrame :=
  mkFrame
    ["underlying_price"; "expiration"; "dte"; "option_type";
     "implied_volatility"; "bid"; "ask"]
    (rows month_chain).

(** A quote at price 100 with the given days to expiry, strike, type and
    implied volatility. *)
Definition quote (d : Z) (k : float) (t : string) (iv : float) : Row :=
  mkRow 100 100 (739000 + d)%Z d k t iv 0.5 (-0.05) 1 1.2.

(** Ten implied volatilities whose mean in percent is 24.000000000000004
    by pairwise summation (a left-to-right sum gives 24), ten whose mean
    is 5.000000000000001 (left to right: 5), and nine whose mean is
    26.199999999999996 (left to right: 26.200000000000003). *)
Definition iv24 : list float :=
  [0.22; 0.27; 0.29; 0.3; 0.21; 0.18; 0.21; 0.22; 0.23; 0.27].

Definition iv5 : list float :=
  [0.04; 0.04; 0.045; 0.06; 0.07; 0.065; 0.04; 0.07; 0.035; 0.035].

Definition iv26 : list float :=
  [0.21; 0.223; 0.236; 0.249; 0.262; 0.275; 0.288; 0.301; 0.314].

(** Ten puts at 95 with the volatilities [iv24] and one call at 105 with
    volatility 22%, 30 days out. *)
Definition bearish_chain : DataFrame :=
  mkFrame option_columns
    (map (quote 30 95 "put") iv24 ++ [quote 30 105 "call" 0.22]).

(** One quote at the money 7 days out (24%), ten 30 days out ([iv24]). *)
Definition contango_chain : DataFrame :=
  mkFrame option_columns
    (quote 7 100 "call" 0.24 :: map (quote 30 100 "call") iv24).

(** Ten, and nine, quotes at the money 30 days out. *)
Definition ten_chain : DataFrame :=
  mkFrame option_columns (map (quote 30 100 "call") iv5).

Definition nine_chain : DataFrame :=
  mkFrame option_columns (map (quote 30 100 "call") iv26).

(** An at-the-money call, a call wing and a put wing, 30 days out. *)
Definition fly_chain : DataFrame :=
  mkFrame option_columns
    [ quote 30 100 "call" 0.2; quote 30 105 "call" 0.22; quote 30 95 "put" 0.26 ].

(** The chain of [month_chain] from a provider that also gives gamma and
    vega. *)
Definition vega_chain : DataFrame :=
  mkFrame
    ["underlying_price"; "expiration"; "dte"; "strike"; "option_type";
     "implied_volatility"; "delta"; "gamma"; "theta"; "vega"; "bid"; "ask"]
    (rows month_chain).

(** Five closes that do not move, and thirty-one daily closes. *)
Definition flat_closes : VolSignals.HistFrame :=
  mkFrame ["close"] (map VolSignals.mkBar [100; 100; 100; 100; 100]).

Definition month_closes : VolSignals.HistFrame :=
  mkFrame ["close"]
    (map VolSignals.mkBar
       [100.0; 98.5; 97.4; 96.3; 97.2; 96.5; 96.9; 97.3; 97.1; 95.6; 94.9;
        96.2; 97.5; 99.7; 100.6; 102.8; 104.6; 106.8; 107.2; 105.7; 104.2;
        105.1; 106.9; 107.8; 109.1; 110.4; 112.6; 111.9; 114.1; 113.4; 113.2]).

(** Five daily closes. *)
Definition closes : VolSignals.HistFrame :=
  mkFrame ["close"]
    [ VolSignals.mkBar 100; VolSignals.mkBar 101; VolSignals.mkBar 99;
      VolSignals.mkBar 102; VolSignals.mkBar 100 ].

End Examples.

(** * Properties *)

(** ** Floats: the facts about the order that the labels rest on *)

Section FloatOrder.

Local Open Scope float_scope.

(** Case analysis on a float compared with constants: the constants are
    evaluated, the float is split by its class and sign. *)
Ltac compare_by_class s :=
  rewrite ?FloatAxioms.ltb_spec, ?FloatAxioms.leb_spec, ?FloatAxioms.eqb_spec;
  repeat match goal with
         | |- context [Prim2SF ?c] =>
             lazymatch c with
             | s => fail
             | _ => let v := eval vm_compute in (Prim2SF c) in
                    change (Prim2SF c) with v
             end
         end;
  destruct (Prim2SF s) as [[|] | [|] | | [|] ? ?];
  unfold SFltb, SFleb, SFeqb, SFcompare.

(** No float is both above a positive bound and below its opposite. *)
Lemma above_2_not_below (s : float) :
  PrimFloat.ltb 2 s = true -> PrimFloat.ltb s (-2) = false.
Proof. compare_by_class s; congruence. Qed.

Lemma above_5_not_below (s : float) :
  PrimFloat.ltb 5 s = true -> PrimFloat.ltb s (-5) = false.
Proof. compare_by_class s; congruence. Qed.

(** A float above zero is not null. *)
Lemma positive_notna (x : float) : Py.gtb x 0 = true -> Py.notna x = true.
Proof.
  unfold Py.gtb, Py.notna, PrimFloat.is_nan.
  compare_by_class x; try congruence; intros _; [reflexivity |].
  rewrite Z.compare_refl.
  match goal with
  | |- context [PosDef.Pos.compare_cont Eq ?m ?m] =>
      change (PosDef.Pos.compare_cont Eq m m) with (Pos.compare m m);
      rewrite Pos.compare_refl
  end.
  reflexivity.
Qed.

End FloatOrder.

(** ** Filters *)


Lemma filter_filter {A} (f g : A -> bool) (l : list A) :
  filter f (filter g l) = filter (fun x => g x && f x) l.
Proof.
  induction l as [| a l IH]; simpl; [reflexivity |].
  destruct (g a); simpl; [destruct (f a) |]; now rewrite IH.
Qed.

Lemma In_firstn {A} (n : nat) (l : list A) (x : A) : In x (firstn n l) -> In x l.
Proof.
  intros H. rewrite <- (firstn_skipn n l). apply in_or_app. now left.
Qed.

Lemma is_type_spec (t : string) (r : Row) :
  VolSignals.is_type t r = true <-> option_type r = t.
Proof. unfold VolSignals.is_type. apply String.eqb_eq. Qed.

Lemma on_dte_spec (d : Z) (r : Row) : VolSignals.on_dte d r = true <-> dte r = d.
Proof. unfold VolSignals.on_dte. apply Z.eqb_eq. Qed.

(** The rows of a wing: those of the expiry, of the type, with a strike
    in the band, bounds included. *)
Lemma in_wing (t : string) (lo hi price : float) (valid : list Row) (d : Z) (r : Row) :
  In r (filter (VolSignals.in_band lo hi price)
          (filter (VolSignals.is_type t) (filter (VolSignals.on_dte d) valid)))
  <-> In r valid /\ dte r = d /\ option_type r = t
      /\ PrimFloat.leb (PrimFloat.mul price lo) (strike r) = true
      /\ PrimFloat.leb (strike r) (PrimFloat.mul price hi) = true.
Proof.
  rewrite !filter_In, is_type_spec, on_dte_spec.
  unfold VolSignals.in_band, Py.geb. rewrite andb_true_iff. tauto.
Qed.

Lemma mean_iv_or_0_positive (g : list Row) :
  Py.gtb (VolSignals.mean_iv_or_0 g) 0%float = true ->
  g <> [] /\ VolSignals.mean_iv_or_0 g = VolSignals.mean_iv g.
Proof.
  destruct g as [| r g]; simpl.
  - vm_compute. discriminate.
  - intros _. split; [discriminate | reflexivity].
Qed.

(** ** Sums, means and deviations *)

Section Means.

Local Open Scope float_scope.

(** Below 8 entries the sum runs left to right from 0, and is added to the
    identity 0. *)
Lemma pairwise_sum_short (fuel : nat) (a : list float) :
  (List.length a < 8)%nat -> Py.pairwise_sum fuel a = fold_left PrimFloat.add a 0.
Proof.
  intros H. apply Nat.ltb_lt in H.
  destruct fuel; cbn [Py.pairwise_sum]; rewrite H; reflexivity.
Qed.

Lemma np_sum_short (a : list float) :
  (List.length a < 8)%nat -> Py.np_sum a = 0 + fold_left PrimFloat.add a 0.
Proof. intros H. unfold Py.np_sum. now rewrite pairwise_sum_short. Qed.

(** From 8 to 15 entries the first eight are added as a tree of pairs, and
    the others one by one onto that. *)
Lemma np_sum_block (a0 a1 a2 a3 a4 a5 a6 a7 : float) (rest : list float) :
  (List.length rest < 8)%nat ->
  Py.np_sum (a0 :: a1 :: a2 :: a3 :: a4 :: a5 :: a6 :: a7 :: rest)
  = 0 + fold_left PrimFloat.add rest
          (((a0 + a1) + (a2 + a3)) + ((a4 + a5) + (a6 + a7))).
Proof.
  intros H.
  do 8 (destruct rest as [| ? rest]; [reflexivity |]).
  simpl in H. lia.
Qed.

(** The halving is never cut short: any fuel from the length of the vector
    on gives the same sum. *)
Lemma pairwise_sum_fuel (fuel : nat) :
  forall (a : list float) (fuel' : nat),
    (List.length a <= fuel)%nat -> (List.length a <= fuel')%nat ->
    Py.pairwise_sum fuel a = Py.pairwise_sum fuel' a.
Proof.
  induction fuel as [| fuel IH]; intros a fuel' Hf Hf'.
  - destruct a; [| simpl in Hf; lia]. destruct fuel'; reflexivity.
  - destruct fuel' as [| fuel'].
    + destruct a; [| simpl in Hf'; lia]. reflexivity.
    + cbn [Py.pairwise_sum].
      destruct (Nat.ltb_spec (List.length a) 8) as [| H8]; [reflexivity |].
      destruct (Nat.leb_spec (List.length a) 128) as [| H128]; [reflexivity |].
      set (n := List.length a) in *.
      assert (Hn2 : (0 < n / 2 - (n / 2) mod 8 < n)%nat).
      { pose proof (Nat.mod_upper_bound (n / 2) 8 ltac:(lia)).
        pose proof (Nat.div_mod_eq n 2).
        pose proof (Nat.mod_upper_bound n 2 ltac:(lia)).
        lia. }
      f_equal; apply IH;
        rewrite ?length_firstn, ?length_skipn; fold n; lia.
Qed.

Lemma fillna_no_null (xs : list float) :
  Forall (fun x => Py.notna x = true) xs -> Py.fillna 0 xs = xs.
Proof.
  induction 1 as [| x xs Hx _ IH]; [reflexivity |].
  unfold Py.fillna in *. cbn [map]. rewrite IH.
  unfold Py.notna in Hx. apply negb_true_iff in Hx. now rewrite Hx.
Qed.

Lemma count_no_null (xs : list float) :
  Forall (fun x => Py.notna x = true) xs -> Py.count xs = List.length xs.
Proof.
  induction 1 as [| x xs Hx _ IH]; [reflexivity |].
  unfold Py.count, Py.dropna in *. cbn [filter]. rewrite Hx. cbn [List.length].
  now rewrite IH.
Qed.

Lemma dropna_no_null (xs : list float) :
  Forall (fun x => Py.notna x = true) (Py.dropna xs).
Proof.
  apply Forall_forall. intros x Hx. unfold Py.dropna in Hx.
  now apply filter_In in Hx.
Qed.

(** The mean of a vector: the sum over the number of entries when none is
    null; in general the nulls count as 0 in the sum and are left out of
    the number. *)
Lemma Series_mean_counted (xs : list float) :
  Py.count xs <> 0%nat ->
  Py.Series_mean xs = Py.np_sum (Py.fillna 0 xs) / Py.float_of_nat (Py.count xs).
Proof.
  intros H. unfold Py.Series_mean.
  destruct (Nat.eqb_spec (Py.count xs) 0); [contradiction | reflexivity].
Qed.

Lemma Series_mean_all_null (xs : list float) :
  Py.count xs = 0%nat -> Py.Series_mean xs = PrimFloat.nan.
Proof. intros H. unfold Py.Series_mean. now rewrite H. Qed.

Lemma Series_mean_no_null (xs : list float) :
  Forall (fun x => Py.notna x = true) xs -> xs <> [] ->
  Py.Series_mean xs = Py.np_sum xs / Py.float_of_nat (List.length xs).
Proof.
  intros H Hne. unfold Py.Series_mean. rewrite count_no_null, fillna_no_null by exact H.
  destruct xs; [congruence | reflexivity].
Qed.

(** The deviation of a window with no null and two entries or more is the
    sample standard deviation; with fewer it is null. *)
Lemma Series_std_no_null (w : list float) :
  Forall (fun x => Py.notna x = true) w -> (2 <= List.length w)%nat ->
  Py.Series_std w = Spec.sample_std w.
Proof.
  intros H Hn. unfold Py.Series_std, Spec.sample_std.
  rewrite count_no_null, fillna_no_null by exact H.
  destruct (Nat.leb_spec (List.length w) 1); [lia |].
  do 2 f_equal. f_equal. apply map_ext_in. intros x Hx.
  rewrite Forall_forall in H. specialize (H x Hx).
  unfold Py.notna in H. apply negb_true_iff in H. now rewrite H.
Qed.

Lemma Series_std_short (w : list float) :
  (Py.count w <= 1)%nat -> Py.Series_std w = PrimFloat.nan.
Proof.
  intros H. unfold Py.Series_std. apply Nat.leb_le in H. now rewrite H.
Qed.

(** The two formulas written out on vectors of fewer than 16 entries. *)
Lemma mean_percent_short (ivs : list float) :
  (List.length ivs < 8)%nat ->
  Spec.mean_percent ivs
  = (0 + fold_left PrimFloat.add ivs 0) / Py.float_of_nat (List.length ivs) * 100.
Proof. intros H. unfold Spec.mean_percent. now rewrite np_sum_short. Qed.

Lemma mean_percent_block (a0 a1 a2 a3 a4 a5 a6 a7 : float) (rest : list float) :
  (List.length rest < 8)%nat ->
  Spec.mean_percent (a0 :: a1 :: a2 :: a3 :: a4 :: a5 :: a6 :: a7 :: rest)
  = (0 + fold_left PrimFloat.add rest
           (((a0 + a1) + (a2 + a3)) + ((a4 + a5) + (a6 + a7))))
    / Py.float_of_nat (8 + List.length rest) * 100.
Proof. intros H. unfold Spec.mean_percent. now rewrite np_sum_block. Qed.

Lemma sample_std_short (w : list float) :
  (List.length w < 8)%nat ->
  Spec.sample_std w
  = let avg := (0 + fold_left PrimFloat.add w 0) / Py.float_of_nat (List.length w) in
    PrimFloat.sqrt
      ((0 + fold_left PrimFloat.add (map (fun x => (avg - x) * (avg - x)) w) 0)
       / Py.float_of_nat (List.length w - 1)).
Proof.
  intros H. unfold Spec.sample_std.
  rewrite (np_sum_short w H), np_sum_short by now rewrite length_map.
  reflexivity.
Qed.

(** The mean IV of a group of quotes. *)
Lemma valid_row_notna (r : Row) :
  VolSignals.valid_row r = true -> Py.notna (implied_volatility r) = true.
Proof.
  unfold VolSignals.valid_row. rewrite !andb_true_iff. tauto.
Qed.

Lemma mean_iv_no_null (g : list Row) :
  Forall (fun x => Py.notna x = true) (map implied_volatility g) -> g <> [] ->
  VolSignals.mean_iv g = Spec.mean_percent (map implied_volatility g).
Proof.
  intros H Hne. unfold VolSignals.mean_iv, Spec.mean_percent.
  rewrite Series_mean_no_null, length_map.
  - reflexivity.
  - exact H.
  - destruct g; [congruence | discriminate].
Qed.

Lemma mean_iv_valid (valid g : list Row) :
  (forall r, In r valid -> VolSignals.valid_row r = true) ->
  (forall r, In r g -> In r valid) -> g <> [] ->
  VolSignals.mean_iv g = Spec.mean_percent (map implied_volatility g).
Proof.
  intros Hv Hg Hne. apply mean_iv_no_null; [| exact Hne].
  apply Forall_forall. intros x Hx. apply in_map_iff in Hx.
  destruct Hx as (r & <- & Hr). apply valid_row_notna, Hv, Hg, Hr.
Qed.

Lemma mean_iv_or_0_valid (valid g : list Row) :
  (forall r, In r valid -> Py.notna (implied_volatility r) = true) ->
  (forall r, In r g -> In r valid) ->
  VolSignals.mean_iv_or_0 g = Spec.mean_percent_or_0 (map implied_volatility g).
Proof.
  intros Hv Hg. destruct g as [| r g]; [reflexivity |].
  change (VolSignals.mean_iv (r :: g)
          = Spec.mean_percent (map implied_volatility (r :: g))).
  apply mean_iv_no_null; [| discriminate].
  apply Forall_forall. intros x Hx. apply in_map_iff in Hx.
  destruct Hx as (r' & <- & Hr). apply Hv, Hg, Hr.
Qed.

End Means.

(** ** Labels *)

Section Labels.

Local Open Scope float_scope.

(** The three labels of a two-threshold rule are distinct strings: each
    equivalence is read off the two comparisons. *)
Ltac label_cases Hx :=
  repeat split; intros;
  try discriminate; try reflexivity;
  try (specialize (Hx eq_refl); discriminate);
  try match goal with H : _ /\ _ |- _ => destruct H; discriminate end.

Lemma direction_of_spec (skew : float) :
  (VolSignals.direction_of skew = "BEARISH" <-> PrimFloat.ltb 2 skew = true)
  /\ (VolSignals.direction_of skew = "BULLISH" <-> PrimFloat.ltb skew (-2) = true)
  /\ (VolSignals.direction_of skew = "NEUTRAL"
      <-> PrimFloat.ltb 2 skew = false /\ PrimFloat.ltb skew (-2) = false).
Proof.
  unfold VolSignals.direction_of, Py.gtb.
  pose proof (above_2_not_below skew) as Hx.
  destruct (PrimFloat.ltb 2 skew), (PrimFloat.ltb skew (-2));
    label_cases Hx.
Qed.

Lemma surface_direction_of_spec (skew : float) :
  (IvSurface.direction_of skew = "↑ Bearish" <-> PrimFloat.ltb 2 skew = true)
  /\ (IvSurface.direction_of skew = "↓ Bullish" <-> PrimFloat.ltb skew (-2) = true)
  /\ (IvSurface.direction_of skew = "→ Neutral"
      <-> PrimFloat.ltb 2 skew = false /\ PrimFloat.ltb skew (-2) = false).
Proof.
  unfold IvSurface.direction_of, Py.gtb.
  pose proof (above_2_not_below skew) as Hx.
  destruct (PrimFloat.ltb 2 skew), (PrimFloat.ltb skew (-2));
    label_cases Hx.
Qed.

Lemma vrp_signal_spec (vrp : float) :
  (VolSignals.vrp_signal vrp = "Signal: HIGH VRP - Favorable for vol selling"
   <-> PrimFloat.ltb 5 vrp = true)
  /\ (VolSignals.vrp_signal vrp = "Signal: NEGATIVE VRP - Pause vol selling strategies"
      <-> PrimFloat.ltb vrp (-5) = true)
  /\ (VolSignals.vrp_signal vrp = "Signal: NEUTRAL VRP"
      <-> PrimFloat.ltb 5 vrp = false /\ PrimFloat.ltb vrp (-5) = false).
Proof.
  unfold VolSignals.vrp_signal, Py.gtb.
  pose proof (above_5_not_below vrp) as Hx.
  destruct (PrimFloat.ltb 5 vrp), (PrimFloat.ltb vrp (-5));
    label_cases Hx.
Qed.

Lemma structure_of_spec (ts_spread : float) :
  (VolSignals.structure_of ts_spread = "CONTANGO" <-> PrimFloat.ltb 0 ts_spread = true)
  /\ (VolSignals.structure_of ts_spread = "BACKWARDATION"
      <-> PrimFloat.ltb 0 ts_spread = false).
Proof.
  unfold VolSignals.structure_of, Py.gtb.
  destruct (PrimFloat.ltb 0 ts_spread); repeat split; intros; try discriminate; tauto.
Qed.

End Labels.

(** ** Skew *)

Section Skew.

Local Open Scope float_scope.

(** C1.  In the skew analysis of [analyze_vol_signals], [valid] being the
    quotes the validity mask left, when the put wing and the call wing of
    an expiry both have a positive volatility, each is the mean implied
    volatility, in percent, of the rows of that expiry of its type with a
    strike in the band 92%-97% of the price for puts and 103%-108% for
    calls, bounds included: the sum of the volatilities in numpy's order,
    over their number, times 100.  The line printed carries
    [skew = put_iv - call_iv] and a label that is BEARISH exactly when
    [skew > 2], BULLISH exactly when [skew < -2] and NEUTRAL exactly when
    neither holds.  A skew of 2.0 is NEUTRAL, one of 2.01 is BEARISH.  The
    skew lines of [analyze_iv_surface] use the same two strict thresholds.

    The mean is written out for wings of fewer than 16 quotes: below 8 the
    volatilities are added left to right from 0; from 8 on the first eight
    are added as a tree of pairs and the others onto that.  On ten puts
    whose volatilities are those of [Examples.iv24] and a call at 22% the
    put wing is at 24.000000000000004, the skew is 2.0000000000000036 and
    the label is BEARISH. *)
Theorem skew_label_threshold_exact (valid : list Row) (price : float) (d : Z) :
  let calls := VolSignals.otm_calls valid price d in
  let puts := VolSignals.otm_puts valid price d in
  let call_iv := VolSignals.mean_iv_or_0 calls in
  let put_iv := VolSignals.mean_iv_or_0 puts in
  let skew := put_iv - call_iv in
  (forall r, In r valid -> VolSignals.valid_row r = true) ->
  Py.gtb call_iv 0 = true ->
  Py.gtb put_iv 0 = true ->
  (call_iv = Spec.mean_percent (map implied_volatility calls)
   /\ forall r, In r calls
        <-> In r valid /\ dte r = d /\ option_type r = "call"
            /\ (price * 1.03 <=? strike r) = true /\ (strike r <=? price * 1.08) = true)
  /\ (put_iv = Spec.mean_percent (map implied_volatility puts)
      /\ forall r, In r puts
           <-> In r valid /\ dte r = d /\ option_type r = "put"
               /\ (price * 0.92 <=? strike r) = true /\ (strike r <=? price * 0.97) = true)
  /\ (exists direction,
        VolSignals.skew_row valid price d = Some (skew, direction)
        /\ (direction = "BEARISH" <-> (2 <? skew) = true)
        /\ (direction = "BULLISH" <-> (skew <? -2) = true)
        /\ (direction = "NEUTRAL" <-> (2 <? skew) = false /\ (skew <? -2) = false))
  /\ VolSignals.direction_of 2.0 = "NEUTRAL"
  /\ VolSignals.direction_of 2.01 = "BEARISH"
  /\ (forall s,
        (IvSurface.direction_of s = "↑ Bearish" <-> (2 <? s) = true)
        /\ (IvSurface.direction_of s = "↓ Bullish" <-> (s <? -2) = true)
        /\ (IvSurface.direction_of s = "→ Neutral"
            <-> (2 <? s) = false /\ (s <? -2) = false))
  /\ (forall ivs, (List.length ivs < 8)%nat ->
        Spec.mean_percent ivs
        = (0 + fold_left PrimFloat.add ivs 0) / Py.float_of_nat (List.length ivs) * 100)
  /\ (forall a0 a1 a2 a3 a4 a5 a6 a7 rest, (List.length rest < 8)%nat ->
        Spec.mean_percent (a0 :: a1 :: a2 :: a3 :: a4 :: a5 :: a6 :: a7 :: rest)
        = (0 + fold_left PrimFloat.add rest
                 (((a0 + a1) + (a2 + a3)) + ((a4 + a5) + (a6 + a7))))
          / Py.float_of_nat (8 + List.length rest) * 100)
  /\ Spec.mean_percent Examples.iv24 = 24.000000000000004
  /\ VolSignals.skew_row (rows Examples.bearish_chain) 100 30
     = Some (2.0000000000000036, "BEARISH").
Proof.
  intros calls puts call_iv put_iv skew Hv Hc Hp.
  destruct (mean_iv_or_0_positive _ Hc) as [Nc Ec].
  destruct (mean_iv_or_0_positive _ Hp) as [Np Ep].
  repeat apply conj.
  - unfold call_iv. rewrite Ec. apply (mean_iv_valid valid); [exact Hv | | exact Nc].
    intros r Hr. now apply in_wing in Hr.
  - intros r. apply in_wing.
  - unfold put_iv. rewrite Ep. apply (mean_iv_valid valid); [exact Hv | | exact Np].
    intros r Hr. now apply in_wing in Hr.
  - intros r. apply in_wing.
  - exists (VolSignals.direction_of skew). split.
    + unfold VolSignals.skew_row, VolSignals.skew_of.
      fold calls puts. fold call_iv put_iv. rewrite Hc, Hp. reflexivity.
    + apply direction_of_spec.
  - reflexivity.
  - reflexivity.
  - apply surface_direction_of_spec.
  - apply mean_percent_short.
  - apply mean_percent_block.
  - reflexivity.
  - reflexivity.
Qed.

Lemma skew_label_threshold_exact_witness :
  exists direction,
    VolSignals.skew_row (rows Examples.bearish_chain) 100 30
    = Some (24.000000000000004 - 22, direction)
    /\ (direction = "BEARISH" <-> (2 <? 24.000000000000004 - 22) = true)
    /\ (direction = "BULLISH" <-> (24.000000000000004 - 22 <? -2) = true)
    /\ (direction = "NEUTRAL"
        <-> (2 <? 24.000000000000004 - 22) = false
            /\ (24.000000000000004 - 22 <? -2) = false).
Proof.
  exact (proj1 (proj2 (proj2
    (skew_label_threshold_exact (rows Examples.bearish_chain) 100 30
       (proj1 (forallb_forall VolSignals.valid_row (rows Examples.bearish_chain)) eq_refl)
       eq_refl eq_refl)))).
Defined.

End Skew.

(** What the skew loop prints for one expiry, once the columns it reads
    are there: the line of [skew_row], or nothing. *)
Lemma skew_body_prints (valid : DataFrame) (price : float) (d : Z) :
  has_column "dte" valid = true ->
  has_column "option_type" valid = true ->
  has_column "strike" valid = true ->
  VolSignals.skew_body valid price d
  = match VolSignals.skew_row (rows valid) price d with
    | Some (skew, direction) =>
        ([Msg "  DTE {dte:3d}: Skew = {skew:+.2f}% ({direction})"
            [AZ d; AF skew; AS direction]], inr tt)
    | None => ([], inr tt)
    end.
Proof.
  intros Hd Ht Hs. unfold VolSignals.skew_body, require.
  rewrite Hd, Ht, Hs.
  destruct (VolSignals.skew_row (rows valid) price d) as [[skew direction] |];
    reflexivity.
Qed.

(** ** Running a script: the equations of the monad *)

Lemma bind_ret {A B} (a : A) (k : A -> M B) : bind (ret a) k = k a.
Proof. unfold bind, ret. destruct (k a). reflexivity. Qed.

Lemma bind_raise {A B} (e : exn) (k : A -> M B) : bind (raise e) k = raise e.
Proof. reflexivity. Qed.

Lemma bind_print {B} (text : string) (args : list arg) (k : unit -> M B) :
  bind (print text args) k = (Msg text args :: fst (k tt), snd (k tt)).
Proof. unfold bind, print. destruct (k tt). reflexivity. Qed.

Lemma try_print {A} (text : string) (args : list arg) (c : M A) (h : exn -> M A) :
  try_except (Msg text args :: fst c, snd c) h
  = (Msg text args :: fst (try_except c h), snd (try_except c h)).
Proof.
  destruct c as [o [e | a]]; simpl; [destruct (h e) |]; reflexivity.
Qed.

Lemma require_present {R} (c : string) (df : Frame R) :
  has_column c df = true -> require c df = ret tt.
Proof. unfold require. now intros ->. Qed.

Lemma require_absent {R} (c : string) (df : Frame R) :
  has_column c df = false -> require c df = raise (KeyError c).
Proof. unfold require. now intros ->. Qed.

Lemma has_column_nonempty {R} (c : string) (df : Frame R) :
  has_column c df = true -> columns df <> [].
Proof. unfold has_column. destruct (columns df); [discriminate | discriminate]. Qed.

Lemma empty_false {R} (df : Frame R) :
  rows df <> [] -> columns df <> [] -> empty df = false.
Proof.
  unfold empty. destruct (rows df), (columns df); intros; congruence.
Qed.

(** A filtered table is empty exactly when no row is left, once the table
    has a column. *)
Lemma empty_select {R} (mask : R -> bool) (df : Frame R) :
  columns df <> [] ->
  empty (select mask df) = match filter mask (rows df) with [] => true | _ => false end.
Proof.
  unfold empty, select; simpl. destruct (filter mask (rows df)), (columns df); congruence.
Qed.

(** ** Variance risk premium *)

Section Vrp.

Import VolSignals.
Local Open Scope float_scope.

Lemma tail_trailing {A} (n : Z) (xs : list A) :
  (0 <= n)%Z -> Py.tail n xs = Spec.trailing (Z.to_nat n) xs.
Proof.
  intros Hn. unfold Py.tail, Spec.trailing.
  destruct (Z.ltb_spec n 0); [lia |].
  rewrite firstn_rev, rev_involutive. reflexivity.
Qed.

Lemma trailing_length {A} (n : nat) (xs : list A) :
  (n <= List.length xs)%nat -> List.length (Spec.trailing n xs) = n.
Proof.
  intros Hn. unfold Spec.trailing.
  rewrite length_rev, firstn_length_le; [reflexivity |].
  now rewrite length_rev.
Qed.

(** [252 ** 0.5] is the square root of 252, to the last bit. *)
Lemma pow_252_half_is_sqrt : pow_252_half = PrimFloat.sqrt 252.
Proof. reflexivity. Qed.

Lemma vrp_body_at_atm (chains : DataFrame) (hist_fetch : fetched HistFrame)
    (lookback_days : Z) (r0 : Row) (rs : list Row) :
  rows chains = r0 :: rs ->
  has_column (price_col chains) chains = true ->
  has_column "dte" chains = true ->
  has_column "strike" chains = true ->
  let price := price_field (price_col chains) r0 in
  vrp_body (FetchTable chains) hist_fetch lookback_days
  = if empty (atm_30d chains price)
    then print "No ATM options for 30-day expiry" []
    else require "implied_volatility" chains ;;
         print "30-Day IV: {iv_30d:.1f}%" [AF (iv_30d_of chains price)] ;;
         vrp_from_history (iv_30d_of chains price) hist_fetch lookback_days.
Proof.
  intros Hrows Hp Hd Hs price.
  unfold vrp_body.
  rewrite (empty_false chains)
    by (rewrite ?Hrows; eauto using has_column_nonempty; discriminate).
  rewrite (require_present _ _ Hp), bind_ret.
  rewrite Hrows. cbn [map iloc0]. rewrite bind_ret.
  rewrite (require_present _ _ Hd), bind_ret.
  rewrite (require_present _ _ Hs), bind_ret.
  reflexivity.
Qed.

Lemma vrp_from_history_reports (iv_30d : float) (hist : HistFrame) (lookback_days : Z) :
  (lookback_days <= Z.of_nat (List.length (rows hist)))%Z ->
  has_column "close" hist = true ->
  vrp_from_history iv_30d (FetchTable hist) lookback_days
  = vrp_report iv_30d (rv_30d_of hist lookback_days).
Proof.
  intros Hn Hc. unfold vrp_from_history.
  destruct (Z.ltb_spec (Z.of_nat (List.length (rows hist))) lookback_days); [lia |].
  rewrite (require_present _ _ Hc), bind_ret. reflexivity.
Qed.

(** The two masks applied in turn select the rows of the single mask. *)
Lemma atm_30d_rows (chains : DataFrame) (price : float) :
  rows (atm_30d chains price) = Spec.bucket_30d chains price.
Proof.
  unfold atm_30d, month_options, select, Spec.bucket_30d. cbn [rows].
  rewrite filter_filter. apply filter_ext. intros r.
  unfold month_row, in_band, Py.geb. rewrite Z.geb_leb.
  now rewrite andb_assoc.
Qed.

Lemma atm_30d_empty (chains : DataFrame) (price : float) :
  columns chains <> [] ->
  empty (atm_30d chains price)
  = match Spec.bucket_30d chains price with [] => true | _ => false end.
Proof.
  intros Hc. rewrite <- atm_30d_rows. unfold empty, atm_30d, month_options, select.
  cbn [rows columns].
  destruct (filter _ (filter _ _)), (columns chains); congruence.
Qed.

End Vrp.

Section VrpRun.

Import VolSignals.
Local Open Scope float_scope.

Lemma calculate_vrp_wraps (chains_fetch : fetched DataFrame)
    (hist_fetch : fetched HistFrame) (symbol : string) (lookback_days : Z) :
  calculate_vrp chains_fetch hist_fetch symbol lookback_days
  = let run := try_except (vrp_body chains_fetch hist_fetch lookback_days)
                 (fun e => print "Error: {e}" [AE e]) in
    (Msg "{'='*60}" [] :: Msg "VRP ANALYSIS: {symbol}" [AS symbol]
       :: Msg "{'='*60}" [] :: fst run, snd run).
Proof.
  unfold calculate_vrp, double_rule. rewrite !bind_print. reflexivity.
Qed.

(** The 30-day IV: the mean volatility of the bucket, in percent. *)
Lemma iv_30d_of_bucket (chains : DataFrame) (price : float) :
  iv_30d_of chains price
  = Py.Series_mean (map implied_volatility (Spec.bucket_30d chains price)) * 100.
Proof. unfold iv_30d_of, mean_iv. now rewrite atm_30d_rows. Qed.

Lemma iv_30d_of_no_null (chains : DataFrame) (price : float) :
  let ivs := map implied_volatility (Spec.bucket_30d chains price) in
  Spec.bucket_30d chains price <> [] ->
  Forall (fun x => Py.notna x = true) ivs ->
  iv_30d_of chains price = Spec.mean_percent ivs.
Proof.
  intros ivs Hne Hnn. unfold iv_30d_of. rewrite atm_30d_rows.
  now apply mean_iv_no_null.
Qed.

Lemma iv_30d_of_counted (chains : DataFrame) (price : float) :
  let ivs := map implied_volatility (Spec.bucket_30d chains price) in
  Py.count ivs <> 0%nat ->
  iv_30d_of chains price
  = Py.np_sum (Py.fillna 0 ivs) / Py.float_of_nat (Py.count ivs) * 100.
Proof.
  intros ivs Hc. rewrite iv_30d_of_bucket. fold ivs.
  now rewrite Series_mean_counted.
Qed.

Lemma iv_30d_of_all_null (chains : DataFrame) (price : float) :
  Py.count (map implied_volatility (Spec.bucket_30d chains price)) = 0%nat ->
  PrimFloat.is_nan (iv_30d_of chains price) = true.
Proof.
  intros Hc. rewrite iv_30d_of_bucket, Series_mean_all_null by exact Hc.
  reflexivity.
Qed.

(** The window of returns has no null, and its deviation is the sample
    standard deviation. *)
Lemma trailing_no_null (n : nat) (xs : list float) :
  Forall (fun x => Py.notna x = true) xs ->
  Forall (fun x => Py.notna x = true) (Spec.trailing n xs).
Proof.
  rewrite !Forall_forall. intros H x Hx. apply H.
  unfold Spec.trailing in Hx. apply in_rev in Hx.
  apply In_rev. eapply In_firstn. exact Hx.
Qed.

Lemma rv_30d_of_sample_std (hist : HistFrame) (lookback_days : Z) :
  (2 <= lookback_days <= Z.of_nat (List.length (daily_returns hist)))%Z ->
  rv_30d_of hist lookback_days
  = Spec.sample_std (Spec.trailing (Z.to_nat lookback_days) (daily_returns hist))
    * PrimFloat.sqrt 252 * 100.
Proof.
  intros [H2 Hn]. unfold rv_30d_of, rv_of_returns.
  rewrite tail_trailing by lia. rewrite pow_252_half_is_sqrt.
  rewrite Series_std_no_null; [reflexivity | |].
  - apply trailing_no_null, dropna_no_null.
  - rewrite trailing_length by lia. lia.
Qed.

Lemma rv_30d_of_short (hist : HistFrame) (lookback_days : Z) :
  (0 <= lookback_days <= 1)%Z ->
  PrimFloat.is_nan (rv_30d_of hist lookback_days) = true.
Proof.
  intros [H0 H1]. unfold rv_30d_of, rv_of_returns.
  rewrite tail_trailing by lia. rewrite Series_std_short; [reflexivity |].
  unfold Py.count.
  etransitivity; [apply filter_length_le |].
  unfold Spec.trailing. rewrite length_rev, length_firstn. lia.
Qed.

(** C10.  In [calculate_vrp], on a chain that has rows and the price,
    [dte] and [strike] columns, the 30-day bucket is the set of rows with
    [25 <= dte <= 35] and [0.98 * price <= strike <= 1.02 * price], bounds
    included.  When the bucket is empty the function prints its message
    and returns, whatever the price history is: no RV and no VRP line.
    Otherwise the 30-day IV it prints is the mean implied volatility of
    the bucket, times 100: the sum of the volatilities in numpy's order,
    over their number, times 100, when none is null; in general the nulls
    count as 0 in the sum and are left out of the number, and the IV is
    null when every volatility is.

    The mean is written out for buckets of fewer than 16 quotes: below 8
    the volatilities are added left to right from 0; from 8 on the first
    eight are added as a tree of pairs and the others onto that.  On the
    nine quotes of [Examples.nine_chain] the IV printed is
    26.199999999999996. *)
Theorem iv_30d_is_bucket_mean (chains : DataFrame) (symbol : string)
    (lookback_days : Z) (r0 : Row) (rs : list Row) :
  rows chains = r0 :: rs ->
  has_column (price_col chains) chains = true ->
  has_column "dte" chains = true ->
  has_column "strike" chains = true ->
  let price := price_field (price_col chains) r0 in
  let bucket := Spec.bucket_30d chains price in
  let ivs := map implied_volatility bucket in
  (forall hist_fetch : fetched HistFrame,
    (bucket = [] ->
     calculate_vrp (FetchTable chains) hist_fetch symbol lookback_days
     = ([Msg "{'='*60}" []; Msg "VRP ANALYSIS: {symbol}" [AS symbol];
         Msg "{'='*60}" []; Msg "No ATM options for 30-day expiry" []], inr tt))
    /\ (bucket <> [] ->
        has_column "implied_volatility" chains = true ->
        exists iv_30d rest result,
          calculate_vrp (FetchTable chains) hist_fetch symbol lookback_days
          = (Msg "{'='*60}" [] :: Msg "VRP ANALYSIS: {symbol}" [AS symbol]
               :: Msg "{'='*60}" []
               :: Msg "30-Day IV: {iv_30d:.1f}%" [AF iv_30d]
               :: rest, result)
          /\ (Forall (fun x => Py.notna x = true) ivs ->
              iv_30d = Spec.mean_percent ivs)
          /\ (Py.count ivs <> 0%nat ->
              iv_30d = Py.np_sum (Py.fillna 0 ivs) / Py.float_of_nat (Py.count ivs) * 100)
          /\ (Py.count ivs = 0%nat -> PrimFloat.is_nan iv_30d = true)))
  /\ (forall ivs, (List.length ivs < 8)%nat ->
        Spec.mean_percent ivs
        = (0 + fold_left PrimFloat.add ivs 0) / Py.float_of_nat (List.length ivs) * 100)
  /\ (forall a0 a1 a2 a3 a4 a5 a6 a7 rest, (List.length rest < 8)%nat ->
        Spec.mean_percent (a0 :: a1 :: a2 :: a3 :: a4 :: a5 :: a6 :: a7 :: rest)
        = (0 + fold_left PrimFloat.add rest
                 (((a0 + a1) + (a2 + a3)) + ((a4 + a5) + (a6 + a7))))
          / Py.float_of_nat (8 + List.length rest) * 100)
  /\ Spec.mean_percent Examples.iv26 = 26.199999999999996
  /\ calculate_vrp (FetchTable Examples.nine_chain) FetchNone "BTC" 30
     = ([Msg "{'='*60}" []; Msg "VRP ANALYSIS: {symbol}" [AS "BTC"];
         Msg "{'='*60}" [];
         Msg "30-Day IV: {iv_30d:.1f}%" [AF 26.199999999999996];
         Msg "Insufficient historical data for RV" []], inr tt).
Proof.
  intros Hrows Hp Hd Hs price bucket ivs.
  split; [| repeat split;
            [apply mean_percent_short | apply mean_percent_block]].
  intros hist_fetch.
  rewrite calculate_vrp_wraps.
  rewrite (vrp_body_at_atm chains hist_fetch lookback_days r0 rs Hrows Hp Hd Hs).
  fold price.
  rewrite atm_30d_empty by eauto using has_column_nonempty.
  fold bucket. split.
  - intros ->. reflexivity.
  - intros Hne Hiv.
    replace (match bucket with [] => true | _ :: _ => false end) with false
      by (destruct bucket; congruence).
    rewrite (require_present _ _ Hiv), bind_ret, bind_print.
    cbv zeta. rewrite try_print. cbn [fst snd].
    exists (iv_30d_of chains price). eexists. eexists.
    split; [reflexivity |]. repeat split.
    + intros Hnn. now apply iv_30d_of_no_null.
    + intros Hc. now apply iv_30d_of_counted.
    + intros Hc. now apply iv_30d_of_all_null.
Qed.

(** C2.  On inputs that let [calculate_vrp] run to its end, the lines
    printed are the 30-day IV, the RV, [VRP = IV - RV] and one signal; the
    signal is HIGH VRP exactly when [VRP > 5], NEGATIVE VRP exactly when
    [VRP < -5], NEUTRAL VRP exactly when neither holds.  The IV is the
    mean volatility of the 30-day bucket in percent, and the RV the sample
    standard deviation of the trailing returns, annualized, both summed in
    numpy's order.  With IV 25 and RV 18 the report shows VRP 7 and HIGH
    VRP; with 20 and 26, VRP -6 and NEGATIVE VRP; with 22 and 20, VRP 2
    and NEUTRAL VRP.  On the ten quotes of [Examples.ten_chain] and closes
    that do not move, the IV is 5.000000000000001, the RV 0 and the signal
    HIGH VRP; on [Examples.nine_chain] and the thirty-one closes of
    [Examples.month_closes], IV 26.199999999999996, RV 19.997442128745202,
    VRP 6.202557871254793 and HIGH VRP. *)
Theorem vrp_is_iv_minus_rv_with_label
    (chains : DataFrame) (hist : HistFrame) (symbol : string) (lookback_days : Z)
    (r0 : Row) (rs : list Row) :
  rows chains = r0 :: rs ->
  has_column (price_col chains) chains = true ->
  has_column "dte" chains = true ->
  has_column "strike" chains = true ->
  has_column "implied_volatility" chains = true ->
  let price := price_field (price_col chains) r0 in
  Spec.bucket_30d chains price <> [] ->
  (lookback_days <= Z.of_nat (List.length (rows hist)))%Z ->
  has_column "close" hist = true ->
  let iv_30d := iv_30d_of chains price in
  let rv_30d := rv_30d_of hist lookback_days in
  let vrp := iv_30d - rv_30d in
  (exists label,
     calculate_vrp (FetchTable chains) (FetchTable hist) symbol lookback_days
     = ([Msg "{'='*60}" []; Msg "VRP ANALYSIS: {symbol}" [AS symbol];
         Msg "{'='*60}" [];
         Msg "30-Day IV: {iv_30d:.1f}%" [AF iv_30d];
         Msg "30-Day RV: {rv_30d:.1f}%" [AF rv_30d];
         Msg "VRP (IV - RV): {vrp:+.1f}%" [AF vrp];
         Msg label []], inr tt)
     /\ (label = "Signal: HIGH VRP - Favorable for vol selling" <-> (5 <? vrp) = true)
     /\ (label = "Signal: NEGATIVE VRP - Pause vol selling strategies"
         <-> (vrp <? -5) = true)
     /\ (label = "Signal: NEUTRAL VRP" <-> (5 <? vrp) = false /\ (vrp <? -5) = false))
  /\ vrp_report 25 18
     = ([Msg "30-Day RV: {rv_30d:.1f}%" [AF 18]; Msg "VRP (IV - RV): {vrp:+.1f}%" [AF 7];
         Msg "Signal: HIGH VRP - Favorable for vol selling" []], inr tt)
  /\ vrp_report 20 26
     = ([Msg "30-Day RV: {rv_30d:.1f}%" [AF 26]; Msg "VRP (IV - RV): {vrp:+.1f}%" [AF (-6)];
         Msg "Signal: NEGATIVE VRP - Pause vol selling strategies" []], inr tt)
  /\ vrp_report 22 20
     = ([Msg "30-Day RV: {rv_30d:.1f}%" [AF 20]; Msg "VRP (IV - RV): {vrp:+.1f}%" [AF 2];
         Msg "Signal: NEUTRAL VRP" []], inr tt)
  /\ (Forall (fun x => Py.notna x = true)
        (map implied_volatility (Spec.bucket_30d chains price)) ->
      iv_30d = Spec.mean_percent (map implied_volatility (Spec.bucket_30d chains price)))
  /\ ((2 <= lookback_days <= Z.of_nat (List.length (daily_returns hist)))%Z ->
      rv_30d
      = Spec.sample_std (Spec.trailing (Z.to_nat lookback_days) (daily_returns hist))
        * PrimFloat.sqrt 252 * 100)
  /\ calculate_vrp (FetchTable Examples.ten_chain) (FetchTable Examples.flat_closes) "BTC" 3
     = ([Msg "{'='*60}" []; Msg "VRP ANALYSIS: {symbol}" [AS "BTC"];
         Msg "{'='*60}" [];
         Msg "30-Day IV: {iv_30d:.1f}%" [AF 5.000000000000001];
         Msg "30-Day RV: {rv_30d:.1f}%" [AF 0];
         Msg "VRP (IV - RV): {vrp:+.1f}%" [AF 5.000000000000001];
         Msg "Signal: HIGH VRP - Favorable for vol selling" []], inr tt)
  /\ calculate_vrp (FetchTable Examples.nine_chain) (FetchTable Examples.month_closes)
       "BTC" 30
     = ([Msg "{'='*60}" []; Msg "VRP ANALYSIS: {symbol}" [AS "BTC"];
         Msg "{'='*60}" [];
         Msg "30-Day IV: {iv_30d:.1f}%" [AF 26.199999999999996];
         Msg "30-Day RV: {rv_30d:.1f}%" [AF 19.997442128745202];
         Msg "VRP (IV - RV): {vrp:+.1f}%" [AF 6.202557871254793];
         Msg "Signal: HIGH VRP - Favorable for vol selling" []], inr tt).
Proof.
  intros Hrows Hp Hd Hs Hiv price Hne Hn Hc iv_30d rv_30d vrp.
  split; [| repeat split; try reflexivity].
  - exists (vrp_signal vrp). split; [| apply vrp_signal_spec].
    rewrite calculate_vrp_wraps.
    rewrite (vrp_body_at_atm chains _ lookback_days r0 rs Hrows Hp Hd Hs).
    fold price.
    rewrite atm_30d_empty by eauto using has_column_nonempty.
    destruct (Spec.bucket_30d chains price) as [| b bs]; [congruence |].
    rewrite (require_present _ _ Hiv), bind_ret.
    rewrite (vrp_from_history_reports _ hist lookback_days Hn Hc).
    reflexivity.
  - intros Hnn. now apply iv_30d_of_no_null.
  - apply rv_30d_of_sample_std.
Qed.

Lemma vrp_is_iv_minus_rv_with_label_witness :
  exists label,
    calculate_vrp (FetchTable Examples.nine_chain) (FetchTable Examples.month_closes)
      "BTC" 30
    = ([Msg "{'='*60}" []; Msg "VRP ANALYSIS: {symbol}" [AS "BTC"];
        Msg "{'='*60}" [];
        Msg "30-Day IV: {iv_30d:.1f}%" [AF 26.199999999999996];
        Msg "30-Day RV: {rv_30d:.1f}%" [AF 19.997442128745202];
        Msg "VRP (IV - RV): {vrp:+.1f}%" [AF (26.199999999999996 - 19.997442128745202)];
        Msg label []], inr tt)
    /\ (label = "Signal: HIGH VRP - Favorable for vol selling"
        <-> (5 <? 26.199999999999996 - 19.997442128745202) = true)
    /\ (label = "Signal: NEGATIVE VRP - Pause vol selling strategies"
        <-> (26.199999999999996 - 19.997442128745202 <? -5) = true)
    /\ (label = "Signal: NEUTRAL VRP"
        <-> (5 <? 26.199999999999996 - 19.997442128745202) = false
            /\ (26.199999999999996 - 19.997442128745202 <? -5) = false).
Proof.
  refine (proj1 (vrp_is_iv_minus_rv_with_label Examples.nine_chain Examples.month_closes
                   "BTC" 30 _ _ eq_refl eq_refl eq_refl eq_refl eq_refl _ _ eq_refl)).
  - vm_compute. discriminate.
  - vm_compute. discriminate.
Defined.

Lemma iv_30d_is_bucket_mean_witness :
  exists iv_30d rest result,
    calculate_vrp (FetchTable Examples.nine_chain) (FetchTable Examples.month_closes)
      "BTC" 30
    = (Msg "{'='*60}" [] :: Msg "VRP ANALYSIS: {symbol}" [AS "BTC"]
         :: Msg "{'='*60}" []
         :: Msg "30-Day IV: {iv_30d:.1f}%" [AF iv_30d]
         :: rest, result)
    /\ (Forall (fun x => Py.notna x = true) Examples.iv26 ->
        iv_30d = Spec.mean_percent Examples.iv26)
    /\ (Py.count Examples.iv26 <> 0%nat ->
        iv_30d = Py.np_sum (Py.fillna 0 Examples.iv26)
                 / Py.float_of_nat (Py.count Examples.iv26) * 100)
    /\ (Py.count Examples.iv26 = 0%nat -> PrimFloat.is_nan iv_30d = true).
Proof.
  refine (proj2 (proj1 (iv_30d_is_bucket_mean Examples.nine_chain "BTC" 30 _ _
                          eq_refl eq_refl eq_refl eq_refl)
                   (FetchTable Examples.month_closes))
            _ eq_refl).
  vm_compute. discriminate.
Defined.

(** C6.  When the series of daily returns has at least [lookback_days]
    values, the realized volatility of [calculate_vrp] is the standard
    deviation of the trailing [lookback_days] returns, times the square
    root of 252, times 100.  The window has no null, and its deviation is
    the sample one: with [avg] the sum of the window over its length, the
    square root of the sum of the [(avg - x) ** 2] over the length less
    one, both sums in numpy's order; it is null for a window of one return
    or none.  The deviation is written out for windows of fewer than 8
    returns, where the sums run left to right from 0.  The sample
    deviation of 1, 2, 3, 4 is 1.2909944487358056, that of 2, 4, 4, 4, 5,
    5, 7, 9 is 2.138089935299395, and the thirty returns of
    [Examples.month_closes] give an RV of 19.997442128745202. *)
Theorem realized_volatility_annualized (hist : HistFrame) (lookback_days : Z) :
  (0 <= lookback_days <= Z.of_nat (List.length (daily_returns hist)))%Z ->
  let window := Spec.trailing (Z.to_nat lookback_days) (daily_returns hist) in
  Z.of_nat (List.length window) = lookback_days
  /\ Forall (fun x => Py.notna x = true) window
  /\ ((2 <= lookback_days)%Z ->
      rv_30d_of hist lookback_days = Spec.sample_std window * PrimFloat.sqrt 252 * 100)
  /\ ((lookback_days <= 1)%Z -> PrimFloat.is_nan (rv_30d_of hist lookback_days) = true)
  /\ (forall w, (List.length w < 8)%nat ->
        Spec.sample_std w
        = let avg := (0 + fold_left PrimFloat.add w 0) / Py.float_of_nat (List.length w) in
          PrimFloat.sqrt
            ((0 + fold_left PrimFloat.add (map (fun x => (avg - x) * (avg - x)) w) 0)
             / Py.float_of_nat (List.length w - 1)))
  /\ Spec.sample_std [1; 2; 3; 4] = 1.2909944487358056
  /\ Spec.sample_std [2; 4; 4; 4; 5; 5; 7; 9] = 2.138089935299395
  /\ List.length (daily_returns Examples.month_closes) = 30%nat
  /\ rv_30d_of Examples.month_closes 30 = 19.997442128745202.
Proof.
  intros [H0 Hn] window. repeat apply conj; try reflexivity.
  - unfold window. rewrite trailing_length by lia. lia.
  - apply trailing_no_null, dropna_no_null.
  - intros H2. apply rv_30d_of_sample_std. lia.
  - intros H1. apply rv_30d_of_short. lia.
  - apply sample_std_short.
Qed.

Lemma realized_volatility_annualized_witness :
  rv_30d_of Examples.month_closes 30
  = Spec.sample_std (Spec.trailing 30 (daily_returns Examples.month_closes))
    * PrimFloat.sqrt 252 * 100.
Proof.
  refine (proj1 (proj2 (proj2
            (realized_volatility_annualized Examples.month_closes 30 _))) _).
  - vm_compute. split; discriminate.
  - vm_compute. discriminate.
Defined.

(** The guard of the script counts closes, not returns: five closes pass
    it for a look-back of five, and leave a window of four returns. *)
Lemma five_closes_four_returns :
  (Z.of_nat (List.length (rows Examples.closes)) <? 5)%Z = false
  /\ List.length (Py.tail 5 (daily_returns Examples.closes)) = 4%nat.
Proof. split; reflexivity. Qed.

End VrpRun.

(** ** Sorted expirations *)

Section Sorting.

Lemma insert_unique_In (x y : Z) (l : list Z) :
  In y (Py.insert_unique x l) <-> y = x \/ In y l.
Proof.
  induction l as [| a l IH]; simpl.
  - intuition.
  - destruct (Z.ltb_spec x a); [simpl; intuition |].
    destruct (Z.eqb_spec x a); simpl; [subst; intuition |].
    rewrite IH. intuition.
Qed.

Lemma insert_unique_sorted (x : Z) (l : list Z) :
  StronglySorted Z.lt l -> StronglySorted Z.lt (Py.insert_unique x l).
Proof.
  induction 1 as [| a l Hs IH Ha]; simpl.
  - repeat constructor.
  - destruct (Z.ltb_spec x a).
    + constructor; [now constructor |].
      constructor; [assumption |].
      eapply Forall_impl; [| exact Ha]. intros; lia.
    + destruct (Z.eqb_spec x a); [now constructor |].
      constructor; [assumption |].
      apply Forall_forall. intros y Hy. apply insert_unique_In in Hy.
      destruct Hy as [-> | Hy]; [lia |].
      rewrite Forall_forall in Ha. now apply Ha.
Qed.

Lemma sorted_unique_sorted (l : list Z) : StronglySorted Z.lt (Py.sorted_unique l).
Proof.
  induction l as [| a l IH]; simpl; [constructor | now apply insert_unique_sorted].
Qed.

Lemma sorted_unique_In (x : Z) (l : list Z) : In x (Py.sorted_unique l) <-> In x l.
Proof.
  induction l as [| a l IH]; simpl; [reflexivity |].
  rewrite insert_unique_In, IH. intuition.
Qed.

Lemma firstn_sorted (n : nat) (l : list Z) :
  StronglySorted Z.lt l -> StronglySorted Z.lt (firstn n l).
Proof.
  intros H. revert n. induction H as [| a l Hs IH Ha]; intros [| n]; simpl;
    try constructor; auto.
  apply Forall_forall. intros y Hy. rewrite Forall_forall in Ha.
  apply Ha. rewrite <- (firstn_skipn n l). apply in_or_app. now left.
Qed.

Lemma last_nonempty_default {A} (b : A) (l : list A) (d d' : A) :
  last (b :: l) d = last (b :: l) d'.
Proof.
  revert b. induction l as [| c l IH]; intros b; [reflexivity |].
  change (last (c :: l) d = last (c :: l) d'). apply IH.
Qed.

(** In an ascending list the head is the least entry and the last one the
    greatest. *)
Lemma sorted_bounds (a : Z) (l : list Z) :
  StronglySorted Z.lt (a :: l) ->
  forall x, In x (a :: l) -> a <= x <= last (a :: l) a.
Proof.
  revert a. induction l as [| b l IH]; intros a Hs x Hx.
  - destruct Hx as [<- | []]. simpl. lia.
  - inversion Hs as [| ? ? Hs' Ha]; subst.
    pose proof (Forall_inv Ha) as Hab.
    change (last (a :: b :: l) a) with (last (b :: l) a).
    rewrite (last_nonempty_default b l a b).
    destruct Hx as [<- | Hx].
    + specialize (IH b Hs' b (or_introl eq_refl)). lia.
    + specialize (IH b Hs' x Hx). lia.
Qed.
End Sorting.

(** ** Term structure *)

Section TermStructure.
Import VolSignals.
Local Open Scope float_scope.

Lemma last_map {A B} (f : A -> B) (l : list A) (d : A) :
  last (map f l) (f d) = f (last l d).
Proof.
  induction l as [| a l IH]; [reflexivity |].
  destruct l; [reflexivity | exact IH].
Qed.

(** What the term-structure loop collects: for each expiry, in order, the
    entry of [ts_row] when there is one. *)
Lemma ts_collect_entries (valid : DataFrame) (price : float) (exps : list Z)
    (out : list line) (ts_data : list ts_entry) :
  for_collect exps (ts_body valid price) = (out, inr ts_data) ->
  ts_data = flat_map (fun d => match ts_row (rows valid) price d with
                               | Some e => [e]
                               | None => []
                               end) exps.
Proof.
  revert out ts_data. induction exps as [| d exps IH]; intros out ts_data.
  - simpl. unfold ret. now intros [= _ <-].
  - cbn [for_collect flat_map].
    destruct (for_collect exps (ts_body valid price)) as [o [e | rest]] eqn:Hrest;
      unfold ts_body, require;
      (destruct (has_column "dte" valid); [| discriminate]);
      (destruct (has_column "strike" valid); [| discriminate]).
    + destruct (ts_row (rows valid) price d); cbn; discriminate.
    + specialize (IH _ _ eq_refl). subst rest.
      destruct (ts_row (rows valid) price d) as [e |]; cbn; now intros [= _ <-].
Qed.

Lemma ts_row_entry (valid : list Row) (price : float) (d : Z) (e : ts_entry) :
  ts_row valid price d = Some e ->
  ts_dte e = d
  /\ ts_atm_iv e
     = mean_iv (filter (in_band 0.98 1.02 price) (filter (on_dte d) valid))
  /\ filter (in_band 0.98 1.02 price) (filter (on_dte d) valid) <> [].
Proof.
  unfold ts_row.
  destruct (filter (in_band 0.98 1.02 price) (filter (on_dte d) valid)) eqn:E;
    [discriminate |].
  intros [= <-]. repeat split. discriminate.
Qed.

Lemma ts_entries_In (valid : list Row) (price : float) (exps : list Z) (e : ts_entry) :
  In e (flat_map (fun d => match ts_row valid price d with
                           | Some e => [e]
                           | None => []
                           end) exps) ->
  In (ts_dte e) exps /\ ts_row valid price (ts_dte e) = Some e.
Proof.
  rewrite in_flat_map. intros (d & Hd & He).
  destruct (ts_row valid price d) as [e' |] eqn:E; [| destruct He].
  destruct He as [<- | []].
  destruct (ts_row_entry _ _ _ _ E) as [-> _]. now split.
Qed.

Lemma ts_entries_sorted (valid : list Row) (price : float) (exps : list Z) :
  StronglySorted Z.lt exps ->
  StronglySorted Z.lt
    (map ts_dte (flat_map (fun d => match ts_row valid price d with
                                    | Some e => [e]
                                    | None => []
                                    end) exps)).
Proof.
  induction 1 as [| d exps Hs IH Hd]; [constructor |].
  cbn [flat_map]. destruct (ts_row valid price d) as [e |] eqn:E; [| exact IH].
  cbn [app map]. constructor; [exact IH |].
  apply Forall_forall. intros x Hx. apply in_map_iff in Hx.
  destruct Hx as (e' & <- & He').
  apply ts_entries_In in He'. destruct He' as [Hin _].
  destruct (ts_row_entry _ _ _ _ E) as [-> _].
  rewrite Forall_forall in Hd. now apply Hd.
Qed.

(** C3.  Let [ts_data] be what the term-structure loop of
    [analyze_vol_signals] collects from the valid quotes, with at least
    two entries.  Its first entry is the earliest expiry collected and its
    last entry the latest, each with the mean at-the-money IV of its
    expiry, in percent (the sum of the volatilities in numpy's order, over
    their number, times 100); the spread is the far IV minus the near IV,
    and the label is CONTANGO exactly when the spread is above 0,
    BACKWARDATION otherwise.  Near 30 and far 35 give spread 5 and
    CONTANGO; near 35 and far 30 give -5 and BACKWARDATION.  On
    [Examples.contango_chain] the near entry is at 24 and the far one, the
    mean of ten quotes, at 24.000000000000004: CONTANGO. *)
Theorem term_structure_spread_label (valid : DataFrame) (price : float)
    (out : list line) (ts_data : list ts_entry) :
  (forall r, In r (rows valid) -> valid_row r = true) ->
  for_collect (firstn 6 (Py.sorted_unique (map dte (rows valid)))) (ts_body valid price)
  = (out, inr ts_data) ->
  (2 <= List.length ts_data)%nat ->
  (exists near far rest,
     ts_data = near :: rest
     /\ far = last ts_data near
     /\ (forall e, In e ts_data ->
           (ts_dte near <= ts_dte e <= ts_dte far)%Z
           /\ ts_atm_iv e
              = Spec.mean_percent
                  (map implied_volatility
                     (filter (in_band 0.98 1.02 price)
                        (filter (on_dte (ts_dte e)) (rows valid)))))
     /\ let ts_spread := ts_atm_iv far - ts_atm_iv near in
        exists structure,
          term_structure ts_data = Some (ts_spread, structure)
          /\ (structure = "CONTANGO" <-> (0 <? ts_spread) = true)
          /\ (structure = "BACKWARDATION" <-> (0 <? ts_spread) = false))
  /\ term_structure [mk_ts 7 30; mk_ts 30 35] = Some (5, "CONTANGO")
  /\ term_structure [mk_ts 7 35; mk_ts 30 30] = Some (-5, "BACKWARDATION")
  /\ Spec.mean_percent Examples.iv24 = 24.000000000000004
  /\ for_collect (firstn 6 (Py.sorted_unique (map dte (rows Examples.contango_chain))))
       (ts_body Examples.contango_chain 100)
     = ([Msg "  DTE {dte:3d}: ATM IV = {atm_iv:.1f}%" [AZ 7; AF 24];
         Msg "  DTE {dte:3d}: ATM IV = {atm_iv:.1f}%" [AZ 30; AF 24.000000000000004]],
        inr [mk_ts 7 24; mk_ts 30 24.000000000000004])
  /\ term_structure [mk_ts 7 24; mk_ts 30 24.000000000000004]
     = Some (3.552713678800501e-15, "CONTANGO").
Proof.
  intros Hv Hrun Hlen. split; [| repeat split; reflexivity].
  apply ts_collect_entries in Hrun.
  pose proof (ts_entries_sorted (rows valid) price _
                (firstn_sorted 6 _ (sorted_unique_sorted (map dte (rows valid)))))
    as Hsorted.
  rewrite <- Hrun in Hsorted.
  destruct ts_data as [| near [| second rest]]; simpl in Hlen; try lia.
  exists near, (last (near :: second :: rest) near), (second :: rest).
  repeat split.
  - pose proof (sorted_bounds _ _ Hsorted (ts_dte e) (in_map ts_dte _ _ H)) as Hb. lia.
  - pose proof (sorted_bounds _ _ Hsorted (ts_dte e) (in_map ts_dte _ _ H)) as Hb.
    rewrite <- (last_map ts_dte (near :: second :: rest) near). exact (proj2 Hb).
  - rewrite Hrun in H. apply ts_entries_In in H. destruct H as [_ H].
    apply ts_row_entry in H. destruct H as (_ & -> & Hne).
    apply (mean_iv_valid (rows valid)); [exact Hv | | exact Hne].
    intros r Hr. apply filter_In in Hr. destruct Hr as [Hr _].
    now apply filter_In in Hr.
  - eexists. split; [reflexivity |]. apply structure_of_spec.
Qed.

Lemma term_structure_spread_label_witness :
  exists near far rest,
    [mk_ts 7 24; mk_ts 30 24.000000000000004] = near :: rest
    /\ far = last [mk_ts 7 24; mk_ts 30 24.000000000000004] near
    /\ (forall e, In e [mk_ts 7 24; mk_ts 30 24.000000000000004] ->
          (ts_dte near <= ts_dte e <= ts_dte far)%Z
          /\ ts_atm_iv e
             = Spec.mean_percent
                 (map implied_volatility
                    (filter (in_band 0.98 1.02 100)
                       (filter (on_dte (ts_dte e)) (rows Examples.contango_chain)))))
    /\ let ts_spread := ts_atm_iv far - ts_atm_iv near in
       exists structure,
         term_structure [mk_ts 7 24; mk_ts 30 24.000000000000004]
         = Some (ts_spread, structure)
         /\ (structure = "CONTANGO" <-> (0 <? ts_spread) = true)
         /\ (structure = "BACKWARDATION" <-> (0 <? ts_spread) = false).
Proof.
  refine (proj1 (term_structure_spread_label Examples.contango_chain 100
                   [Msg "  DTE {dte:3d}: ATM IV = {atm_iv:.1f}%" [AZ 7; AF 24];
                    Msg "  DTE {dte:3d}: ATM IV = {atm_iv:.1f}%"
                      [AZ 30; AF 24.000000000000004]]
                   [mk_ts 7 24; mk_ts 30 24.000000000000004] _ _ _)).
  - exact (proj1 (forallb_forall valid_row (rows Examples.contango_chain)) eq_refl).
  - reflexivity.
  - simpl. lia.
Defined.

End TermStructure.


(** ** Empty groups *)

Section Sentinel.
Import VolSignals.
Local Open Scope float_scope.

Lemma fly_row_none (valid : list Row) (price : float) (d : Z) :
  atm_calls valid price d = [] \/ otm_calls valid price d = []
  \/ otm_puts valid price d = [] ->
  fly_row valid price d = None.
Proof.
  unfold fly_row. intros [-> | [-> | ->]]; cbn [mean_iv_or_0];
    change (Py.gtb 0 0) with false;
    rewrite ?andb_false_r; reflexivity.
Qed.

Lemma skew_row_none (valid : list Row) (price : float) (d : Z) :
  otm_calls valid price d = [] \/ otm_puts valid price d = [] ->
  skew_row valid price d = None.
Proof.
  unfold skew_row, skew_of. intros [-> | ->]; cbn [mean_iv_or_0];
    change (Py.gtb 0 0) with false;
    rewrite ?andb_false_r; reflexivity.
Qed.

(** C4.  For an expiry of [analyze_vol_signals] whose at-the-money calls,
    call wing or put wing is empty, the mean IV of that group is the
    sentinel 0; the fly line is then not printed, nor the skew line when a
    wing is empty, and the loop bodies return without raising.  In
    [analyze_iv_surface] the at-the-money, call and put means of an
    expiration are 0 for an empty group, and the row is printed without
    raising. *)
Theorem empty_group_yields_zero_and_no_signal (valid : DataFrame) (price : float)
    (d : Z) :
  has_column "dte" valid = true ->
  has_column "option_type" valid = true ->
  has_column "strike" valid = true ->
  let atm := atm_calls (rows valid) price d in
  let calls := otm_calls (rows valid) price d in
  let puts := otm_puts (rows valid) price d in
  (atm = [] -> mean_iv_or_0 atm = 0)
  /\ (calls = [] -> mean_iv_or_0 calls = 0)
  /\ (puts = [] -> mean_iv_or_0 puts = 0)
  /\ (atm = [] \/ calls = [] \/ puts = [] -> fly_body valid price d = ([], inr tt))
  /\ (calls = [] \/ puts = [] -> skew_body valid price d = ([], inr tt))
  /\ (forall exp r,
        In r (rows valid) -> expiration r = exp ->
        let exp_data := filter (IvSurface.on_expiration exp) (rows valid) in
        exists out e,
          IvSurface.summary_body valid price exp = (out, inr (Some e))
          /\ (IvSurface.atm_group exp_data price = [] -> IvSurface.atm_iv e = 0)
          /\ (IvSurface.calls_group exp_data = [] -> IvSurface.call_iv e = 0)
          /\ (IvSurface.puts_group exp_data = [] -> IvSurface.put_iv e = 0)).
Proof.
  intros Hd Ht Hs atm calls puts.
  repeat apply conj.
  - now intros ->.
  - now intros ->.
  - now intros ->.
  - intros H. unfold fly_body.
    rewrite (require_present _ _ Hd), (require_present _ _ Ht),
      (require_present _ _ Hs), !bind_ret.
    now rewrite fly_row_none.
  - intros H. unfold skew_body.
    rewrite (require_present _ _ Hd), (require_present _ _ Ht),
      (require_present _ _ Hs), !bind_ret.
    now rewrite skew_row_none.
  - intros exp r Hr He exp_data. unfold IvSurface.summary_body. fold exp_data.
    assert (Hin : In r exp_data).
    { apply filter_In. split; [exact Hr |]. unfold IvSurface.on_expiration.
      now apply Z.eqb_eq. }
    destruct exp_data as [| r0 rest] eqn:E; [destruct Hin |].
    cbn [map iloc0]. rewrite bind_ret.
    rewrite (require_present _ _ Hs), (require_present _ _ Ht), !bind_ret.
    rewrite bind_print. unfold ret. cbn [fst snd].
    eexists. eexists. split; [reflexivity |].
    unfold IvSurface.iv_row. cbn [IvSurface.atm_iv IvSurface.call_iv IvSurface.put_iv].
    repeat split; now intros ->.
Qed.

Lemma empty_group_yields_zero_and_no_signal_witness :
  fly_body Examples.term_chain 100 30 = ([], inr tt).
Proof.
  refine (proj1 (proj2 (proj2 (proj2
    (empty_group_yields_zero_and_no_signal Examples.term_chain 100 30
       eq_refl eq_refl eq_refl)))) _).
  right; left; reflexivity.
Defined.

End Sentinel.


(** ** Straddle *)

Section Straddle.
Import VolSignals.
Local Open Scope float_scope.

(** C5.  In the straddle analysis, [call] and [put] being the first call
    and the first put of the expiry at the strike nearest to the price,
    each mid is [(bid + ask) / 2], the cost is the sum of the two mids,
    the move needed is [cost / price * 100] and the daily breakeven move
    is that percentage divided by the days to expiry; these are the
    values printed.  Mids 5.0 and 4.0 at price 100, 30 days out, give
    cost 9.0, move 9.0% and daily breakeven 0.3%. *)
Theorem straddle_breakeven (valid : DataFrame) (price : float) (d : Z)
    (call put : Row) (cs ps : list Row) :
  has_column "dte" valid = true ->
  has_column "option_type" valid = true ->
  has_column "strike" valid = true ->
  has_column "bid" valid = true ->
  has_column "ask" valid = true ->
  Py.round_defined (price / 5) = true ->
  let exp_data := filter (on_dte d) (rows valid) in
  atm_leg "call" exp_data price = call :: cs ->
  atm_leg "put" exp_data price = put :: ps ->
  let call_mid := (bid call + ask call) / 2 in
  let put_mid := (bid put + ask put) / 2 in
  let cost := call_mid + put_mid in
  let pct := cost / price * 100 in
  let daily := pct / Py.float_of_int d in
  (exists total_theta,
     straddle_body valid price d
     = ([Msg "  DTE {dte:3d}: Straddle = ${straddle_cost:.2f} ({pct_move:.2f}% move needed)"
           [AZ d; AF cost; AF pct];
         Msg "           Theta = ${total_theta:.2f}/day | BE Daily Move = {pct_move/dte:.3f}%"
           [AF total_theta; AF daily]], inr tt))
  /\ (forall leg t, (leg = call /\ t = "call") \/ (leg = put /\ t = "put") ->
        In leg (rows valid) /\ dte leg = d /\ option_type leg = t
        /\ (distance price leg =? Py.Series_min (map (distance price) exp_data)) = true)
  /\ straddle_of false
       (mkRow 100 100 739000 30 100 "call" 0.25 0.5 0 4.5 5.5)
       (mkRow 100 100 739000 30 100 "put" 0.25 (-0.5) 0 3.5 4.5) 100 30
     = mk_straddle 9 9 0 0.3.
Proof.
  intros Hd Ht Hs Hb Ha Hr exp_data Hc Hp call_mid put_mid cost pct daily.
  repeat apply conj.
  - exists (straddle_of (has_column "theta" valid) call put price d).(VolSignals.total_theta).
    unfold straddle_body.
    rewrite (require_present _ _ Hd), bind_ret, Hr, bind_ret.
    rewrite (require_present _ _ Ht), (require_present _ _ Hs), !bind_ret.
    fold exp_data. rewrite Hc, Hp.
    rewrite (require_present _ _ Hb), (require_present _ _ Ha), !bind_ret.
    unfold straddle_row. fold exp_data. rewrite Hc, Hp.
    reflexivity.
  - intros leg t [[-> ->] | [-> ->]].
    + assert (H : In call (atm_leg "call" exp_data price)) by (rewrite Hc; now left).
      unfold atm_leg in H. apply filter_In in H. destruct H as [H1 H2].
      apply andb_true_iff in H2. destruct H2 as [H2 H3].
      apply filter_In in H1. destruct H1 as [H0 H1].
      apply is_type_spec in H2. apply on_dte_spec in H1. now repeat split.
    + assert (H : In put (atm_leg "put" exp_data price)) by (rewrite Hp; now left).
      unfold atm_leg in H. apply filter_In in H. destruct H as [H1 H2].
      apply andb_true_iff in H2. destruct H2 as [H2 H3].
      apply filter_In in H1. destruct H1 as [H0 H1].
      apply is_type_spec in H2. apply on_dte_spec in H1. now repeat split.
  - reflexivity.
Qed.

Lemma straddle_breakeven_witness :
  exists total_theta,
    straddle_body Examples.month_chain 100 30
    = ([Msg "  DTE {dte:3d}: Straddle = ${straddle_cost:.2f} ({pct_move:.2f}% move needed)"
          [AZ 30; AF 9; AF 9];
        Msg "           Theta = ${total_theta:.2f}/day | BE Daily Move = {pct_move/dte:.3f}%"
          [AF total_theta; AF 0.3]], inr tt).
Proof.
  refine (proj1 (straddle_breakeven Examples.month_chain 100 30 _ _ _ _
                   eq_refl eq_refl eq_refl eq_refl eq_refl eq_refl eq_refl eq_refl)).
Defined.
End Straddle.

(** ** The price column *)

Section Resolver.
Import VolSignals.
Local Open Scope float_scope.

(** The resolver of [analyze_vol_signals], [calculate_vrp] and
    [analyze_options_greeks] takes [underlying_price] when the table has
    it and [spot_price] otherwise. *)
Lemma price_col_first_present (chains : DataFrame) :
  (has_column "underlying_price" chains = true ->
   price_col chains = "underlying_price")
  /\ (has_column "underlying_price" chains = false ->
      price_col chains = "spot_price").
Proof. unfold price_col. split; now intros ->. Qed.

(** [analyze_iv_surface] reads [underlying_price] and nothing else: on
    every table with rows and columns but not that one, it raises. *)
Lemma analyze_iv_surface_needs_underlying_price (chains : DataFrame)
    (symbol : string) (plot matplotlib : bool) :
  empty chains = false ->
  has_column "underlying_price" chains = false ->
  IvSurface.analyze_iv_surface (FetchTable chains) symbol plot matplotlib
  = ([Msg "Fetching options chain for {symbol}..." [AS symbol]],
     inl (KeyError "underlying_price")).
Proof.
  intros He Hc. unfold IvSurface.analyze_iv_surface.
  rewrite He, (require_absent _ _ Hc), bind_raise, bind_print. reflexivity.
Qed.

(** C7.  The resolver picks the first column present among
    [underlying_price] and [spot_price] where a script has one: on a chain
    with [spot_price] only, [analyze_options_greeks] and
    [analyze_vol_signals] read the price 100 and return, and with neither
    column they print their message and return.  [analyze_iv_surface] has
    no resolver: on both chains it raises [KeyError] for
    [underlying_price] right after its first line. *)
Theorem iv_surface_ignores_spot_price :
  has_column "spot_price" Examples.spot_chain = true
  /\ has_column "underlying_price" Examples.spot_chain = false
  /\ price_col Examples.spot_chain = "spot_price"
  /\ (let run := OptionsGreeks.analyze_options_greeks
                   (FetchTable Examples.spot_chain) "SPY" 7 60 0.05 false true in
      In (Msg "Underlying Price: ${price:.2f}" [AF 100]) (printed run)
      /\ outcome run = inr tt)
  /\ (let run := analyze_vol_signals (FetchTable Examples.spot_chain) "SPY" in
      In (Msg "Underlying: ${price:,.2f}" [AF 100]) (printed run)
      /\ outcome run = inr tt)
  /\ IvSurface.analyze_iv_surface (FetchTable Examples.spot_chain) "SPY" true true
     = ([Msg "Fetching options chain for {symbol}..." [AS "SPY"]],
        inl (KeyError "underlying_price"))
  /\ OptionsGreeks.analyze_options_greeks
       (FetchTable Examples.unpriced_chain) "SPY" 7 60 0.05 false true
     = ([Msg "Fetching options chain for {symbol}..." [AS "SPY"];
         Msg "Cannot determine underlying price from data" []], inr tt)
  /\ analyze_vol_signals (FetchTable Examples.unpriced_chain) "SPY"
     = ([Msg "{'='*60}" []; Msg "VOLATILITY SIGNALS: {symbol}" [AS "SPY"];
         Msg "{'='*60}" []; Msg "Cannot determine underlying price" []], inr tt)
  /\ IvSurface.analyze_iv_surface (FetchTable Examples.unpriced_chain) "SPY" true true
     = ([Msg "Fetching options chain for {symbol}..." [AS "SPY"]],
        inl (KeyError "underlying_price")).
Proof.
  repeat apply conj; try reflexivity.
  - vm_compute. tauto.
  - vm_compute. tauto.
Qed.
End Resolver.

(** ** The filter on the Greeks *)

Section Greeks.
Local Open Scope float_scope.

(** What the mask of [analyze_options_greeks] keeps: the rows within the
    days-to-expiry bounds whose delta does not compare equal to 0, 1 or
    -1. *)
Lemma valid_options_rows (min_dte max_dte : Z) (chains : DataFrame) (r : Row) :
  In r (rows (OptionsGreeks.valid_options min_dte max_dte chains))
  <-> In r (rows chains)
      /\ (min_dte <= dte r <= max_dte)%Z
      /\ (delta r =? 0) = false /\ (delta r =? 1) = false /\ (delta r =? -1) = false.
Proof.
  unfold OptionsGreeks.valid_options, select, OptionsGreeks.valid_row, Py.neqb.
  cbn [rows]. rewrite filter_In, !andb_true_iff, !negb_true_iff, Z.geb_leb, !Z.leb_le.
  tauto.
Qed.

(** A null compares different from every number. *)
Lemma nan_neq (x c : float) : PrimFloat.is_nan x = true -> (x =? c) = false.
Proof.
  unfold PrimFloat.is_nan. rewrite !FloatAxioms.eqb_spec.
  destruct (Prim2SF x) as [[|] | [|] | | [|] m e]; try discriminate;
    try reflexivity; unfold SFeqb at 1, SFcompare;
    rewrite Z.compare_refl;
    change (PosDef.Pos.compare_cont Eq m m) with (Pos.compare m m);
    rewrite Pos.compare_refl; discriminate.
Qed.

(** So the mask keeps every row with a null delta within the bounds. *)
Lemma null_delta_kept (min_dte max_dte : Z) (chains : DataFrame) (r : Row) :
  In r (rows chains) ->
  (min_dte <= dte r <= max_dte)%Z ->
  PrimFloat.is_nan (delta r) = true ->
  In r (rows (OptionsGreeks.valid_options min_dte max_dte chains)).
Proof.
  intros Hr Hd Hn. apply valid_options_rows.
  repeat split; try tauto; now apply nan_neq.
Qed.

(** C8.  On a chain of two quotes 30 days out, one with a null delta and
    one with delta 0, the validity filter of [analyze_options_greeks]
    with bounds 7 and 60 keeps the quote with the null delta and only
    that one, and the script goes on to report one contract. *)
Theorem null_delta_passes_greeks_filter :
  PrimFloat.is_nan (delta Examples.null_delta_row) = true
  /\ In Examples.null_delta_row (rows Examples.null_delta_chain)
  /\ rows (OptionsGreeks.valid_options 7 60 Examples.null_delta_chain)
     = [Examples.null_delta_row]
  /\ In (Msg "Total contracts: {len(selected)}" [AZ 1])
       (printed (OptionsGreeks.analyze_options_greeks
                   (FetchTable Examples.null_delta_chain) "SPY" 7 60 0.05 false true)).
Proof.
  repeat apply conj; try reflexivity.
  - now left.
  - vm_compute. tauto.
Qed.
End Greeks.

(** ** The listing of instruments *)

Section Listing.

(** Without a [symbol] column the listing raises, whatever else the table
    holds. *)
Lemma list_instruments_needs_symbol (instruments : Frame Perpetual.Instrument) :
  has_column "symbol" instruments = false ->
  Perpetual.list_instruments (FetchTable instruments) = ([], inl (KeyError "symbol")).
Proof.
  intros H. unfold Perpetual.list_instruments. now rewrite (require_absent _ _ H).
Qed.

(** [analyze_perpetuals] returns on every fetch that gives no data. *)
Lemma analyze_perpetuals_no_data (fetch : fetched (Frame Perpetual.Info))
    (symbols : list string) (show_all : bool) :
  match fetch with
  | FetchTable info => empty info = true
  | _ => True
  end ->
  exists l, Perpetual.analyze_perpetuals fetch symbols show_all = ([l], inr tt).
Proof.
  destruct fetch as [e | | info]; cbn; intros H; [eexists; reflexivity .. |].
  rewrite H. eexists; reflexivity.
Qed.

(** C9.  [list_instruments] neither tests for [None] nor for an empty
    table after its fetch: on [None] it raises [TypeError], on a table
    with no row and no column it raises [KeyError], and nothing is
    printed.  On the same fetches [analyze_perpetuals] prints its message
    and returns. *)
Theorem list_instruments_raises_without_data :
  Perpetual.list_instruments FetchNone
  = ([], inl (TypeError "'NoneType' object is not subscriptable"))
  /\ empty Examples.no_instruments = true
  /\ Perpetual.list_instruments (FetchTable Examples.no_instruments)
     = ([], inl (KeyError "symbol"))
  /\ Perpetual.analyze_perpetuals FetchNone ["BTC"; "ETH"; "SOL"] false
     = ([Msg "No data for {symbol_str}" [AS "BTC,ETH,SOL"]], inr tt)
  /\ Perpetual.analyze_perpetuals (FetchTable (mkFrame [] [])) ["BTC"; "ETH"; "SOL"] false
     = ([Msg "No data for {symbol_str}" [AS "BTC,ETH,SOL"]], inr tt).
Proof. repeat apply conj; reflexivity. Qed.
End Listing.

(** ** Running a script: outcomes *)

Section RunningOutcomes.

Lemma bind_outcome {A B} (c : M A) (k : A -> M B) (a : A) :
  outcome c = inr a -> outcome (bind c k) = outcome (k a).
Proof.
  unfold outcome, bind. destruct c as [o [e | a']]; cbn; [discriminate |].
  intros [= ->]. destruct (k a). reflexivity.
Qed.

Lemma bind_unit_outcome {B} (c : M unit) (k : unit -> M B) :
  outcome c = inr tt -> outcome (bind c k) = outcome (k tt).
Proof. apply bind_outcome. Qed.

Lemma print_outcome (text : string) (args : list arg) :
  outcome (print text args) = inr tt.
Proof. reflexivity. Qed.

Lemma for_each_outcome {A} (xs : list A) (body : A -> M unit) :
  (forall x, In x xs -> outcome (body x) = inr tt) ->
  outcome (for_each xs body) = inr tt.
Proof.
  induction xs as [| x xs IH]; intros H; [reflexivity |].
  cbn [for_each]. rewrite (bind_unit_outcome _ _ (H x (or_introl eq_refl))).
  apply IH. intros y Hy. apply H. now right.
Qed.

Lemma try_except_print_outcome (c : M unit) (text : string) (args : exn -> list arg) :
  outcome (try_except c (fun e => print text (args e))) = inr tt.
Proof. destruct c as [o [e | []]]; reflexivity. Qed.

Lemma require_outcome {R} (c : string) (df : Frame R) :
  has_column c df = true -> outcome (require c df) = inr tt.
Proof. intros H. now rewrite (require_present _ _ H). Qed.

Lemma to_string_available {R} (cell_of : string -> R -> cell) (cols : list string)
    (df : Frame R) :
  to_string cell_of (filter (fun c => has_column c df) cols) df
  = ret (ATable (filter (fun c => has_column c df) cols)
           (map (fun r => map (fun c => cell_of c r)
                            (filter (fun c => has_column c df) cols)) (rows df))).
Proof.
  unfold to_string.
  assert (H : for_each (filter (fun c => has_column c df) cols)
                (fun c => require c df) = ret tt).
  { induction cols as [| c cols IH]; [reflexivity |].
    cbn [filter]. destruct (has_column c df) eqn:Hc; [| exact IH].
    cbn [for_each]. now rewrite (require_present _ _ Hc), bind_ret. }
  now rewrite H, bind_ret.
Qed.

End RunningOutcomes.

(** ** calculate_vrp: errors and edges *)

Section VrpTotal.
Import VolSignals.

(** X1.  [calculate_vrp] never raises: whatever the two fetches give and
    whatever the table lacks, the call returns. *)
Theorem calculate_vrp_always_returns (chains_fetch : fetched DataFrame)
    (hist_fetch : fetched HistFrame) (symbol : string) (lookback_days : Z) :
  outcome (calculate_vrp chains_fetch hist_fetch symbol lookback_days) = inr tt.
Proof.
  rewrite calculate_vrp_wraps. cbv zeta. unfold outcome. cbn [snd].
  apply (try_except_print_outcome _ "Error: {e}" (fun e => [AE e])).
Qed.

(** X2.  When something is raised inside the [try] block of
    [calculate_vrp], the last line printed is ["Error: {e}"] with that
    exception. *)
Theorem calculate_vrp_reports_what_is_raised (chains_fetch : fetched DataFrame)
    (hist_fetch : fetched HistFrame) (symbol : string) (lookback_days : Z) (e : exn) :
  outcome (vrp_body chains_fetch hist_fetch lookback_days) = inl e ->
  exists before,
    printed (calculate_vrp chains_fetch hist_fetch symbol lookback_days)
    = (before ++ [Msg "Error: {e}" [AE e]])%list.
Proof.
  intros H. rewrite calculate_vrp_wraps. cbv zeta. unfold printed, outcome in *.
  destruct (vrp_body chains_fetch hist_fetch lookback_days) as [o [e' | u]];
    cbn in H; [| discriminate].
  injection H as ->. cbn.
  exists (Msg "{'='*60}" [] :: Msg "VRP ANALYSIS: {symbol}" [AS symbol]
            :: Msg "{'='*60}" [] :: o).
  reflexivity.
Qed.
Lemma calculate_vrp_reports_what_is_raised_witness :
  exists before,
    printed (calculate_vrp (FetchTable Examples.unpriced_chain) FetchNone "BTC" 30)
    = (before ++ [Msg "Error: {e}" [AE (KeyError "spot_price")]])%list.
Proof.
  exact (calculate_vrp_reports_what_is_raised (FetchTable Examples.unpriced_chain)
           FetchNone "BTC" 30 (KeyError "spot_price") eq_refl).
Defined.

End VrpTotal.

Section VrpEdges.
Import VolSignals.
Local Open Scope float_scope.

(** X3.  On a chain with rows but neither [underlying_price] nor
    [spot_price], [calculate_vrp] has no message of its own: it prints the
    [KeyError] for [spot_price] and returns. *)
Theorem calculate_vrp_without_price_column (chains : DataFrame)
    (hist_fetch : fetched HistFrame) (symbol : string) (lookback_days : Z) :
  empty chains = false ->
  has_column "underlying_price" chains = false ->
  has_column "spot_price" chains = false ->
  calculate_vrp (FetchTable chains) hist_fetch symbol lookback_days
  = ([Msg "{'='*60}" []; Msg "VRP ANALYSIS: {symbol}" [AS symbol]; Msg "{'='*60}" [];
      Msg "Error: {e}" [AE (KeyError "spot_price")]], inr tt).
Proof.
  intros He Hu Hs. rewrite calculate_vrp_wraps. unfold vrp_body.
  rewrite He. unfold price_col. rewrite Hu, (require_absent _ _ Hs), bind_raise.
  reflexivity.
Qed.

Lemma calculate_vrp_without_price_column_witness :
  calculate_vrp (FetchTable Examples.unpriced_chain) FetchNone "BTC" 30
  = ([Msg "{'='*60}" []; Msg "VRP ANALYSIS: {symbol}" [AS "BTC"]; Msg "{'='*60}" [];
      Msg "Error: {e}" [AE (KeyError "spot_price")]], inr tt).
Proof.
  exact (calculate_vrp_without_price_column Examples.unpriced_chain FetchNone "BTC" 30
           eq_refl eq_refl eq_refl).
Defined.

(** X4.  Once the 30-day IV is printed, a history fetch that raises, gives
    [None] or fewer rows than [lookback_days], or a history with no
    [close] column, ends [calculate_vrp] with one more line (the error, or
    the insufficient-data message) and no RV, VRP or signal line. *)
Theorem calculate_vrp_history_failures (chains : DataFrame) (symbol : string)
    (lookback_days : Z) (r0 : Row) (rs : list Row) :
  rows chains = r0 :: rs ->
  has_column (price_col chains) chains = true ->
  has_column "dte" chains = true ->
  has_column "strike" chains = true ->
  has_column "implied_volatility" chains = true ->
  let price := price_field (price_col chains) r0 in
  Spec.bucket_30d chains price <> [] ->
  let shown := fun last : line =>
    ([Msg "{'='*60}" []; Msg "VRP ANALYSIS: {symbol}" [AS symbol]; Msg "{'='*60}" [];
      Msg "30-Day IV: {iv_30d:.1f}%" [AF (iv_30d_of chains price)]; last], inr tt) in
  (forall e, calculate_vrp (FetchTable chains) (FetchRaises e) symbol lookback_days
             = shown (Msg "Error: {e}" [AE e]))
  /\ calculate_vrp (FetchTable chains) FetchNone symbol lookback_days
     = shown (Msg "Insufficient historical data for RV" [])
  /\ (forall hist,
        (Z.of_nat (List.length (rows hist)) < lookback_days)%Z ->
        calculate_vrp (FetchTable chains) (FetchTable hist) symbol lookback_days
        = shown (Msg "Insufficient historical data for RV" []))
  /\ (forall hist,
        (lookback_days <= Z.of_nat (List.length (rows hist)))%Z ->
        has_column "close" hist = false ->
        calculate_vrp (FetchTable chains) (FetchTable hist) symbol lookback_days
        = shown (Msg "Error: {e}" [AE (KeyError "close")])).
Proof.
  intros Hrows Hp Hd Hs Hiv price Hne shown.
  assert (Hrun : forall hist_fetch,
    calculate_vrp (FetchTable chains) hist_fetch symbol lookback_days
    = let run := try_except
                   (print "30-Day IV: {iv_30d:.1f}%" [AF (iv_30d_of chains price)] ;;
                    vrp_from_history (iv_30d_of chains price) hist_fetch lookback_days)
                   (fun e => print "Error: {e}" [AE e]) in
      (Msg "{'='*60}" [] :: Msg "VRP ANALYSIS: {symbol}" [AS symbol]
         :: Msg "{'='*60}" [] :: fst run, snd run)).
  { intros hist_fetch. rewrite calculate_vrp_wraps.
    rewrite (vrp_body_at_atm chains hist_fetch lookback_days r0 rs Hrows Hp Hd Hs).
    fold price. rewrite atm_30d_empty by eauto using has_column_nonempty.
    destruct (Spec.bucket_30d chains price); [congruence |].
    now rewrite (require_present _ _ Hiv), bind_ret. }
  repeat apply conj.
  - intros e. rewrite Hrun. reflexivity.
  - rewrite Hrun. reflexivity.
  - intros hist Hlt. rewrite Hrun. unfold vrp_from_history.
    destruct (Z.ltb_spec (Z.of_nat (List.length (rows hist))) lookback_days); [| lia].
    reflexivity.
  - intros hist Hle Hc. rewrite Hrun. unfold vrp_from_history.
    destruct (Z.ltb_spec (Z.of_nat (List.length (rows hist))) lookback_days); [lia |].
    rewrite (require_absent _ _ Hc), bind_raise. reflexivity.
Qed.

Lemma calculate_vrp_history_failures_witness :
  calculate_vrp (FetchTable Examples.month_chain) FetchNone "BTC" 30
  = ([Msg "{'='*60}" []; Msg "VRP ANALYSIS: {symbol}" [AS "BTC"]; Msg "{'='*60}" [];
      Msg "30-Day IV: {iv_30d:.1f}%" [AF 25];
      Msg "Insufficient historical data for RV" []], inr tt).
Proof.
  refine (proj1 (proj2 (calculate_vrp_history_failures Examples.month_chain "BTC" 30
                          _ _ eq_refl eq_refl eq_refl eq_refl eq_refl _))).
  vm_compute. discriminate.
Defined.

(** Lengths of the series of returns. *)
Lemma pct_change_from_length (prev : float) (xs : list float) :
  List.length (Py.pct_change_from prev xs) = List.length xs.
Proof.
  revert prev. induction xs as [| x xs IH]; intros prev; cbn; [reflexivity |].
  now rewrite IH.
Qed.

Lemma dropna_length (xs : list float) :
  (List.length (Py.dropna xs) <= List.length xs)%nat.
Proof. apply filter_length_le. Qed.

Lemma daily_returns_length (hist : HistFrame) :
  (List.length (daily_returns hist) <= List.length (rows hist) - 1)%nat.
Proof.
  unfold daily_returns, Py.pct_change.
  destruct (rows hist) as [| b bs]; cbn [map]; [cbn; lia |].
  cbn [Py.dropna filter]. change (Py.notna PrimFloat.nan) with false. cbn iota.
  pose proof (dropna_length (Py.pct_change_from (close b) (map close bs))) as H.
  rewrite pct_change_from_length, length_map in H.
  unfold Py.dropna in H. cbn [List.length]. lia.
Qed.

Lemma tail_length_le {A} (n : Z) (xs : list A) :
  (List.length (Py.tail n xs) <= List.length xs)%nat.
Proof.
  unfold Py.tail. destruct (n <? 0)%Z; rewrite length_skipn; lia.
Qed.

(** X5.  The guard of [calculate_vrp] counts closes, not returns: a history
    of exactly [lookback_days] closes passes it, and the volatility is
    then computed on fewer than [lookback_days] returns. *)
Theorem lookback_window_short_by_one (hist : HistFrame) (lookback_days : Z) :
  (1 <= lookback_days)%Z ->
  Z.of_nat (List.length (rows hist)) = lookback_days ->
  (Z.of_nat (List.length (rows hist)) <? lookback_days)%Z = false
  /\ (Z.of_nat (List.length (Py.tail lookback_days (daily_returns hist)))
      < lookback_days)%Z.
Proof.
  intros H1 Hlen. split; [apply Z.ltb_ge; lia |].
  pose proof (tail_length_le lookback_days (daily_returns hist)).
  pose proof (daily_returns_length hist). lia.
Qed.

Lemma lookback_window_short_by_one_witness :
  (Z.of_nat (List.length (Py.tail 5 (daily_returns Examples.closes))) < 5)%Z.
Proof.
  exact (proj2 (lookback_window_short_by_one Examples.closes 5
                  ltac:(lia) eq_refl)).
Defined.
End VrpEdges.

(** ** Perpetuals *)

Section Perps.
Import Perpetual.



Lemma row_body_outcome (info : Frame Info) (row : Info) :
  outcome (row_body info row) = inr tt.
Proof. reflexivity. Qed.

(** X6.  [analyze_perpetuals] never raises, whatever the fetch gives and
    whichever columns the table has, with or without the raw table. *)
Theorem analyze_perpetuals_always_returns (fetch : fetched (Frame Info))
    (symbols : list string) (show_all : bool) :
  outcome (analyze_perpetuals fetch symbols show_all) = inr tt.
Proof.
  unfold analyze_perpetuals.
  destruct fetch as [e | | info]; [reflexivity | reflexivity |].
  destruct (empty info); [reflexivity |].
  rewrite !(bind_unit_outcome (print _ _)) by reflexivity.
  rewrite bind_unit_outcome
    by (apply for_each_outcome; intros; apply row_body_outcome).
  destruct show_all; [| reflexivity].
  rewrite (bind_unit_outcome (print _ _)) by reflexivity.
  rewrite to_string_available, bind_ret. reflexivity.
Qed.

Lemma prefix_spec (sub s : string) :
  String.prefix sub s = true <-> exists post, s = (sub ++ post)%string.
Proof.
  revert s. induction sub as [| a sub IH]; intros s.
  - split; [intros _; now exists s | now destruct s].
  - destruct s as [| b s]; cbn; [split; [discriminate | intros [post [=]]] |].
    destruct (Ascii.ascii_dec a b) as [<- | Hne].
    + rewrite IH. split; intros [post H]; exists post; [now rewrite H | now injection H].
    + split; [discriminate | intros [post H]; injection H as H _; congruence].
Qed.

(** [Py.contains] is the substring test. *)
Lemma contains_spec (sub s : string) :
  Py.contains sub s = true <-> exists pre post, s = (pre ++ sub ++ post)%string.
Proof.
  induction s as [| b s IH]; cbn [Py.contains]; rewrite orb_true_iff, prefix_spec.
  - split.
    + intros [[post H] | H]; [| discriminate]. now exists EmptyString, post.
    + intros (pre & post & H). left. destruct pre; [now exists post |]. discriminate.
  - rewrite IH. split.
    + intros [[post H] | (pre & post & H)].
      * now exists EmptyString, post.
      * exists (String b pre), post. cbn. now rewrite H.
    + intros (pre & post & H). destruct pre as [| c pre].
      * left. now exists post.
      * right. injection H as _ H. now exists pre, post.
Qed.

(** X7.  On a table that has the [symbol], [last_price] and
    [open_interest] columns, [list_instruments] prints the header and one
    table, and returns; the table holds, in the order of the fetch, exactly
    the instruments whose symbol is not null and has [PERPETUAL] as a
    substring. *)
Theorem list_instruments_lists_perpetuals (instruments : Frame Instrument) :
  has_column "symbol" instruments = true ->
  has_column "last_price" instruments = true ->
  has_column "open_interest" instruments = true ->
  exists perps,
    list_instruments (FetchTable instruments)
    = ([Msg "Available Perpetual Contracts:" [];
        Msg "{}" [ATable ["symbol"; "last_price"; "open_interest"]
                    (map (fun i => [match symbol i with Some s => CS s | None => CNull end;
                                    CF (instr_last_price i);
                                    CF (instr_open_interest i)]) perps)]],
       inr tt)
    /\ perps = filter is_perpetual (rows instruments)
    /\ forall i, In i perps
         <-> In i (rows instruments)
             /\ exists pre post, symbol i = Some (pre ++ "PERPETUAL" ++ post)%string.
Proof.
  intros Hs Hl Ho. exists (filter is_perpetual (rows instruments)).
  repeat apply conj.
  - unfold list_instruments, to_string. cbn [for_each].
    rewrite (require_present _ _ Hs), bind_ret.
    rewrite (require_present "symbol" (select is_perpetual instruments) Hs).
    rewrite (require_present "last_price" (select is_perpetual instruments) Hl).
    rewrite (require_present "open_interest" (select is_perpetual instruments) Ho).
    reflexivity.
  - reflexivity.
  - intros i. rewrite filter_In. unfold is_perpetual.
    destruct (symbol i) as [s |].
    + rewrite contains_spec. split.
      * intros [Hi (pre & post & ->)]. split; [exact Hi |]. now exists pre, post.
      * intros [Hi (pre & post & [= ->])]. split; [exact Hi |]. now exists pre, post.
    + split; [intros [_ [=]] | intros [_ (pre & post & [=])]].
Qed.

Lemma list_instruments_lists_perpetuals_witness :
  exists perps,
    list_instruments (FetchTable Examples.two_instruments)
    = ([Msg "Available Perpetual Contracts:" [];
        Msg "{}" [ATable ["symbol"; "last_price"; "open_interest"]
                    (map (fun i => [match symbol i with Some s => CS s | None => CNull end;
                                    CF (instr_last_price i);
                                    CF (instr_open_interest i)]) perps)]],
       inr tt)
    /\ perps = filter is_perpetual (rows Examples.two_instruments)
    /\ forall i, In i perps
         <-> In i (rows Examples.two_instruments)
             /\ exists pre post, symbol i = Some (pre ++ "PERPETUAL" ++ post)%string.
Proof.
  exact (list_instruments_lists_perpetuals Examples.two_instruments
           eq_refl eq_refl eq_refl).
Defined.
End Perps.

(** ** Greeks report *)

Section GreeksRun.
Import OptionsGreeks.
Local Open Scope float_scope.



Lemma sorted_unique_nonempty (l : list Z) : l <> [] -> Py.sorted_unique l <> [].
Proof.
  destruct l as [| a l]; [congruence |]. intros _ H.
  assert (Hin : In a (Py.sorted_unique (a :: l))) by (apply sorted_unique_In; now left).
  rewrite H in Hin. destruct Hin.
Qed.

(** The head of the sorted expirations is the least expiration of the
    rows, and one of them. *)
Lemma sorted_unique_head (l : list Z) (x : Z) (t : list Z) :
  Py.sorted_unique l = x :: t ->
  In x l /\ forall y, In y l -> (x <= y)%Z.
Proof.
  intros H. split.
  - apply sorted_unique_In. rewrite H. now left.
  - intros y Hy. apply sorted_unique_In in Hy.
    pose proof (sorted_unique_sorted l) as Hs. rewrite H in *.
    pose proof (sorted_bounds x t Hs y Hy). lia.
Qed.

Lemma selected_nonempty (l : list Row) (expiry : Z) (exps : list Z) :
  Py.sorted_unique (map expiration l) = expiry :: exps ->
  exists first others, filter (IvSurface.on_expiration expiry) l = first :: others.
Proof.
  intros H. destruct (sorted_unique_head _ _ _ H) as [Hin _].
  apply in_map_iff in Hin. destruct Hin as (rx & Hrx & Hin).
  destruct (filter (IvSurface.on_expiration expiry) l) as [| first others] eqn:Hsel;
    [| now exists first, others].
  exfalso.
  assert (Hf : In rx (filter (IvSurface.on_expiration expiry) l)).
  { apply filter_In. split; [exact Hin |]. unfold IvSurface.on_expiration.
    now apply Z.eqb_eq. }
  rewrite Hsel in Hf. destruct Hf.
Qed.

(** The loop over the panels stops at the vega panel, whose format
    ['p-o'] has two markers; the three panels before it are drawn. *)
Lemma panels_outcome (calls : DataFrame) :
  outcome (for_each panels (panel_body calls))
  = if has_column "vega" calls
    then inl (ValueError "not a valid format string")
    else inr tt.
Proof.
  unfold panels. cbn [for_each]. unfold panel_body. cbn [fst snd].
  destruct (has_column "delta" calls), (has_column "gamma" calls),
    (has_column "theta" calls), (has_column "vega" calls); reflexivity.
Qed.

Lemma plot_greeks_outcome (matplotlib : bool) (data : DataFrame) (price : float) :
  has_column "option_type" data = true ->
  has_column "strike" data = true ->
  outcome (plot_greeks matplotlib data price)
  = if matplotlib && has_column "vega" data
       && negb (empty (select (VolSignals.in_band 0.85 1.15 price)
                         (select (VolSignals.is_type "call") data)))
    then inl (ValueError "not a valid format string")
    else inr tt.
Proof.
  intros Ht Hs. unfold plot_greeks.
  destruct matplotlib; [| reflexivity]. cbn [negb andb].
  rewrite (require_present _ _ Ht), (require_present _ _ Hs), !bind_ret.
  destruct (empty _).
  - now rewrite andb_false_r.
  - rewrite andb_true_r, panels_outcome. reflexivity.
Qed.

Lemma printed_bind_print {B} (text : string) (args : list arg) (k : unit -> M B) :
  printed (bind (print text args) k) = Msg text args :: printed (k tt).
Proof. now rewrite bind_print. Qed.

Lemma show_table_outcome {R} (cell_of : string -> R -> cell) (cols : list string)
    (df df' : Frame R) (msg : string) :
  columns df' = columns df ->
  outcome (if empty df then print msg []
           else t <- to_string cell_of (filter (fun c => has_column c df') cols) df ;;
                print "{}" [t]) = inr tt.
Proof.
  intros Hc. destruct (empty df); [reflexivity |].
  assert (E : filter (fun c => has_column c df') cols
              = filter (fun c => has_column c df) cols).
  { apply filter_ext. intros c. unfold has_column. now rewrite Hc. }
  rewrite E, to_string_available, bind_ret. reflexivity.
Qed.

(** The common start of a run on a chain that has its price, [dte] and
    [delta] columns. *)
Ltac greeks_start Hne Hp Hrows Hd Hdl :=
  unfold analyze_options_greeks; cbv beta iota;
  rewrite Hne, Hp; cbn [negb];
  rewrite Hrows; cbn [map iloc0]; rewrite bind_ret;
  rewrite (require_present _ _ Hd), (require_present _ _ Hdl), !bind_ret.

Section OneChain.

Variables (chains : DataFrame) (symbol : string) (min_dte max_dte : Z)
  (pct_range : float) (visualize matplotlib : bool) (r0 : Row) (rs : list Row).

Hypothesis Hrows : rows chains = r0 :: rs.
Hypothesis Hp : has_column (VolSignals.price_col chains) chains = true.
Hypothesis Hd : has_column "dte" chains = true.
Hypothesis Hdl : has_column "delta" chains = true.

Let run := analyze_options_greeks (FetchTable chains) symbol min_dte max_dte
             pct_range visualize matplotlib.
Let valid := filter (valid_row min_dte max_dte) (rows chains).

Lemma chain_not_empty : empty chains = false.
Proof.
  apply empty_false; [rewrite Hrows; discriminate | exact (has_column_nonempty _ _ Hd)].
Qed.

(** X9.  When no quote passes the validity filter,
    [analyze_options_greeks] prints the price and the no-valid-options
    message, and returns. *)
Theorem greeks_no_valid_quote :
  valid = [] ->
  run = ([Msg "Fetching options chain for {symbol}..." [AS symbol];
          Msg "Underlying Price: ${price:.2f}"
            [AF (VolSignals.price_field (VolSignals.price_col chains) r0)];
          Msg "No valid options found with Greeks data" []], inr tt).
Proof.
  intros Hv. unfold run. greeks_start chain_not_empty Hp Hrows Hd Hdl.
  unfold valid_options. rewrite empty_select by exact (has_column_nonempty _ _ Hd).
  fold valid. rewrite Hv. reflexivity.
Qed.

Hypothesis He : has_column "expiration" chains = true.
Hypothesis Ht : has_column "option_type" chains = true.
Hypothesis Hs : has_column "strike" chains = true.

(** The outcome of a run is that of its last step, the plot. *)
Lemma greeks_report_outcome :
  outcome run
  = match Py.sorted_unique (map expiration valid) with
    | [] => inr tt
    | expiry :: _ =>
        if visualize
        then outcome (plot_greeks matplotlib
                        (select (IvSurface.on_expiration expiry)
                           (valid_options min_dte max_dte chains))
                        (VolSignals.price_field (VolSignals.price_col chains) r0))
        else inr tt
    end.
Proof.
  unfold run. greeks_start chain_not_empty Hp Hrows Hd Hdl.
  rewrite !(bind_unit_outcome (print _ _)) by reflexivity.
  unfold valid_options at 1. rewrite empty_select by exact (has_column_nonempty _ _ Hd).
  fold valid. destruct valid as [| v0 vs] eqn:Hv; [reflexivity |].
  rewrite (bind_unit_outcome (require _ _)) by (apply require_outcome; exact He).
  change (rows (valid_options min_dte max_dte chains)) with valid. rewrite Hv.
  destruct (Py.sorted_unique _) as [| expiry exps] eqn:Hexp.
  { exfalso. revert Hexp. apply sorted_unique_nonempty. discriminate. }
  destruct (selected_nonempty _ _ _ Hexp) as (first & others & Hsel).
  cbv zeta. cbn [rows select valid_options]. fold valid. rewrite Hv, Hsel.
  cbn [map iloc0]. rewrite bind_ret.
  rewrite !(bind_unit_outcome (print _ _)) by reflexivity.
  rewrite (bind_unit_outcome (require _ _)) by (apply require_outcome; exact Ht).
  rewrite (bind_unit_outcome (require _ _)) by (apply require_outcome; exact Hs).
  rewrite !(bind_unit_outcome (print _ _)) by reflexivity.
  rewrite bind_unit_outcome by (apply show_table_outcome; reflexivity).
  rewrite !(bind_unit_outcome (print _ _)) by reflexivity.
  rewrite bind_unit_outcome by (apply show_table_outcome; reflexivity).
  destruct visualize; reflexivity.
Qed.

(** X11.  When some quote is valid, the expiration reported by
    [analyze_options_greeks] is the earliest one among the valid quotes;
    the DTE shown is that of its first quote and the count is the number
    of valid quotes of that expiration, at least one.  The branch for an
    empty list of expirations is never taken. *)
Theorem greeks_report_earliest_expiration :
  valid <> [] ->
  exists expiry first others rest,
    filter (IvSurface.on_expiration expiry) valid = first :: others
    /\ (forall r, In r valid -> (expiry <= expiration r)%Z)
    /\ printed run
       = Msg "Fetching options chain for {symbol}..." [AS symbol]
         :: Msg "Underlying Price: ${price:.2f}"
              [AF (VolSignals.price_field (VolSignals.price_col chains) r0)]
         :: Msg "Expiration: {expiry} (DTE: {selected['dte'].iloc[0]})"
              [AZ expiry; AZ (dte first)]
         :: Msg "Total contracts: {len(selected)}"
              [AZ (Z.of_nat (List.length (first :: others)))]
         :: rest.
Proof.
  intros Hv.
  destruct (Py.sorted_unique (map expiration valid)) as [| expiry exps] eqn:Hexp.
  { exfalso. revert Hexp. apply sorted_unique_nonempty.
    destruct valid; [congruence | discriminate]. }
  destruct (selected_nonempty _ _ _ Hexp) as (first & others & Hsel).
  destruct (sorted_unique_head _ _ _ Hexp) as [_ Hleast].
  exists expiry, first, others. eexists. repeat apply conj.
  - exact Hsel.
  - intros r Hr. apply Hleast. now apply in_map.
  - unfold run. greeks_start chain_not_empty Hp Hrows Hd Hdl.
    rewrite !printed_bind_print.
    unfold valid_options at 1. rewrite empty_select by exact (has_column_nonempty _ _ Hd).
    fold valid. destruct valid as [| v0 vs] eqn:Hvalid; [congruence |].
    rewrite (require_present "expiration" (valid_options min_dte max_dte chains) He).
    rewrite bind_ret. cbv zeta. cbn [rows select valid_options].
    fold valid. rewrite Hvalid, Hexp, Hsel.
    cbn [map iloc0]. rewrite bind_ret, !printed_bind_print.
    reflexivity.
Qed.

End OneChain.

Lemma greeks_no_valid_quote_witness :
  analyze_options_greeks (FetchTable Examples.null_delta_chain) "SPY" 100 200 0.05
    false true
  = ([Msg "Fetching options chain for {symbol}..." [AS "SPY"];
      Msg "Underlying Price: ${price:.2f}" [AF 100];
      Msg "No valid options found with Greeks data" []], inr tt).
Proof.
  exact (greeks_no_valid_quote Examples.null_delta_chain "SPY" 100 200 0.05 false true
           _ _ eq_refl eq_refl eq_refl eq_refl eq_refl).
Defined.

Lemma greeks_report_earliest_expiration_witness :
  exists expiry first others rest,
    filter (IvSurface.on_expiration expiry)
      (filter (valid_row 7 60) (rows Examples.month_chain)) = first :: others
    /\ (forall r, In r (filter (valid_row 7 60) (rows Examples.month_chain)) ->
          (expiry <= expiration r)%Z)
    /\ printed (analyze_options_greeks (FetchTable Examples.month_chain) "SPY" 7 60
                  0.05 false true)
       = Msg "Fetching options chain for {symbol}..." [AS "SPY"]
         :: Msg "Underlying Price: ${price:.2f}" [AF 100]
         :: Msg "Expiration: {expiry} (DTE: {selected['dte'].iloc[0]})"
              [AZ expiry; AZ (dte first)]
         :: Msg "Total contracts: {len(selected)}"
              [AZ (Z.of_nat (List.length (first :: others)))]
         :: rest.
Proof.
  refine (greeks_report_earliest_expiration Examples.month_chain "SPY" 7 60 0.05
            false true _ _ eq_refl eq_refl eq_refl eq_refl eq_refl _).
  vm_compute. discriminate.
Defined.

(** X10.  On a chain with rows that has the price, [dte], [delta],
    [expiration], [option_type] and [strike] columns,
    [analyze_options_greeks] returns when the plot is off, when matplotlib
    is absent, when the chain has no [vega] column, or when no valid call
    of the reported expiration has a strike within 15% of the price.
    Otherwise, with the plot on, [plot_greeks] reaches the vega panel and
    the run ends on the [ValueError] of its format string. *)
Theorem greeks_report_returns (chains : DataFrame) (symbol : string)
    (min_dte max_dte : Z) (pct_range : float) (visualize matplotlib : bool)
    (r0 : Row) (rs : list Row) :
  rows chains = r0 :: rs ->
  has_column (VolSignals.price_col chains) chains = true ->
  has_column "dte" chains = true ->
  has_column "delta" chains = true ->
  has_column "expiration" chains = true ->
  has_column "option_type" chains = true ->
  has_column "strike" chains = true ->
  let run := analyze_options_greeks (FetchTable chains) symbol min_dte max_dte
               pct_range visualize matplotlib in
  let price := VolSignals.price_field (VolSignals.price_col chains) r0 in
  let valid := filter (valid_row min_dte max_dte) (rows chains) in
  let drawn :=
    match Py.sorted_unique (map expiration valid) with
    | [] => []
    | expiry :: _ =>
        filter (VolSignals.in_band 0.85 1.15 price)
          (filter (VolSignals.is_type "call")
             (filter (IvSurface.on_expiration expiry) valid))
    end in
  (visualize = false \/ matplotlib = false \/ has_column "vega" chains = false
   \/ drawn = [] ->
   outcome run = inr tt)
  /\ (visualize = true -> matplotlib = true -> has_column "vega" chains = true ->
      drawn <> [] ->
      exists msg, outcome run = inl (ValueError msg)).
Proof.
  intros Hrows Hp Hd Hdl He Ht Hs run price valid drawn.
  unfold run.
  rewrite (greeks_report_outcome chains symbol min_dte max_dte pct_range visualize
             matplotlib r0 rs Hrows Hp Hd Hdl He Ht Hs).
  fold valid. unfold drawn.
  destruct (Py.sorted_unique (map expiration valid)) as [| expiry exps].
  { split; [reflexivity | intros _ _ _ H; congruence]. }
  set (selected := select (IvSurface.on_expiration expiry)
                     (valid_options min_dte max_dte chains)).
  assert (Hplot := plot_greeks_outcome matplotlib selected price Ht Hs).
  assert (Hempty : empty (select (VolSignals.in_band 0.85 1.15 price)
                            (select (VolSignals.is_type "call") selected))
                   = match filter (VolSignals.in_band 0.85 1.15 price)
                             (filter (VolSignals.is_type "call")
                                (filter (IvSurface.on_expiration expiry) valid)) with
                     | [] => true
                     | _ :: _ => false
                     end).
  { rewrite empty_select by exact (has_column_nonempty _ _ Hd). reflexivity. }
  rewrite Hempty in Hplot.
  change (has_column "vega" selected) with (has_column "vega" chains) in Hplot.
  fold price. split.
  - intros [-> | [-> | [Hv | Hdr]]]; [reflexivity | | |];
      (destruct visualize; [rewrite Hplot | reflexivity]).
    + reflexivity.
    + rewrite Hv. now rewrite andb_false_r.
    + rewrite Hdr. now rewrite andb_false_r.
  - intros -> -> Hv Hdr. rewrite Hplot, Hv.
    destruct (filter (VolSignals.in_band 0.85 1.15 price) _); [congruence |].
    eexists. reflexivity.
Qed.

Lemma greeks_report_returns_witness :
  (let run := analyze_options_greeks (FetchTable Examples.vega_chain) "SPY" 7 60 0.05
                false true in
   outcome run = inr tt)
  /\ exists msg,
       outcome (analyze_options_greeks (FetchTable Examples.vega_chain) "SPY" 7 60 0.05
                  true true) = inl (ValueError msg).
Proof.
  split.
  - refine (proj1 (greeks_report_returns Examples.vega_chain "SPY" 7 60 0.05 false true
                     _ _ eq_refl eq_refl eq_refl eq_refl eq_refl eq_refl eq_refl)
              (or_introl eq_refl)).
  - refine (proj2 (greeks_report_returns Examples.vega_chain "SPY" 7 60 0.05 true true
                     _ _ eq_refl eq_refl eq_refl eq_refl eq_refl eq_refl eq_refl)
              eq_refl eq_refl eq_refl _).
    vm_compute. discriminate.
Defined.

End GreeksRun.

(** ** Volatility signals: the whole run *)

Section VolRun.
Import VolSignals.
Local Open Scope float_scope.

Lemma for_collect_outcome {A B} (xs : list A) (body : A -> M (option B)) :
  (forall x, In x xs -> exists r, outcome (body x) = inr r) ->
  exists l, outcome (for_collect xs body) = inr l.
Proof.
  induction xs as [| x xs IH]; intros H; [now exists [] |].
  destruct (H x (or_introl eq_refl)) as [r Hr].
  destruct IH as [l Hl]; [intros y Hy; apply H; now right |].
  cbn [for_collect]. rewrite (bind_outcome _ _ _ Hr), (bind_outcome _ _ _ Hl).
  eexists. reflexivity.
Qed.

Section OneChain.

Variables (valid : DataFrame) (price : float).
Hypothesis Hd : has_column "dte" valid = true.
Hypothesis Hs : has_column "strike" valid = true.
Hypothesis Ht : has_column "option_type" valid = true.

Lemma ts_body_outcome (d : Z) : exists r, outcome (ts_body valid price d) = inr r.
Proof.
  unfold ts_body. rewrite (require_present _ _ Hd), (require_present _ _ Hs), !bind_ret.
  destruct (ts_row (rows valid) price d); eexists; reflexivity.
Qed.

Lemma fly_body_outcome (d : Z) : outcome (fly_body valid price d) = inr tt.
Proof.
  unfold fly_body.
  rewrite (require_present _ _ Hd), (require_present _ _ Ht),
    (require_present _ _ Hs), !bind_ret.
  destruct (fly_row (rows valid) price d); reflexivity.
Qed.

Lemma skew_body_outcome (d : Z) : outcome (skew_body valid price d) = inr tt.
Proof.
  rewrite (skew_body_prints valid price d Hd Ht Hs).
  destruct (skew_row (rows valid) price d) as [[? ?] |]; reflexivity.
Qed.

Hypothesis Hb : has_column "bid" valid = true.
Hypothesis Ha : has_column "ask" valid = true.
Hypothesis Hr : Py.round_defined (price / 5) = true.

Lemma straddle_body_outcome (d : Z) : outcome (straddle_body valid price d) = inr tt.
Proof.
  unfold straddle_body.
  rewrite (require_present _ _ Hd), bind_ret, Hr, bind_ret.
  rewrite (require_present _ _ Ht), (require_present _ _ Hs), !bind_ret.
  unfold straddle_row.
  destruct (atm_leg "call" _ price) as [| c cs]; [reflexivity |].
  destruct (atm_leg "put" _ price) as [| p ps]; [reflexivity |].
  rewrite (require_present _ _ Hb), (require_present _ _ Ha), !bind_ret.
  reflexivity.
Qed.

End OneChain.

(** X12.  On a chain with rows that has the price, [dte],
    [implied_volatility], [strike], [option_type], [bid] and [ask]
    columns, and a finite price, [analyze_vol_signals] returns. *)
Theorem analyze_vol_signals_returns (chains : DataFrame) (symbol : string)
    (r0 : Row) (rs : list Row) :
  rows chains = r0 :: rs ->
  has_column (price_col chains) chains = true ->
  has_column "dte" chains = true ->
  has_column "implied_volatility" chains = true ->
  has_column "strike" chains = true ->
  has_column "option_type" chains = true ->
  has_column "bid" chains = true ->
  has_column "ask" chains = true ->
  Py.round_defined (price_field (price_col chains) r0 / 5) = true ->
  outcome (analyze_vol_signals (FetchTable chains) symbol) = inr tt.
Proof.
  intros Hrows Hp Hd Hiv Hs Ht Hb Ha Hr.
  unfold analyze_vol_signals, double_rule, rule. cbv beta iota.
  rewrite !(bind_unit_outcome (print _ _)) by reflexivity.
  rewrite (empty_false chains)
    by (rewrite ?Hrows; eauto using has_column_nonempty; discriminate).
  rewrite Hp. cbn [negb]. rewrite Hrows. cbn [map iloc0]. rewrite bind_ret.
  rewrite (require_present _ _ Hd), (require_present _ _ Hiv), !bind_ret.
  cbv zeta.
  destruct (empty (select valid_row chains)); [reflexivity |].
  rewrite !(bind_unit_outcome (print _ _)) by reflexivity.
  destruct (for_collect_outcome
              (firstn 6 (Py.sorted_unique (map dte (rows (select valid_row chains)))))
              (ts_body (select valid_row chains) (price_field (price_col chains) r0))
              (fun d _ => ts_body_outcome (select valid_row chains) _ Hd Hs d)) as [ts_data Hts].
  rewrite (bind_outcome _ _ _ Hts).
  rewrite bind_unit_outcome.
  2:{ destruct (term_structure ts_data) as [[ts_spread structure] |]; [| reflexivity].
      rewrite (bind_unit_outcome (print _ _)) by reflexivity.
      destruct (String.eqb structure "CONTANGO"); reflexivity. }
  rewrite !(bind_unit_outcome (print _ _)) by reflexivity.
  rewrite bind_unit_outcome
    by (apply for_each_outcome; intros; apply (fly_body_outcome (select valid_row chains) _ Hd Hs Ht)).
  rewrite !(bind_unit_outcome (print _ _)) by reflexivity.
  rewrite bind_unit_outcome
    by (apply for_each_outcome; intros; apply (skew_body_outcome (select valid_row chains) _ Hd Hs Ht)).
  rewrite !(bind_unit_outcome (print _ _)) by reflexivity.
  rewrite bind_unit_outcome
    by (apply for_each_outcome; intros; apply (straddle_body_outcome (select valid_row chains) _ Hd Hs Ht Hb Ha Hr)).
  rewrite !(bind_unit_outcome (print _ _)) by reflexivity.
  rewrite bind_unit_outcome; [reflexivity |].
  destruct (signals (term_structure ts_data)); reflexivity.
Qed.

Lemma analyze_vol_signals_returns_witness :
  outcome (analyze_vol_signals (FetchTable Examples.month_chain) "BTC") = inr tt.
Proof.
  exact (analyze_vol_signals_returns Examples.month_chain "BTC" _ _
           eq_refl eq_refl eq_refl eq_refl eq_refl eq_refl eq_refl eq_refl eq_refl).
Defined.
End VolRun.

(** ** IV surface: the whole run *)

Section SurfaceRun.
Import IvSurface.
Local Open Scope float_scope.

Lemma bind_value {A B} (o : list line) (a : A) (k : A -> M B) :
  bind (o, inr a) k = ((o ++ fst (k a))%list, snd (k a)).
Proof. unfold bind. destruct (k a). reflexivity. Qed.

Lemma for_collect_each {A B} (xs : list A) (body : A -> M (option B))
    (shown : A -> line) (entry : A -> B) :
  (forall x, In x xs -> body x = ([shown x], inr (Some (entry x)))) ->
  for_collect xs body = (map shown xs, inr (map entry xs)).
Proof.
  induction xs as [| x xs IH]; intros H; [reflexivity |].
  cbn [for_collect]. rewrite (H x (or_introl eq_refl)).
  rewrite IH by (intros y Hy; apply H; now right).
  cbn. now rewrite app_nil_r.
Qed.

Lemma for_each_each {A} (xs : list A) (body : A -> M unit) (shown : A -> line) :
  (forall x, In x xs -> body x = ([shown x], inr tt)) ->
  for_each xs body = (map shown xs, inr tt).
Proof.
  induction xs as [| x xs IH]; intros H; [reflexivity |].
  cbn [for_each]. rewrite (H x (or_introl eq_refl)).
  rewrite IH by (intros y Hy; apply H; now right). reflexivity.
Qed.

Lemma plot_iv_surface_outcome (matplotlib : bool) (data : DataFrame) (price : float) :
  has_column "option_type" data = true ->
  has_column "strike" data = true ->
  has_column "dte" data = true ->
  has_column "implied_volatility" data = true ->
  outcome (plot_iv_surface matplotlib data price) = inr tt.
Proof.
  intros Ht Hs Hd Hiv. unfold plot_iv_surface.
  destruct matplotlib; [| reflexivity]. cbn [negb].
  rewrite (require_present _ _ Ht), (require_present _ _ Hs), !bind_ret.
  destruct (_ <? _)%nat; [reflexivity |].
  now rewrite (require_present _ _ Hd), (require_present _ _ Hiv).
Qed.

(** X13.  On a chain with the columns it reads and at least one valid
    quote, [analyze_iv_surface] prints one summary row and then one skew
    line for each of the first eight expirations of the valid quotes, in
    ascending order, with the skew of an expiration being its put IV
    minus its call IV (no test that either is positive), and returns;
    without [plot] nothing follows the skew lines.  The three IVs of a row
    are the means, in percent and summed in numpy's order, over the
    at-the-money quotes, the calls and the puts of the expiration, 0
    standing for a group with no quote. *)
Theorem iv_surface_one_row_per_expiration (chains : DataFrame) (symbol : string)
    (plot matplotlib : bool) (r0 : Row) (rs : list Row) :
  rows chains = r0 :: rs ->
  has_column "underlying_price" chains = true ->
  has_column "dte" chains = true ->
  has_column "implied_volatility" chains = true ->
  has_column "expiration" chains = true ->
  has_column "strike" chains = true ->
  has_column "option_type" chains = true ->
  let price := underlying_price r0 in
  let valid := filter valid_row (rows chains) in
  valid <> [] ->
  let shown := firstn 8 (Py.sorted_unique (map expiration valid)) in
  let entry := fun exp =>
    let exp_data := filter (on_expiration exp) valid in
    iv_row exp_data price exp (hd 0%Z (map dte exp_data)) in
  (exists plot_lines,
    analyze_iv_surface (FetchTable chains) symbol plot matplotlib
    = ([Msg "Fetching options chain for {symbol}..." [AS symbol];
        Msg "Underlying: ${price:.2f}" [AF price];
        Msg "{'='*70}" []; Msg "IV SUMMARY BY EXPIRATION" []; Msg "{'='*70}" [];
        Msg "{'Expiration':<12} {'DTE':>6} {'ATM IV':>10} {'Call IV':>10} {'Put IV':>10}" [];
        Msg "----------------------------------------------------------------------" []]
       ++ map (fun exp =>
                 Msg "{str(exp):<12} {dte:>6} {atm_iv:>9.1f}% {call_iv:>9.1f}% {put_iv:>9.1f}%"
                   [AZ exp; AZ (iv_dte (entry exp)); AF (atm_iv (entry exp));
                    AF (call_iv (entry exp)); AF (put_iv (entry exp))]) shown
       ++ [Msg "{'='*70}" []; Msg "IV SKEW (Put IV - Call IV)" []; Msg "{'='*70}" []]
       ++ map (fun exp =>
                 Msg "{str(d['expiration']):<12} Skew: {skew:+.1f}% {direction}"
                   [AZ exp; AF (put_iv (entry exp) - call_iv (entry exp));
                    AS (direction_of (put_iv (entry exp) - call_iv (entry exp)))]) shown
       ++ plot_lines, inr tt)%list
    /\ (plot = false -> plot_lines = []))
  /\ (forall exp,
        let exp_data := filter (on_expiration exp) valid in
        atm_iv (entry exp)
        = Spec.mean_percent_or_0 (map implied_volatility (atm_group exp_data price))
        /\ call_iv (entry exp)
           = Spec.mean_percent_or_0 (map implied_volatility (calls_group exp_data))
        /\ put_iv (entry exp)
           = Spec.mean_percent_or_0 (map implied_volatility (puts_group exp_data))).
Proof.
  intros Hrows Hu Hd Hiv He Hs Ht price valid Hv shown entry.
  split.
  2:{ intros exp exp_data.
      assert (Hnn : forall r, In r valid -> Py.notna (implied_volatility r) = true).
      { intros r Hr. apply filter_In in Hr. destruct Hr as [_ Hr].
        unfold valid_row in Hr. rewrite !andb_true_iff in Hr. tauto. }
      unfold entry, iv_row. cbn [atm_iv call_iv put_iv]. fold exp_data.
      repeat split; apply (mean_iv_or_0_valid valid); try exact Hnn;
        intros r Hr; unfold atm_group, calls_group, puts_group in Hr;
        apply filter_In in Hr; destruct Hr as [Hr _];
        unfold exp_data in Hr; now apply filter_In in Hr. }
  assert (Hcols : columns chains <> []) by eauto using has_column_nonempty.
  unfold analyze_iv_surface. cbv beta iota.
  rewrite (empty_false chains) by (rewrite ?Hrows; auto; discriminate).
  rewrite (require_present _ _ Hu), bind_ret.
  rewrite Hrows. cbn [map iloc0]. rewrite bind_ret. fold price.
  rewrite (require_present _ _ Hd), (require_present _ _ Hiv), !bind_ret.
  cbv zeta. rewrite empty_select by exact Hcols. fold valid.
  assert (Hm : match valid with [] => true | _ :: _ => false end = false)
    by (destruct valid; congruence).
  rewrite Hm.
  rewrite (require_present "expiration" (select valid_row chains) He), bind_ret.
  cbn [rows select]. fold valid. fold shown.
  rewrite (for_collect_each shown _
             (fun exp =>
                Msg "{str(exp):<12} {dte:>6} {atm_iv:>9.1f}% {call_iv:>9.1f}% {put_iv:>9.1f}%"
                  [AZ exp; AZ (iv_dte (entry exp)); AF (atm_iv (entry exp));
                   AF (call_iv (entry exp)); AF (put_iv (entry exp))])
             entry).
  2:{ intros exp Hexp. unfold shown in Hexp. apply In_firstn in Hexp.
      apply (proj1 (sorted_unique_In _ _)) in Hexp.
      apply in_map_iff in Hexp. destruct Hexp as (rx & Hrx & Hin).
      unfold summary_body. cbn [rows select]. 
      assert (Hf : In rx (filter (on_expiration exp) valid)).
      { apply filter_In. split; [exact Hin |]. unfold on_expiration. now apply Z.eqb_eq. }
      unfold entry. cbv zeta. fold valid.
      destruct (filter (on_expiration exp) valid) as [| f fs]; [destruct Hf |].
      cbn [map iloc0 hd]. rewrite bind_ret.
      rewrite (require_present "strike" (select valid_row chains) Hs).
      rewrite (require_present "option_type" (select valid_row chains) Ht).
      rewrite !bind_ret. reflexivity. }
  set (P := if plot then plot_iv_surface matplotlib (select valid_row chains) price
            else ret tt).
  assert (HP : outcome P = inr tt).
  { unfold P. destruct plot; [| reflexivity].
    apply plot_iv_surface_outcome; assumption. }
  exists (printed P). split.
  - rewrite !bind_print. cbv beta. rewrite bind_value. cbv beta.
    rewrite !bind_print. cbv beta.
    rewrite (for_each_each (map entry shown) skew_body
               (fun d => Msg "{str(d['expiration']):<12} Skew: {skew:+.1f}% {direction}"
                           [AZ (iv_expiration d); AF (skew_of d);
                            AS (direction_of (skew_of d))]))
      by reflexivity.
    rewrite bind_value. cbv beta. rewrite map_map.
    unfold outcome, printed in *. cbn [fst snd]. rewrite HP.
    reflexivity.
  - intros ->. reflexivity.
Qed.

Lemma iv_surface_one_row_per_expiration_witness :
  exists plot_lines,
    analyze_iv_surface (FetchTable Examples.bearish_chain) "SPY" false true
    = ([Msg "Fetching options chain for {symbol}..." [AS "SPY"];
        Msg "Underlying: ${price:.2f}" [AF 100];
        Msg "{'='*70}" []; Msg "IV SUMMARY BY EXPIRATION" []; Msg "{'='*70}" [];
        Msg "{'Expiration':<12} {'DTE':>6} {'ATM IV':>10} {'Call IV':>10} {'Put IV':>10}" [];
        Msg "----------------------------------------------------------------------" [];
        Msg "{str(exp):<12} {dte:>6} {atm_iv:>9.1f}% {call_iv:>9.1f}% {put_iv:>9.1f}%"
          [AZ 739030; AZ 30; AF 0; AF 22; AF 24.000000000000004];
        Msg "{'='*70}" []; Msg "IV SKEW (Put IV - Call IV)" []; Msg "{'='*70}" [];
        Msg "{str(d['expiration']):<12} Skew: {skew:+.1f}% {direction}"
          [AZ 739030; AF 2.0000000000000036; AS "↑ Bearish"]]
       ++ plot_lines, inr tt)%list
    /\ (false = false -> plot_lines = []).
Proof.
  refine (proj1 (iv_surface_one_row_per_expiration Examples.bearish_chain "SPY"
                   false true _ _
                   eq_refl eq_refl eq_refl eq_refl eq_refl eq_refl eq_refl _)).
  vm_compute. discriminate.
Defined.

End SurfaceRun.

(** ** Missing columns, expirations, summary *)

Section MissingColumns.
Local Open Scope float_scope.

(** X14.  On a chain with no [delta] column, [analyze_options_greeks]
    prints the price and raises [KeyError] for [delta]. *)
Theorem greeks_need_delta_column (chains : DataFrame) (symbol : string)
    (min_dte max_dte : Z) (pct_range : float) (visualize matplotlib : bool)
    (r0 : Row) (rs : list Row) :
  rows chains = r0 :: rs ->
  has_column (VolSignals.price_col chains) chains = true ->
  has_column "dte" chains = true ->
  has_column "delta" chains = false ->
  OptionsGreeks.analyze_options_greeks (FetchTable chains) symbol min_dte max_dte
    pct_range visualize matplotlib
  = ([Msg "Fetching options chain for {symbol}..." [AS symbol];
      Msg "Underlying Price: ${price:.2f}"
        [AF (VolSignals.price_field (VolSignals.price_col chains) r0)]],
     inl (KeyError "delta")).
Proof.
  intros Hrows Hp Hd Hdl.
  unfold OptionsGreeks.analyze_options_greeks. cbv beta iota.
  rewrite (empty_false chains)
    by (rewrite ?Hrows; eauto using has_column_nonempty; discriminate).
  rewrite Hp. cbn [negb]. rewrite Hrows. cbn [map iloc0]. rewrite bind_ret.
  rewrite (require_present _ _ Hd), bind_ret.
  rewrite (require_absent _ _ Hdl), bind_raise.
  reflexivity.
Qed.

Lemma greeks_need_delta_column_witness :
  OptionsGreeks.analyze_options_greeks (FetchTable Examples.no_greeks_chain) "SPY"
    7 60 0.05 false true
  = ([Msg "Fetching options chain for {symbol}..." [AS "SPY"];
      Msg "Underlying Price: ${price:.2f}" [AF 100]],
     inl (KeyError "delta")).
Proof.
  exact (greeks_need_delta_column Examples.no_greeks_chain "SPY" 7 60 0.05 false true
           _ _ eq_refl eq_refl eq_refl eq_refl).
Defined.

Import VolSignals.

(** X15.  On a chain with a valid quote but no [strike] column,
    [analyze_vol_signals] raises [KeyError] for [strike] right after the
    term-structure heading. *)
Theorem vol_signals_need_strike_column (chains : DataFrame) (symbol : string)
    (r0 : Row) (rs : list Row) :
  rows chains = r0 :: rs ->
  has_column (price_col chains) chains = true ->
  has_column "dte" chains = true ->
  has_column "implied_volatility" chains = true ->
  has_column "strike" chains = false ->
  filter valid_row (rows chains) <> [] ->
  exists shown,
    analyze_vol_signals (FetchTable chains) symbol
    = ((shown ++ [Msg "{'─'*60}" []; Msg "TERM STRUCTURE" []; Msg "{'─'*60}" []])%list,
       inl (KeyError "strike")).
Proof.
  intros Hrows Hp Hd Hiv Hs Hv.
  assert (Hcols : columns chains <> []) by eauto using has_column_nonempty.
  unfold analyze_vol_signals, double_rule, rule. cbv beta iota.
  rewrite (empty_false chains) by (rewrite ?Hrows; auto; discriminate).
  rewrite Hp. cbn [negb]. rewrite Hrows. cbn [map iloc0]. rewrite bind_ret.
  rewrite (require_present _ _ Hd), (require_present _ _ Hiv), !bind_ret.
  cbv zeta. rewrite empty_select by exact Hcols.
  cbn [rows select].
  destruct (filter valid_row (rows chains)) as [| v0 vs] eqn:Hvalid; [congruence |].
  destruct (Py.sorted_unique (map dte (v0 :: vs))) as [| d ds] eqn:Hexp.
  { exfalso. assert (H : In (dte v0) (Py.sorted_unique (map dte (v0 :: vs))))
      by (apply sorted_unique_In; now left).
    rewrite Hexp in H. destruct H. }
  cbn [firstn for_collect]. unfold ts_body at 1.
  rewrite (require_present "dte" (select valid_row chains) Hd), bind_ret.
  rewrite (require_absent "strike" (select valid_row chains) Hs), !bind_raise.
  rewrite !bind_print. cbn [fst snd raise].
  eexists [_; _; _; _; _]. reflexivity.
Qed.

Lemma vol_signals_need_strike_column_witness :
  exists shown,
    analyze_vol_signals (FetchTable Examples.no_strike_chain) "BTC"
    = ((shown ++ [Msg "{'─'*60}" []; Msg "TERM STRUCTURE" []; Msg "{'─'*60}" []])%list,
       inl (KeyError "strike")).
Proof.
  refine (vol_signals_need_strike_column Examples.no_strike_chain "BTC" _ _
            eq_refl eq_refl eq_refl eq_refl eq_refl _).
  vm_compute. discriminate.
Defined.

(** X16.  The expirations of [analyze_vol_signals] are strictly ascending
    (so distinct), they are exactly the [dte] values of the valid quotes,
    each is at least 1, and at most eight are shown. *)
Theorem expirations_ascending_from_valid_rows (chains : DataFrame) :
  let valid := filter valid_row (rows chains) in
  let expirations := Py.sorted_unique (map dte valid) in
  StronglySorted Z.lt expirations
  /\ (forall d, In d expirations
        <-> exists r, In r (rows chains) /\ valid_row r = true /\ dte r = d)
  /\ (forall d, In d expirations -> (1 <= d)%Z)
  /\ (List.length (firstn 8 expirations) <= 8)%nat.
Proof.
  intros valid expirations.
  assert (Hin : forall d, In d expirations
            <-> exists r, In r (rows chains) /\ valid_row r = true /\ dte r = d).
  { intros d. unfold expirations. rewrite sorted_unique_In, in_map_iff.
    split; intros (r & H1 & H2).
    - apply filter_In in H2. destruct H2. now exists r.
    - destruct H2 as [H2 H3]. exists r. split; [exact H3 |].
      apply filter_In. now split. }
  repeat apply conj.
  - apply sorted_unique_sorted.
  - exact Hin.
  - intros d Hd. apply Hin in Hd. destruct Hd as (r & _ & Hv & <-).
    unfold valid_row in Hv. rewrite !andb_true_iff in Hv.
    destruct Hv as [[Hge _] _]. apply Z.geb_le in Hge. lia.
  - apply firstn_le_length.
Qed.

(** Comparisons of a float with constants, by its class and sign. *)
Ltac by_class s :=
  rewrite ?FloatAxioms.ltb_spec;
  repeat match goal with
         | |- context [Prim2SF ?c] =>
             lazymatch c with
             | s => fail
             | _ => let v := eval vm_compute in (Prim2SF c) in
                    change (Prim2SF c) with v
             end
         end;
  destruct (Prim2SF s) as [[|] | [|] | | [|] ? ?];
  unfold SFltb, SFcompare.

Lemma zero_below_2 (s : float) : (2 <? s) = true -> (0 <? s) = true.
Proof. by_class s; congruence. Qed.

Lemma below_minus_2_not_positive (s : float) : (s <? -2) = true -> (0 <? s) = false.
Proof. by_class s; congruence. Qed.

(** X17.  The summary of [analyze_vol_signals] agrees with the structure
    line: the strong-contango signal appears exactly when the spread is
    above 2 and then the structure is CONTANGO; the backwardation signal
    exactly when the spread is below -2 and then the structure is
    BACKWARDATION; no signal otherwise, nor when fewer than two expiries
    were collected. *)
Theorem summary_signal_agrees_with_structure (ts_data : list ts_entry) :
  match term_structure ts_data with
  | None => signals (term_structure ts_data) = []
  | Some (ts_spread, structure) =>
      (signals (term_structure ts_data) = ["[+] Strong Contango: Sell calendar spreads"]
       <-> (2 <? ts_spread) = true)
      /\ (signals (term_structure ts_data) = ["[+] Backwardation: Vol compression expected"]
          <-> (ts_spread <? -2) = true)
      /\ (signals (term_structure ts_data) = []
          <-> (2 <? ts_spread) = false /\ (ts_spread <? -2) = false)
      /\ ((2 <? ts_spread) = true -> structure = "CONTANGO")
      /\ ((ts_spread <? -2) = true -> structure = "BACKWARDATION")
  end.
Proof.
  unfold term_structure.
  destruct ts_data as [| first [| second rest]]; [reflexivity | reflexivity |].
  set (s := ts_atm_iv (last _ _) - ts_atm_iv first).
  unfold signals, structure_of, Py.gtb.
  pose proof (above_2_not_below s) as H1.
  pose proof (zero_below_2 s) as H2.
  pose proof (below_minus_2_not_positive s) as H3.
  destruct (2 <? s) eqn:Ea, (s <? -2) eqn:Eb;
    try (specialize (H1 eq_refl); discriminate);
    repeat apply conj; try split; intros;
    try discriminate; try reflexivity; try tauto;
    try (rewrite H2 by reflexivity; reflexivity);
    try (rewrite H3 by reflexivity; reflexivity);
    try match goal with H : _ /\ _ |- _ => destruct H; discriminate end.
Qed.
End MissingColumns.

(** ** Fetch failures *)

Section Fetching.
Import Perpetual.
Local Open Scope float_scope.

(** X8.  On a fetched table, [list_instruments] returns exactly when the
    table has the three columns it prints; otherwise it raises. *)
Theorem list_instruments_returns_iff_columns (instruments : Frame Instrument) :
  outcome (list_instruments (FetchTable instruments)) = inr tt
  <-> has_column "symbol" instruments = true
      /\ has_column "last_price" instruments = true
      /\ has_column "open_interest" instruments = true.
Proof.
  unfold list_instruments, to_string, require. cbn [for_each].
  change (has_column "symbol" (select is_perpetual instruments))
    with (has_column "symbol" instruments).
  change (has_column "last_price" (select is_perpetual instruments))
    with (has_column "last_price" instruments).
  change (has_column "open_interest" (select is_perpetual instruments))
    with (has_column "open_interest" instruments).
  destruct (has_column "symbol" instruments),
    (has_column "last_price" instruments),
    (has_column "open_interest" instruments); cbn;
    split; try tauto; try discriminate; intros (? & ? & ?); discriminate.
Qed.

(** X18.  An exception raised by the first fetch is caught in each of the
    six entry points: the function prints one line with the exception and
    returns. *)
Theorem fetch_failure_is_reported (e : exn) (symbol : string) :
  VolSignals.analyze_vol_signals (FetchRaises e) symbol
  = ([Msg "{'='*60}" []; Msg "VOLATILITY SIGNALS: {symbol}" [AS symbol];
      Msg "{'='*60}" []; Msg "Error fetching data: {e}" [AE e]], inr tt)
  /\ (forall hist_fetch lookback_days,
        VolSignals.calculate_vrp (FetchRaises e) hist_fetch symbol lookback_days
        = ([Msg "{'='*60}" []; Msg "VRP ANALYSIS: {symbol}" [AS symbol];
            Msg "{'='*60}" []; Msg "Error: {e}" [AE e]], inr tt))
  /\ (forall plot matplotlib,
        IvSurface.analyze_iv_surface (FetchRaises e) symbol plot matplotlib
        = ([Msg "Fetching options chain for {symbol}..." [AS symbol];
            Msg "Error fetching options chain: {e}" [AE e]], inr tt))
  /\ (forall min_dte max_dte pct_range visualize matplotlib,
        OptionsGreeks.analyze_options_greeks (FetchRaises e) symbol min_dte max_dte
          pct_range visualize matplotlib
        = ([Msg "Fetching options chain for {symbol}..." [AS symbol];
            Msg "Error fetching options chain: {e}" [AE e]], inr tt))
  /\ (forall symbols show_all,
        analyze_perpetuals (FetchRaises e) symbols show_all
        = ([Msg "Error fetching data for {symbol_str}: {e}"
              [AS (String.concat "," symbols); AE e]], inr tt))
  /\ list_instruments (FetchRaises e)
     = ([Msg "Error fetching instruments: {e}" [AE e]], inr tt).
Proof. repeat apply conj; reflexivity. Qed.
End Fetching.

(** ** Fly and straddle lines *)

Section FlyAndStraddle.
Import VolSignals.
Local Open Scope float_scope.

(** X19.  The fly line of [analyze_vol_signals] for one expiry is printed
    exactly when the mean IVs of the at-the-money calls, of the call wing
    and of the put wing are all above 0, which needs the three groups to
    have rows; it then carries the mean of the two wings, the
    at-the-money mean, and their difference.  On valid quotes the three
    IVs are the means, in percent and summed in numpy's order, of their
    groups, 0 standing for a group with no quote. *)
Theorem fly_line_is_wings_minus_atm (valid : DataFrame) (price : float) (d : Z) :
  has_column "dte" valid = true ->
  has_column "option_type" valid = true ->
  has_column "strike" valid = true ->
  let atm_iv := mean_iv_or_0 (atm_calls (rows valid) price d) in
  let call_25d_iv := mean_iv_or_0 (otm_calls (rows valid) price d) in
  let put_25d_iv := mean_iv_or_0 (otm_puts (rows valid) price d) in
  let wings := (call_25d_iv + put_25d_iv) / 2 in
  ((0 <? atm_iv) = true /\ (0 <? call_25d_iv) = true /\ (0 <? put_25d_iv) = true ->
   fly_body valid price d
   = ([Msg "  DTE {dte:3d}: Fly = {fly:+.2f}% (ATM={atm_iv:.1f}%, Wings avg={((call_25d_iv+put_25d_iv)/2):.1f}%)"
         [AZ d; AF (wings - atm_iv); AF atm_iv; AF wings]], inr tt)
   /\ atm_calls (rows valid) price d <> []
   /\ otm_calls (rows valid) price d <> []
   /\ otm_puts (rows valid) price d <> [])
  /\ ((0 <? atm_iv) = false \/ (0 <? call_25d_iv) = false \/ (0 <? put_25d_iv) = false ->
      fly_body valid price d = ([], inr tt))
  /\ ((forall r, In r (rows valid) -> valid_row r = true) ->
      atm_iv
      = Spec.mean_percent_or_0 (map implied_volatility (atm_calls (rows valid) price d))
      /\ call_25d_iv
         = Spec.mean_percent_or_0 (map implied_volatility (otm_calls (rows valid) price d))
      /\ put_25d_iv
         = Spec.mean_percent_or_0 (map implied_volatility (otm_puts (rows valid) price d))).
Proof.
  intros Hd Ht Hs atm_iv call_25d_iv put_25d_iv wings.
  assert (Hbody : fly_body valid price d
                  = match fly_row (rows valid) price d with
                    | Some f =>
                        ([Msg "  DTE {dte:3d}: Fly = {fly:+.2f}% (ATM={atm_iv:.1f}%, Wings avg={((call_25d_iv+put_25d_iv)/2):.1f}%)"
                            [AZ d; AF (fly f); AF (fly_atm f); AF (fly_wings f)]], inr tt)
                    | None => ([], inr tt)
                    end).
  { unfold fly_body, require. rewrite Hd, Ht, Hs.
    destruct (fly_row (rows valid) price d); reflexivity. }
  rewrite Hbody. unfold fly_row, Py.gtb.
  fold atm_iv call_25d_iv put_25d_iv. repeat apply conj.
  - intros (Ha & Hc & Hp). rewrite Ha, Hc, Hp. cbn [andb].
    repeat apply conj; [reflexivity | | |];
      eapply (proj1 (mean_iv_or_0_positive _ _)).
    Unshelve. all: assumption.
  - intros [H | [H | H]]; rewrite H; rewrite ?andb_false_r; reflexivity.
  - intros Hv.
    assert (Hnn : forall r, In r (rows valid) -> Py.notna (implied_volatility r) = true)
      by (intros r Hr; apply valid_row_notna, Hv, Hr).
    repeat split; apply (mean_iv_or_0_valid (rows valid)); try exact Hnn;
      intros r Hr; now apply in_wing in Hr.
Qed.

Lemma fly_line_is_wings_minus_atm_witness :
  (fly_body Examples.fly_chain 100 30
   = ([Msg "  DTE {dte:3d}: Fly = {fly:+.2f}% (ATM={atm_iv:.1f}%, Wings avg={((call_25d_iv+put_25d_iv)/2):.1f}%)"
         [AZ 30; AF 4; AF 20; AF 24]], inr tt)
   /\ atm_calls (rows Examples.fly_chain) 100 30 <> []
   /\ otm_calls (rows Examples.fly_chain) 100 30 <> []
   /\ otm_puts (rows Examples.fly_chain) 100 30 <> [])
  /\ fly_body Examples.term_chain 100 30 = ([], inr tt)
  /\ mean_iv_or_0 (otm_puts (rows Examples.fly_chain) 100 30)
     = Spec.mean_percent_or_0
         (map implied_volatility (otm_puts (rows Examples.fly_chain) 100 30)).
Proof.
  repeat apply conj.
  - exact (proj1 (proj1 (fly_line_is_wings_minus_atm Examples.fly_chain 100 30
                           eq_refl eq_refl eq_refl)
                    (conj eq_refl (conj eq_refl eq_refl)))).
  - exact (proj1 (proj2 (proj1 (fly_line_is_wings_minus_atm Examples.fly_chain 100 30
                                  eq_refl eq_refl eq_refl)
                           (conj eq_refl (conj eq_refl eq_refl))))).
  - exact (proj1 (proj2 (proj2 (proj1 (fly_line_is_wings_minus_atm Examples.fly_chain
                                         100 30 eq_refl eq_refl eq_refl)
                                  (conj eq_refl (conj eq_refl eq_refl)))))).
  - exact (proj2 (proj2 (proj2 (proj1 (fly_line_is_wings_minus_atm Examples.fly_chain
                                         100 30 eq_refl eq_refl eq_refl)
                                  (conj eq_refl (conj eq_refl eq_refl)))))).
  - exact (proj1 (proj2 (fly_line_is_wings_minus_atm Examples.term_chain 100 30
                           eq_refl eq_refl eq_refl))
             (or_intror (or_introl eq_refl))).
  - exact (proj2 (proj2 (proj2 (proj2
             (fly_line_is_wings_minus_atm Examples.fly_chain 100 30
                eq_refl eq_refl eq_refl))
             (proj1 (forallb_forall valid_row (rows Examples.fly_chain)) eq_refl)))).
Defined.


End FlyAndStraddle.
